(** * The bootstrap layer of cetus: [src/mysql-proxy-cli.c]

    A shallow embedding of the command-line front end of cetus: the option
    table, the crash handler, the plugin-mode check, parameter
    initialisation and the ordered start-up sequence of [main_cmdline] with
    its single exit funnel.

    C [int] is a 32-bit two's-complement integer held in [Z]; [double] is
    IEEE binary64, held in a primitive float; a [gchar *] is an
    [option string] ([None] is [NULL]); a [gchar **] vector is an
    [option (list string)].  Functions that log take the log written so far
    (newest entry first) and return it extended. *)

From Stdlib Require Import ZArith List String Bool Lia PrimFloat Sorted.
Import ListNotations.
Local Open Scope string_scope.
Local Open Scope Z_scope.

(** ** Machine integers *)

Module Int.

Definition min_signed : Z := -2147483648.
Definition max_signed : Z := 2147483647.
Definition modulus : Z := 4294967296.

Definition in_range (z : Z) : Prop := min_signed <= z <= max_signed.

Definition in_rangeb (z : Z) : bool := (min_signed <=? z) && (z <=? max_signed).

(** The value an [int] holds after a computation whose mathematical result
    is [z]: reduction modulo 2^32 into the signed range. *)
Definition wrap (z : Z) : Z := (z + 2147483648) mod modulus - 2147483648.

(** [x << n] on [int]. *)
Definition shl (x n : Z) : Z := wrap (Z.shiftl x n).

(** glib's [MAX], [MIN] and [CLAMP] macros. *)
Definition MAX (a b : Z) : Z := if a >? b then a else b.
Definition MIN (a b : Z) : Z := if a <? b then a else b.
Definition CLAMP (x low high : Z) : Z :=
  if x >? high then high else if x <? low then low else x.

End Int.

(** ** Log lines and other observable actions *)

Inductive GLogLevelFlags :=
| G_LOG_LEVEL_ERROR
| G_LOG_LEVEL_CRITICAL
| G_LOG_LEVEL_WARNING
| G_LOG_LEVEL_MESSAGE
| G_LOG_LEVEL_INFO
| G_LOG_LEVEL_DEBUG.

(** An argument of a printf-style call.  [G_STRLOC] is the source line of
    the call site. *)
Inductive fmt_arg :=
| AInt (z : Z)
| ADouble (d : float)
| AStr (s : string)
| ANull
| G_STRLOC (line : Z).

Inductive signum := SIGSEGV | SIGPIPE | SIGABRT.

Inductive sighandler := SIG_DFL | SIG_IGN | sigsegv_handler_fn.

(** Calls into the rest of the chassis and the operating system that
    [main_cmdline] makes for their effect, with the value returned where
    the caller tests it. *)
Inductive extcall :=
| chassis_frontend_print_version
| sigaction (sig : signum) (h : sighandler)
| signal (sig : signum) (h : sighandler)
| chassis_frontend_load_plugins (plugin_dir : option string) (names : list string) (ret : Z)
| chassis_frontend_init_plugins (ret : Z)
| chassis_frontend_print_plugin_versions
| chassis_unix_daemonize
| chassis_unix_proc_keepalive (ret : Z)
| chassis_frontend_write_pidfile (path : string) (ret : Z)
| chassis_frontend_log_plugin_versions
| tc_log_init (path : option string) (ret : Z)
| chassis_fdlimit_set (n : Z) (ret : Z)
| cetus_monitor_start_thread
| chassis_mainloop (ret : Z)
| cetus_monitor_stop_thread
| chassis_set_shutdown_location (location : Z)
| g_error_free
| chassis_free
| chassis_options_free
| chassis_log_free
| tc_log_end
| chassis_frontend_free
| fclose.

Inductive event :=
| g_log (lvl : GLogLevelFlags) (format : string) (args : list fmt_arg)
| g_print (format : string)
| call (c : extcall).

(** The log, newest entry first. *)
Definition trace := list event.

Definition g_critical (format : string) (args : list fmt_arg) (tr : trace) : trace :=
  g_log G_LOG_LEVEL_CRITICAL format args :: tr.
Definition g_warning (format : string) (args : list fmt_arg) (tr : trace) : trace :=
  g_log G_LOG_LEVEL_WARNING format args :: tr.
Definition g_message (format : string) (args : list fmt_arg) (tr : trace) : trace :=
  g_log G_LOG_LEVEL_MESSAGE format args :: tr.
Definition g_debug (format : string) (args : list fmt_arg) (tr : trace) : trace :=
  g_log G_LOG_LEVEL_DEBUG format args :: tr.

(** ** Build-time configuration

    The preprocessor symbols the file tests, and the constants it takes
    from headers that are not part of this file. *)

Record build_config := {
  HAVE_SIGACTION : bool;
  HAVE_VALGRIND_VALGRIND_H : bool;
  SIMPLE_PARSER : bool;
  DEFAULT_PLUGIN : option string;
  CHASSIS_BUILD_TAG : option string;
  PACKAGE_STRING : string;
  MAX_QUERY_TIME : Z;
  MAX_ALLOWED_PACKET_DEFAULT : Z;
  MAX_ALLOWED_PACKET_FLOOR : Z;
  MAX_ALLOWED_PACKET_CEIL : Z;
  GLIB_MAJOR_VERSION : Z;
  GLIB_MINOR_VERSION : Z;
  GLIB_MICRO_VERSION : Z;
  G_GINT64_FORMAT : string
}.

(** ** Option values and key files *)

(** The kinds of option argument ([chassis-options.h]). *)
Inductive option_type :=
| OPTION_ARG_NONE
| OPTION_ARG_INT
| OPTION_ARG_DOUBLE
| OPTION_ARG_STRING
| OPTION_ARG_STRING_ARRAY.

(** A value as a configuration source gives it, already converted to the
    kind it is written in. *)
Inductive opt_value :=
| VFlag
| VInt (z : Z)
| VDouble (d : float)
| VString (s : string)
| VStrings (l : list string).

(** A key file: groups in file order, each an ordered key-to-value
    mapping. *)
Definition GKeyFile := list (string * list (string * opt_value)).

(** ** The front-end record

    [p] and [config_entries] are never assigned in this file. *)

Record chassis_frontend_t := {
  print_version : Z;
  verbose_shutdown : Z;
  daemon_mode : Z;
  set_client_found_rows : Z;
  default_pool_size : Z;
  max_pool_size : Z;
  merged_output_size : Z;
  max_header_size : Z;
  max_resp_len : Z;
  master_preferred : Z;
  worker_id : Z;
  config_port : Z;
  disable_threads : Z;
  is_tcp_stream_enabled : Z;
  is_back_compressed : Z;
  is_client_compress_support : Z;
  check_slave_delay : Z;
  is_reduce_conns : Z;
  is_reset_conn_enabled : Z;
  long_query_time : Z;
  xa_log_detailed : Z;
  cetus_max_allowed_packet : Z;
  default_query_cache_timeout : Z;
  query_cache_enabled : Z;
  disable_dns_cache : Z;
  slave_delay_down_threshold_sec : float;
  slave_delay_recover_threshold_sec : float;
  invoke_dbg_on_crash : Z;
  auto_restart : Z;
  max_files_number : Z;
  user : option string;
  base_dir : option string;
  conf_dir : option string;
  default_file : option string;
  keyfile : option GKeyFile;
  p : option unit;
  config_entries : option unit;
  pid_file : option string;
  plugin_dir : option string;
  plugin_names : option (list string);
  log_level : option string;
  log_filename : option string;
  log_xa_filename : option string;
  default_username : option string;
  default_charset : option string;
  default_db : option string;
  remote_config_url : option string
}.

(** The record rebuilt field by field; assignment to one field replaces
    that field's projection in this term. *)
Definition frontend_eta (x : chassis_frontend_t) : chassis_frontend_t :=
  {| print_version := print_version x;
     verbose_shutdown := verbose_shutdown x;
     daemon_mode := daemon_mode x;
     set_client_found_rows := set_client_found_rows x;
     default_pool_size := default_pool_size x;
     max_pool_size := max_pool_size x;
     merged_output_size := merged_output_size x;
     max_header_size := max_header_size x;
     max_resp_len := max_resp_len x;
     master_preferred := master_preferred x;
     worker_id := worker_id x;
     config_port := config_port x;
     disable_threads := disable_threads x;
     is_tcp_stream_enabled := is_tcp_stream_enabled x;
     is_back_compressed := is_back_compressed x;
     is_client_compress_support := is_client_compress_support x;
     check_slave_delay := check_slave_delay x;
     is_reduce_conns := is_reduce_conns x;
     is_reset_conn_enabled := is_reset_conn_enabled x;
     long_query_time := long_query_time x;
     xa_log_detailed := xa_log_detailed x;
     cetus_max_allowed_packet := cetus_max_allowed_packet x;
     default_query_cache_timeout := default_query_cache_timeout x;
     query_cache_enabled := query_cache_enabled x;
     disable_dns_cache := disable_dns_cache x;
     slave_delay_down_threshold_sec := slave_delay_down_threshold_sec x;
     slave_delay_recover_threshold_sec := slave_delay_recover_threshold_sec x;
     invoke_dbg_on_crash := invoke_dbg_on_crash x;
     auto_restart := auto_restart x;
     max_files_number := max_files_number x;
     user := user x;
     base_dir := base_dir x;
     conf_dir := conf_dir x;
     default_file := default_file x;
     keyfile := keyfile x;
     p := p x;
     config_entries := config_entries x;
     pid_file := pid_file x;
     plugin_dir := plugin_dir x;
     plugin_names := plugin_names x;
     log_level := log_level x;
     log_filename := log_filename x;
     log_xa_filename := log_xa_filename x;
     default_username := default_username x;
     default_charset := default_charset x;
     default_db := default_db x;
     remote_config_url := remote_config_url x |}.

(** [assign eta proj] builds the function [fun v x => x with proj := v]
    from the field-by-field copy [eta]. *)
Ltac assign eta proj :=
  lazymatch type of proj with
  | ?R -> ?T =>
    let f := constr:(fun (v : T) (x : R) =>
       ltac:(let body := eval cbv beta delta [eta] in (eta x) in
             lazymatch eval pattern (proj x) in body with
             | ?g _ => let t := eval cbv beta in (g v) in exact t
             end)) in
    exact f
  end.

Definition set_print_version := ltac:(assign frontend_eta print_version).
Definition set_verbose_shutdown := ltac:(assign frontend_eta verbose_shutdown).
Definition set_daemon_mode := ltac:(assign frontend_eta daemon_mode).
Definition set_set_client_found_rows := ltac:(assign frontend_eta set_client_found_rows).
Definition set_default_pool_size := ltac:(assign frontend_eta default_pool_size).
Definition set_max_pool_size := ltac:(assign frontend_eta max_pool_size).
Definition set_merged_output_size := ltac:(assign frontend_eta merged_output_size).
Definition set_max_header_size := ltac:(assign frontend_eta max_header_size).
Definition set_max_resp_len := ltac:(assign frontend_eta max_resp_len).
Definition set_master_preferred := ltac:(assign frontend_eta master_preferred).
Definition set_worker_id := ltac:(assign frontend_eta worker_id).
Definition set_config_port := ltac:(assign frontend_eta config_port).
Definition set_disable_threads := ltac:(assign frontend_eta disable_threads).
Definition set_is_tcp_stream_enabled := ltac:(assign frontend_eta is_tcp_stream_enabled).
Definition set_is_back_compressed := ltac:(assign frontend_eta is_back_compressed).
Definition set_is_client_compress_support := ltac:(assign frontend_eta is_client_compress_support).
Definition set_check_slave_delay := ltac:(assign frontend_eta check_slave_delay).
Definition set_is_reduce_conns := ltac:(assign frontend_eta is_reduce_conns).
Definition set_is_reset_conn_enabled := ltac:(assign frontend_eta is_reset_conn_enabled).
Definition set_long_query_time := ltac:(assign frontend_eta long_query_time).
Definition set_xa_log_detailed := ltac:(assign frontend_eta xa_log_detailed).
Definition set_cetus_max_allowed_packet := ltac:(assign frontend_eta cetus_max_allowed_packet).
Definition set_default_query_cache_timeout := ltac:(assign frontend_eta default_query_cache_timeout).
Definition set_query_cache_enabled := ltac:(assign frontend_eta query_cache_enabled).
Definition set_disable_dns_cache := ltac:(assign frontend_eta disable_dns_cache).
Definition set_slave_delay_down_threshold_sec := ltac:(assign frontend_eta slave_delay_down_threshold_sec).
Definition set_slave_delay_recover_threshold_sec := ltac:(assign frontend_eta slave_delay_recover_threshold_sec).
Definition set_invoke_dbg_on_crash := ltac:(assign frontend_eta invoke_dbg_on_crash).
Definition set_auto_restart := ltac:(assign frontend_eta auto_restart).
Definition set_max_files_number := ltac:(assign frontend_eta max_files_number).
Definition set_user := ltac:(assign frontend_eta user).
Definition set_base_dir := ltac:(assign frontend_eta base_dir).
Definition set_conf_dir := ltac:(assign frontend_eta conf_dir).
Definition set_default_file := ltac:(assign frontend_eta default_file).
Definition set_keyfile := ltac:(assign frontend_eta keyfile).
Definition set_pid_file := ltac:(assign frontend_eta pid_file).
Definition set_plugin_dir := ltac:(assign frontend_eta plugin_dir).
Definition set_plugin_names := ltac:(assign frontend_eta plugin_names).
Definition set_log_level := ltac:(assign frontend_eta log_level).
Definition set_log_filename := ltac:(assign frontend_eta log_filename).
Definition set_log_xa_filename := ltac:(assign frontend_eta log_xa_filename).
Definition set_default_username := ltac:(assign frontend_eta default_username).
Definition set_default_charset := ltac:(assign frontend_eta default_charset).
Definition set_default_db := ltac:(assign frontend_eta default_db).
Definition set_remote_config_url := ltac:(assign frontend_eta remote_config_url).

(** [g_slice_new0 (chassis_frontend_t)]: every field zero or [NULL]. *)
Definition g_slice_new0_frontend : chassis_frontend_t :=
  {| print_version := 0;
     verbose_shutdown := 0;
     daemon_mode := 0;
     set_client_found_rows := 0;
     default_pool_size := 0;
     max_pool_size := 0;
     merged_output_size := 0;
     max_header_size := 0;
     max_resp_len := 0;
     master_preferred := 0;
     worker_id := 0;
     config_port := 0;
     disable_threads := 0;
     is_tcp_stream_enabled := 0;
     is_back_compressed := 0;
     is_client_compress_support := 0;
     check_slave_delay := 0;
     is_reduce_conns := 0;
     is_reset_conn_enabled := 0;
     long_query_time := 0;
     xa_log_detailed := 0;
     cetus_max_allowed_packet := 0;
     default_query_cache_timeout := 0;
     query_cache_enabled := 0;
     disable_dns_cache := 0;
     slave_delay_down_threshold_sec := 0%float;
     slave_delay_recover_threshold_sec := 0%float;
     invoke_dbg_on_crash := 0;
     auto_restart := 0;
     max_files_number := 0;
     user := None;
     base_dir := None;
     conf_dir := None;
     default_file := None;
     keyfile := None;
     p := None;
     config_entries := None;
     pid_file := None;
     plugin_dir := None;
     plugin_names := None;
     log_level := None;
     log_filename := None;
     log_xa_filename := None;
     default_username := None;
     default_charset := None;
     default_db := None;
     remote_config_url := None |}.

(** [chassis_frontend_new] (lines 129-151). *)
Definition chassis_frontend_new (cfg : build_config) : chassis_frontend_t :=
  let frontend := g_slice_new0_frontend in
  let frontend := set_max_files_number 0 frontend in
  let frontend := set_disable_threads 0 frontend in
  let frontend := set_is_back_compressed 0 frontend in
  let frontend := set_is_client_compress_support 0 frontend in
  let frontend := set_xa_log_detailed 0 frontend in
  let frontend := set_default_pool_size 100 frontend in
  let frontend := set_max_resp_len (10 * 1024 * 1024) frontend in
  let frontend := set_merged_output_size 8192 frontend in
  let frontend := set_max_header_size 65536 frontend in
  let frontend := set_config_port 3306 frontend in
  let frontend := set_slave_delay_down_threshold_sec 60%float frontend in
  let frontend := set_default_query_cache_timeout 100 frontend in
  let frontend := set_long_query_time (MAX_QUERY_TIME cfg) frontend in
  let frontend := set_cetus_max_allowed_packet (MAX_ALLOWED_PACKET_DEFAULT cfg) frontend in
  let frontend := set_disable_dns_cache 0 frontend in
  frontend.

(** ** The service object

    [struct chassis] is declared in [chassis-mainloop.h]; the fields below
    are the ones this file reads or writes, each with the type of the
    front-end field it is assigned from.  [srv->log] and [srv->options]
    alias the locals [log] and [opts] of [main_cmdline], which hold the one
    copy. *)

Inductive chassis_config_t :=
| chassis_config_from_url (url : string) (settings : list (string * opt_value))
| chassis_config_from_local_dir (conf_dir : option string) (default_file : option string).

Module Chassis.

Record t := {
  config_manager : option chassis_config_t;
  base_dir : option string;
  plugin_dir : option string;
  conf_dir : option string;
  user : option string;
  modules : list string;
  default_username : option string;
  default_charset : option string;
  default_db : option string;
  mid_idle_connections : Z;
  max_idle_connections : Z;
  max_resp_len : Z;
  merged_output_size : Z;
  compressed_merged_output_size : Z;
  max_header_size : Z;
  guid_state_worker_id : Z;
  client_found_rows : Z;
  xa_log_detailed : Z;
  is_reset_conn_enabled : Z;
  query_cache_enabled : Z;
  query_cache_table : option (list string);
  cache_index : option (list string);
  is_tcp_stream_enabled : Z;
  disable_threads : Z;
  is_back_compressed : Z;
  compress_support : Z;
  check_slave_delay : Z;
  slave_delay_down_threshold_sec : float;
  slave_delay_recover_threshold_sec : float;
  master_preferred : Z;
  disable_dns_cache : Z;
  default_query_cache_timeout : Z;
  long_query_time : Z;
  cetus_max_allowed_packet : Z
}.

Definition eta (x : t) : t :=
  {| config_manager := config_manager x;
     base_dir := base_dir x;
     plugin_dir := plugin_dir x;
     conf_dir := conf_dir x;
     user := user x;
     modules := modules x;
     default_username := default_username x;
     default_charset := default_charset x;
     default_db := default_db x;
     mid_idle_connections := mid_idle_connections x;
     max_idle_connections := max_idle_connections x;
     max_resp_len := max_resp_len x;
     merged_output_size := merged_output_size x;
     compressed_merged_output_size := compressed_merged_output_size x;
     max_header_size := max_header_size x;
     guid_state_worker_id := guid_state_worker_id x;
     client_found_rows := client_found_rows x;
     xa_log_detailed := xa_log_detailed x;
     is_reset_conn_enabled := is_reset_conn_enabled x;
     query_cache_enabled := query_cache_enabled x;
     query_cache_table := query_cache_table x;
     cache_index := cache_index x;
     is_tcp_stream_enabled := is_tcp_stream_enabled x;
     disable_threads := disable_threads x;
     is_back_compressed := is_back_compressed x;
     compress_support := compress_support x;
     check_slave_delay := check_slave_delay x;
     slave_delay_down_threshold_sec := slave_delay_down_threshold_sec x;
     slave_delay_recover_threshold_sec := slave_delay_recover_threshold_sec x;
     master_preferred := master_preferred x;
     disable_dns_cache := disable_dns_cache x;
     default_query_cache_timeout := default_query_cache_timeout x;
     long_query_time := long_query_time x;
     cetus_max_allowed_packet := cetus_max_allowed_packet x |}.

Definition set_config_manager := ltac:(assign eta config_manager).
Definition set_base_dir := ltac:(assign eta base_dir).
Definition set_plugin_dir := ltac:(assign eta plugin_dir).
Definition set_conf_dir := ltac:(assign eta conf_dir).
Definition set_user := ltac:(assign eta user).
Definition set_modules := ltac:(assign eta modules).
Definition set_default_username := ltac:(assign eta default_username).
Definition set_default_charset := ltac:(assign eta default_charset).
Definition set_default_db := ltac:(assign eta default_db).
Definition set_mid_idle_connections := ltac:(assign eta mid_idle_connections).
Definition set_max_idle_connections := ltac:(assign eta max_idle_connections).
Definition set_max_resp_len := ltac:(assign eta max_resp_len).
Definition set_merged_output_size := ltac:(assign eta merged_output_size).
Definition set_compressed_merged_output_size := ltac:(assign eta compressed_merged_output_size).
Definition set_max_header_size := ltac:(assign eta max_header_size).
Definition set_guid_state_worker_id := ltac:(assign eta guid_state_worker_id).
Definition set_client_found_rows := ltac:(assign eta client_found_rows).
Definition set_xa_log_detailed := ltac:(assign eta xa_log_detailed).
Definition set_is_reset_conn_enabled := ltac:(assign eta is_reset_conn_enabled).
Definition set_query_cache_enabled := ltac:(assign eta query_cache_enabled).
Definition set_query_cache_table := ltac:(assign eta query_cache_table).
Definition set_cache_index := ltac:(assign eta cache_index).
Definition set_is_tcp_stream_enabled := ltac:(assign eta is_tcp_stream_enabled).
Definition set_disable_threads := ltac:(assign eta disable_threads).
Definition set_is_back_compressed := ltac:(assign eta is_back_compressed).
Definition set_compress_support := ltac:(assign eta compress_support).
Definition set_check_slave_delay := ltac:(assign eta check_slave_delay).
Definition set_slave_delay_down_threshold_sec := ltac:(assign eta slave_delay_down_threshold_sec).
Definition set_slave_delay_recover_threshold_sec := ltac:(assign eta slave_delay_recover_threshold_sec).
Definition set_master_preferred := ltac:(assign eta master_preferred).
Definition set_disable_dns_cache := ltac:(assign eta disable_dns_cache).
Definition set_default_query_cache_timeout := ltac:(assign eta default_query_cache_timeout).
Definition set_long_query_time := ltac:(assign eta long_query_time).
Definition set_cetus_max_allowed_packet := ltac:(assign eta cetus_max_allowed_packet).

End Chassis.

(** ** C idioms *)

(** A scalar used as a condition. *)
Definition truthy (z : Z) : bool := negb (z =? 0).

Definition strcmp (a b : string) : Z :=
  match String.compare a b with
  | Eq => 0
  | Lt => -1
  | Gt => 1
  end.

(** [a > b] on [double]. *)
Definition fgt (a b : float) : bool := PrimFloat.ltb b a.

(** ** The crash handler (lines 399-423, under [HAVE_SIGACTION]) *)

(** How a signal handler ends. *)
Inductive handler_end :=
| handler_returns
| raises (sig : signum).

Section CrashHandler.

(** The line [backtrace_symbols] gives for a return address. *)
Variable symbol_of : Z -> string.

(** [backtrace (array, size)] stores at most [size] return addresses of
    the active call stack, innermost first. *)
Definition backtrace (stack : list Z) (size : nat) : list Z := firstn size stack.

Definition backtrace_symbols (array : list Z) : list string := map symbol_of array.

(** [log_backtrace] (lines 400-416). *)
Definition log_backtrace (stack : list Z) (tr : trace) : trace :=
  let array := backtrace stack 16 in
  let size := List.length array in
  let strings := backtrace_symbols array in
  let tr := g_warning "Obtained %d stack frames." [AInt (Z.of_nat size)] tr in
  fold_left (fun tr i => g_warning "%s" [AStr (nth i strings "")] tr) (seq 0 size) tr.

(** [sigsegv_handler] (lines 418-422). *)
Definition sigsegv_handler (sig : signum) (stack : list Z) (tr : trace)
  : trace * handler_end :=
  let tr := log_backtrace stack tr in
  (tr, raises SIGABRT).

End CrashHandler.

(** ** The plugin-mode check (lines 425-446) *)

Fixpoint check_plugin_mode_loop (names : list string) (proxy_mode sharding_mode : Z)
  (tr : trace) : Z * Z * trace :=
  match names with
  | [] => (proxy_mode, sharding_mode, tr)
  | name :: rest =>
    let '(sharding_mode, tr) :=
      if strcmp name "shard" =? 0
      then (1, g_message "set sharding mode true" [] tr)
      else (sharding_mode, tr) in
    let proxy_mode := if strcmp name "proxy" =? 0 then 1 else proxy_mode in
    check_plugin_mode_loop rest proxy_mode sharding_mode tr
  end.

(** [frontend->plugin_names] is a [NULL]-terminated vector here: line 822
    has replaced a [NULL] pointer before the call at line 931. *)
Definition strv (v : option (list string)) : list string :=
  match v with
  | Some names => names
  | None => []
  end.

Definition check_plugin_mode_valid (frontend : chassis_frontend_t) (srv : Chassis.t)
  (tr : trace) : bool * trace :=
  let '(proxy_mode, sharding_mode, tr) :=
    check_plugin_mode_loop (strv (plugin_names frontend)) 0 0 tr in
  if truthy sharding_mode && truthy proxy_mode
  then (false, g_critical "shard & proxy is mutual exclusive" [] tr)
  else (true, tr).

(** ** Parameter initialisation (lines 454-532) *)

(** [DUP_STRING]: strdup with a default value and a [NULL] check. *)
Definition DUP_STRING (STR DEFAULT : option string) : option string :=
  match STR with
  | Some s => Some s
  | None =>
    match DEFAULT with
    | Some d => Some d
    | None => None
    end
  end.

Definition init_parameters (cfg : build_config) (frontend : chassis_frontend_t)
  (srv : Chassis.t) (tr : trace) : Chassis.t * trace :=
  let srv := Chassis.set_default_username (DUP_STRING (default_username frontend) None) srv in
  let srv := Chassis.set_default_charset (DUP_STRING (default_charset frontend) None) srv in
  let srv := Chassis.set_default_db (DUP_STRING (default_db frontend) None) srv in

  let srv := Chassis.set_mid_idle_connections (default_pool_size frontend) srv in
  let tr := g_message "set default pool size:%d" [AInt (Chassis.mid_idle_connections srv)] tr in

  let srv :=
    if max_pool_size frontend >=? Chassis.mid_idle_connections srv
    then Chassis.set_max_idle_connections (max_pool_size frontend) srv
    else Chassis.set_max_idle_connections (Int.shl (Chassis.mid_idle_connections srv) 1) srv in
  let tr := g_message "set max pool size:%d" [AInt (Chassis.max_idle_connections srv)] tr in

  let srv := Chassis.set_max_resp_len (max_resp_len frontend) srv in
  let tr := g_message "set max resp len:%d" [AInt (Chassis.max_resp_len srv)] tr in

  let srv := Chassis.set_merged_output_size (merged_output_size frontend) srv in
  let srv := Chassis.set_compressed_merged_output_size
               (Int.shl (Chassis.merged_output_size srv) 3) srv in
  let tr := g_message "%s:set merged output size:%d"
              [G_STRLOC 479; AInt (Chassis.merged_output_size srv)] tr in

  let srv := Chassis.set_max_header_size (max_header_size frontend) srv in
  let tr := g_message "%s:set max header size:%d"
              [G_STRLOC 482; AInt (Chassis.max_header_size srv)] tr in

  let srv :=
    if worker_id frontend >? 0
    then Chassis.set_guid_state_worker_id (Z.land (worker_id frontend) 0x3f) srv
    else srv in

  let srv := Chassis.set_client_found_rows (set_client_found_rows frontend) srv in
  let tr := g_message "set client_found_rows %s"
              [AStr (if truthy (Chassis.client_found_rows srv) then "true" else "false")] tr in

  let srv := Chassis.set_xa_log_detailed (xa_log_detailed frontend) srv in
  let tr :=
    if truthy (Chassis.xa_log_detailed srv)
    then g_message "%s:xa_log_detailed true" [G_STRLOC 495] tr
    else g_message "%s:xa_log_detailed false" [G_STRLOC 497] tr in
  let srv := Chassis.set_is_reset_conn_enabled (is_reset_conn_enabled frontend) srv in
  let srv := Chassis.set_query_cache_enabled (query_cache_enabled frontend) srv in
  let srv :=
    if truthy (Chassis.query_cache_enabled srv)
    then Chassis.set_cache_index (Some []) (Chassis.set_query_cache_table (Some []) srv)
    else srv in
  let srv := Chassis.set_is_tcp_stream_enabled (is_tcp_stream_enabled frontend) srv in
  let tr :=
    if truthy (Chassis.is_tcp_stream_enabled srv)
    then g_message "%s:tcp stream enabled" [G_STRLOC 508] tr
    else tr in
  let srv := Chassis.set_disable_threads (disable_threads frontend) srv in
  let srv := Chassis.set_is_back_compressed (is_back_compressed frontend) srv in
  let srv := Chassis.set_compress_support (is_client_compress_support frontend) srv in
  let srv := Chassis.set_check_slave_delay (check_slave_delay frontend) srv in
  let srv := Chassis.set_slave_delay_down_threshold_sec
               (slave_delay_down_threshold_sec frontend) srv in
  let srv := Chassis.set_master_preferred (master_preferred frontend) srv in
  let srv := Chassis.set_disable_dns_cache (disable_dns_cache frontend) srv in
  let '(srv, tr) :=
    if fgt (slave_delay_recover_threshold_sec frontend) 0
    then
      let srv := Chassis.set_slave_delay_recover_threshold_sec
                   (slave_delay_recover_threshold_sec frontend) srv in
      if fgt (slave_delay_recover_threshold_sec frontend)
             (Chassis.slave_delay_down_threshold_sec srv)
      then
        let srv := Chassis.set_slave_delay_recover_threshold_sec
                     (Chassis.slave_delay_down_threshold_sec srv) srv in
        let tr := g_warning "`slave-delay-recover` should be lower than `slave-delay-down`."
                    [] tr in
        let tr := g_warning "Set slave-delay-recover=%.3f"
                    [ADouble (Chassis.slave_delay_down_threshold_sec srv)] tr in
        (srv, tr)
      else (srv, tr)
    else
      (Chassis.set_slave_delay_recover_threshold_sec
         (Chassis.slave_delay_down_threshold_sec srv / 2)%float srv, tr) in

  let srv := Chassis.set_default_query_cache_timeout
               (Int.MAX (default_query_cache_timeout frontend) 1) srv in
  let srv := Chassis.set_long_query_time
               (Int.MIN (long_query_time frontend) (MAX_QUERY_TIME cfg)) srv in
  let srv := Chassis.set_cetus_max_allowed_packet
               (Int.CLAMP (cetus_max_allowed_packet frontend)
                  (MAX_ALLOWED_PACKET_FLOOR cfg) (MAX_ALLOWED_PACKET_CEIL cfg)) srv in
  (srv, tr).

(** ** The option registry

    [chassis_options_add] and the functions that read a command line or a
    key file into the registered slots live in [chassis-options.c],
    [chassis-keyfile.c] and [chassis-config.c], which are not part of this
    file.  The calls and their arguments below are the source's; what the
    callees do is modelled from the specification. *)

(** [&(frontend->field)]: a pointer to a field of the front-end record, as
    the pair of reading and assigning that field.  [ptr_plugin] is storage
    a plugin owns, outside the front-end record. *)
Inductive arg_data :=
| ptr_int (get : chassis_frontend_t -> Z) (set : Z -> chassis_frontend_t -> chassis_frontend_t)
| ptr_double (get : chassis_frontend_t -> float)
    (set : float -> chassis_frontend_t -> chassis_frontend_t)
| ptr_string (get : chassis_frontend_t -> option string)
    (set : option string -> chassis_frontend_t -> chassis_frontend_t)
| ptr_strv (get : chassis_frontend_t -> option (list string))
    (set : option (list string) -> chassis_frontend_t -> chassis_frontend_t)
| ptr_plugin.

Record chassis_option_t := {
  long_name : string;
  short_name : Z;
  flags : Z;
  arg : option_type;
  arg_data_of : arg_data;
  description : string;
  arg_description : option string
}.

Record chassis_options_t := {
  options : list chassis_option_t;
  ignore_unknown : bool;
  help_enabled : bool
}.

Definition chassis_options_new : chassis_options_t :=
  {| options := []; ignore_unknown := false; help_enabled := false |}.

Definition set_ignore_unknown (b : bool) (opts : chassis_options_t) : chassis_options_t :=
  {| options := options opts; ignore_unknown := b; help_enabled := help_enabled opts |}.

Definition set_help_enabled (b : bool) (opts : chassis_options_t) : chassis_options_t :=
  {| options := options opts; ignore_unknown := ignore_unknown opts; help_enabled := b |}.

Definition set_options (l : list chassis_option_t) (opts : chassis_options_t)
  : chassis_options_t :=
  {| options := l; ignore_unknown := ignore_unknown opts; help_enabled := help_enabled opts |}.

Definition find_option (name : string) (l : list chassis_option_t) : option chassis_option_t :=
  find (fun o => String.eqb (long_name o) name) l.

(** Modelled from the spec: [chassis_options_add] of [chassis-options.c]
    (4.1: "register(descriptor) inserts one descriptor; fails if a name is
    already registered"; "the full ordered sequence of descriptors").  The
    caller ignores the result, so a failed registration leaves the registry
    as it was. *)
Definition chassis_options_add (opts : chassis_options_t) (long_name : string)
  (short_name flags : Z) (arg : option_type) (arg_data : arg_data)
  (description : string) (arg_description : option string) : chassis_options_t :=
  match find_option long_name (options opts) with
  | Some _ => opts
  | None =>
    set_options
      (options opts ++
       [ {| long_name := long_name; short_name := short_name; flags := flags;
            arg := arg; arg_data_of := arg_data;
            description := description; arg_description := arg_description |} ])
      opts
  end.

(** [chassis_frontend_set_chassis_options] (lines 187-396). *)
Definition chassis_frontend_set_chassis_options (opts : chassis_options_t)
  : chassis_options_t :=
  let opts := chassis_options_add opts "verbose-shutdown"
    0 0 OPTION_ARG_NONE (ptr_int verbose_shutdown set_verbose_shutdown)
    "Always log the exit code when shutting down" None in
  let opts := chassis_options_add opts "daemon"
    0 0 OPTION_ARG_NONE (ptr_int daemon_mode set_daemon_mode)
    "Start in daemon-mode" None in
  let opts := chassis_options_add opts "user"
    0 0 OPTION_ARG_STRING (ptr_string user set_user)
    "Run cetus as user" (Some "<user>") in
  let opts := chassis_options_add opts "basedir"
    0 0 OPTION_ARG_STRING (ptr_string base_dir set_base_dir)
    "Base directory to prepend to relative paths in the config"
    (Some "<absolute path>") in
  let opts := chassis_options_add opts "conf-dir"
    0 0 OPTION_ARG_STRING (ptr_string conf_dir set_conf_dir)
    "Configuration directory"
    (Some "<absolute path>") in
  let opts := chassis_options_add opts "pid-file"
    0 0 OPTION_ARG_STRING (ptr_string pid_file set_pid_file)
    "PID file in case we are started as daemon" (Some "<file>") in
  let opts := chassis_options_add opts "plugin-dir"
    0 0 OPTION_ARG_STRING (ptr_string plugin_dir set_plugin_dir)
    "Path to the plugins" (Some "<path>") in
  let opts := chassis_options_add opts "plugins"
    0 0 OPTION_ARG_STRING_ARRAY (ptr_strv plugin_names set_plugin_names)
    "Plugins to load" (Some "<name>") in
  let opts := chassis_options_add opts "log-level"
    0 0 OPTION_ARG_STRING (ptr_string log_level set_log_level)
    "Log all messages of level ... or higher"
    (Some "(error|warning|info|message|debug)") in
  let opts := chassis_options_add opts "log-file"
    0 0 OPTION_ARG_STRING (ptr_string log_filename set_log_filename)
    "Log all messages in a file" (Some "<file>") in
  let opts := chassis_options_add opts "log-xa-file"
    0 0 OPTION_ARG_STRING (ptr_string log_xa_filename set_log_xa_filename)
    "Log all xa messages in a file" (Some "<file>") in
  let opts := chassis_options_add opts "log-backtrace-on-crash"
    0 0 OPTION_ARG_NONE (ptr_int invoke_dbg_on_crash set_invoke_dbg_on_crash)
    "Try to invoke debugger on crash" None in
  let opts := chassis_options_add opts "keepalive"
    0 0 OPTION_ARG_NONE (ptr_int auto_restart set_auto_restart)
    "Try to restart the proxy if it crashed" None in
  let opts := chassis_options_add opts "max-open-files"
    0 0 OPTION_ARG_INT (ptr_int max_files_number set_max_files_number)
    "Maximum number of open files (ulimit -n)" None in
  let opts := chassis_options_add opts "default-charset"
    0 0 OPTION_ARG_STRING (ptr_string default_charset set_default_charset)
    "Set the default character set for backends" (Some "<string>") in
  let opts := chassis_options_add opts "default-username"
    0 0 OPTION_ARG_STRING (ptr_string default_username set_default_username)
    "Set the default username for visiting backends" (Some "<string>") in
  let opts := chassis_options_add opts "default-db"
    0 0 OPTION_ARG_STRING (ptr_string default_db set_default_db)
    "Set the default db for visiting backends" (Some "<string>") in
  let opts := chassis_options_add opts "default-pool-size"
    0 0 OPTION_ARG_INT (ptr_int default_pool_size set_default_pool_size)
    "Set the default pool szie for visiting backends" (Some "<integer>") in
  let opts := chassis_options_add opts "max-pool-size"
    0 0 OPTION_ARG_INT (ptr_int max_pool_size set_max_pool_size)
    "Set the max pool szie for visiting backends" (Some "<integer>") in
  let opts := chassis_options_add opts "max-resp-size"
    0 0 OPTION_ARG_INT (ptr_int max_resp_len set_max_resp_len)
    "Set the max response size for one backend" (Some "<integer>") in
  let opts := chassis_options_add opts "merged-output-size"
    0 0 OPTION_ARG_INT (ptr_int merged_output_size set_merged_output_size)
    "set the merged output size for tcp streaming" (Some "<integer>") in
  let opts := chassis_options_add opts "max-header-size"
    0 0 OPTION_ARG_INT (ptr_int max_header_size set_max_header_size)
    "set the max header size for tcp streaming" (Some "<integer>") in
  let opts := chassis_options_add opts "worker_id"
    0 0 OPTION_ARG_INT (ptr_int worker_id set_worker_id)
    "Set the worker id and the maximum value allowed is 63 and the min value is 1"
    (Some "<integer>") in
  let opts := chassis_options_add opts "disable-threads"
    0 0 OPTION_ARG_NONE (ptr_int disable_threads set_disable_threads)
    "Disable all threads creation" None in
  let opts := chassis_options_add opts "enable-back-compress"
    0 0 OPTION_ARG_NONE (ptr_int is_back_compressed set_is_back_compressed)
    "enable compression for backend interactions" None in
  let opts := chassis_options_add opts "enable-client-compress"
    0 0 OPTION_ARG_NONE (ptr_int is_client_compress_support set_is_client_compress_support)
    "enable compression for client interactions" None in
  let opts := chassis_options_add opts "check-slave-delay"
    0 0 OPTION_ARG_NONE (ptr_int check_slave_delay set_check_slave_delay)
    "Check ro backends with heartbeat" None in
  let opts := chassis_options_add opts "slave-delay-down"
    0 0 OPTION_ARG_DOUBLE
    (ptr_double slave_delay_down_threshold_sec set_slave_delay_down_threshold_sec)
    "Slave will be set down after reach this delay secondes" (Some "<double>") in
  let opts := chassis_options_add opts "slave-delay-recover"
    0 0 OPTION_ARG_DOUBLE
    (ptr_double slave_delay_recover_threshold_sec set_slave_delay_recover_threshold_sec)
    "Slave will recover after below this delay secondes" (Some "<double>") in
  let opts := chassis_options_add opts "default-query-cache-timeout"
    0 0 OPTION_ARG_INT (ptr_int default_query_cache_timeout set_default_query_cache_timeout)
    "timeout when proxy connect to backends" (Some "<integer>") in
  let opts := chassis_options_add opts "long-query-time"
    0 0 OPTION_ARG_INT (ptr_int long_query_time set_long_query_time)
    "Long query time in ms" (Some "<integer>") in
  let opts := chassis_options_add opts "enable-client-found-rows"
    0 0 OPTION_ARG_NONE (ptr_int set_client_found_rows set_set_client_found_rows)
    "Set client found rows flag" None in
  let opts := chassis_options_add opts "reduce-connections"
    0 0 OPTION_ARG_NONE (ptr_int is_reduce_conns set_is_reduce_conns)
    "Reduce connections when idle connection num is too high" None in
  let opts := chassis_options_add opts "enable-reset-connection"
    0 0 OPTION_ARG_NONE (ptr_int is_reset_conn_enabled set_is_reset_conn_enabled)
    "Restart connections when feature changed" None in
  let opts := chassis_options_add opts "enable-query-cache"
    0 0 OPTION_ARG_NONE (ptr_int query_cache_enabled set_query_cache_enabled)
    EmptyString None in
  let opts := chassis_options_add opts "enable-tcp-stream"
    0 0 OPTION_ARG_NONE (ptr_int is_tcp_stream_enabled set_is_tcp_stream_enabled)
    EmptyString None in
  let opts := chassis_options_add opts "log-xa-in-detail"
    0 0 OPTION_ARG_NONE (ptr_int xa_log_detailed set_xa_log_detailed)
    "log xa in detail" None in
  let opts := chassis_options_add opts "disable-dns-cache"
    0 0 OPTION_ARG_NONE (ptr_int disable_dns_cache set_disable_dns_cache)
    "Every new connection to backends will resolve domain name" None in
  let opts := chassis_options_add opts "master-preferred"
    0 0 OPTION_ARG_NONE (ptr_int master_preferred set_master_preferred)
    "Access to master preferentially" None in
  let opts := chassis_options_add opts "max-allowed-packet"
    0 0 OPTION_ARG_INT (ptr_int cetus_max_allowed_packet set_cetus_max_allowed_packet)
    "Max allowed packet as in mysql" (Some "<int>") in
  let opts := chassis_options_add opts "remote-conf-url"
    0 0 OPTION_ARG_STRING (ptr_string remote_config_url set_remote_config_url)
    "Remote config url, mysql://xx" (Some "<string>") in
  opts.

(** ** Reading the command line and the key file into the registry *)

Record GError := {
  domain : string;
  code : Z;
  message : string
}.

(** glib's option-error domain and codes. *)
Definition G_OPTION_ERROR : string := "g-option-context-error-quark".
Definition G_OPTION_ERROR_UNKNOWN_OPTION : Z := 0.
Definition G_OPTION_ERROR_BAD_VALUE : Z := 1.

(** One element of [argv] after the program name: a long-form flag with
    the value it carries ([VFlag] when it carries none), or anything
    else. *)
Inductive cmd_arg :=
| LongOpt (name : string) (value : opt_value)
| Positional (s : string).

Definition arg_text (a : cmd_arg) : string :=
  match a with
  | LongOpt name _ => "--" ++ name
  | Positional s => s
  end.

(** Modelled from the spec: the conversion of a source's value to an
    option's arity (6: "boolean-none, string, integer, floating-point, or
    repeated-string arity"), part of [chassis-options.c] and
    [chassis-keyfile.c].  An integer must fit a C [int]. *)
Definition value_fits (a : option_type) (v : opt_value) : bool :=
  match a, v with
  | OPTION_ARG_NONE, VFlag => true
  | OPTION_ARG_NONE, VInt z => (z =? 0) || (z =? 1)
  | OPTION_ARG_INT, VInt z => Int.in_rangeb z
  | OPTION_ARG_DOUBLE, VDouble _ => true
  | OPTION_ARG_STRING, VString _ => true
  | OPTION_ARG_STRING_ARRAY, VString _ => true
  | OPTION_ARG_STRING_ARRAY, VStrings _ => true
  | _, _ => false
  end.

(** Modelled from the spec: writing a value through an option's
    destination slot (3: "destination slot reference").  A flag stores
    [TRUE]; a repeated string on the command line is appended to the
    vector; a list from a key file replaces it.  [None]: the value does
    not fit the option. *)
Definition store_through (a : option_type) (d : arg_data) (v : opt_value)
  (frontend : chassis_frontend_t) : option chassis_frontend_t :=
  if value_fits a v then
    match d, v with
    | ptr_int _ set, VFlag => Some (set 1 frontend)
    | ptr_int _ set, VInt z => Some (set z frontend)
    | ptr_double _ set, VDouble d => Some (set d frontend)
    | ptr_string _ set, VString s => Some (set (Some s) frontend)
    | ptr_strv get set, VString s =>
      Some (set (Some (strv (get frontend) ++ [s])%list) frontend)
    | ptr_strv _ set, VStrings l => Some (set (Some l) frontend)
    | ptr_plugin, _ => Some frontend
    | _, _ => None
    end
  else None.

Definition store (o : chassis_option_t) (v : opt_value) (frontend : chassis_frontend_t)
  : option chassis_frontend_t :=
  store_through (arg o) (arg_data_of o) v frontend.

(** Modelled from the spec: the mark a command-line pass leaves on a
    descriptor it has populated, which keeps the later key-file and remote
    passes from overwriting the slot (3: "command-line values always win
    over keyfile values").  Which bit of [flags] carries it is
    immaterial. *)
Definition OPTION_FLAG_CMDLINE : Z := 16.

Definition set_on_cmdline (o : chassis_option_t) : bool :=
  negb (Z.land (flags o) OPTION_FLAG_CMDLINE =? 0).

Definition mark_cmdline (o : chassis_option_t) : chassis_option_t :=
  {| long_name := long_name o; short_name := short_name o;
     flags := Z.lor (flags o) OPTION_FLAG_CMDLINE;
     arg := arg o; arg_data_of := arg_data_of o;
     description := description o; arg_description := arg_description o |}.

(** The descriptor of that name, marked. *)
Definition mark_option (name : string) (l : list chassis_option_t) : list chassis_option_t :=
  map (fun o => if String.eqb (long_name o) name then mark_cmdline o else o) l.

Definition unknown_option (a : cmd_arg) : GError :=
  {| domain := G_OPTION_ERROR; code := G_OPTION_ERROR_UNKNOWN_OPTION;
     message := "Unknown option " ++ arg_text a |}.

Definition bad_value (name : string) : GError :=
  {| domain := G_OPTION_ERROR; code := G_OPTION_ERROR_BAD_VALUE;
     message := "Cannot parse value for " ++ name |}.

(** Modelled from the spec: one pass over the command line (4.2, 6).  A
    flag that names a registered option is written to the option's slot
    and removed from the command line; an unregistered flag stays in
    place in lenient mode and fails the pass in strict mode; any other
    argument stays in place.  Result: the error, or the registry, the
    front-end record and what is left of the command line. *)
Fixpoint parse_args (ignore_unknown : bool) (args : list cmd_arg)
  (opts : list chassis_option_t) (frontend : chassis_frontend_t)
  : GError + (list chassis_option_t * chassis_frontend_t * list cmd_arg) :=
  match args with
  | [] => inr (opts, frontend, [])
  | Positional s :: rest =>
    match parse_args ignore_unknown rest opts frontend with
    | inl e => inl e
    | inr (opts, frontend, remaining) => inr (opts, frontend, Positional s :: remaining)
    end
  | LongOpt name v :: rest =>
    match find_option name opts with
    | Some o =>
      match store o v frontend with
      | Some frontend => parse_args ignore_unknown rest (mark_option name opts) frontend
      | None => inl (bad_value name)
      end
    | None =>
      if ignore_unknown
      then
        match parse_args ignore_unknown rest opts frontend with
        | inl e => inl e
        | inr (opts, frontend, remaining) => inr (opts, frontend, LongOpt name v :: remaining)
        end
      else inl (unknown_option (LongOpt name v))
    end
  end.

(** Modelled from the spec: [chassis_options_parse_cmdline] of
    [chassis-options.c].  The [--help] exit that [help_enabled] switches
    on is outside the model. *)
Definition chassis_options_parse_cmdline (opts : chassis_options_t) (argv : list cmd_arg)
  (frontend : chassis_frontend_t)
  : GError + (chassis_options_t * chassis_frontend_t * list cmd_arg) :=
  match parse_args (ignore_unknown opts) argv (options opts) frontend with
  | inl e => inl e
  | inr (l, frontend, remaining) => inr (set_options l opts, frontend, remaining)
  end.

Definition key_file_get (entries : list (string * opt_value)) (key : string)
  : option opt_value :=
  option_map snd (find (fun kv => String.eqb (fst kv) key) entries).

Definition key_file_group (keyfile : GKeyFile) (group : string)
  : option (list (string * opt_value)) :=
  option_map snd (find (fun g => String.eqb (fst g) group) keyfile).

(** Modelled from the spec: applying an ordered key-to-value mapping to
    the registry (4.2 step 2: "apply keyfile values to registry slots for
    any key matching a registered option name"; 6: "absent keys leave
    defaults untouched"; 3: "command-line values always win over keyfile
    values").  Keys that name no registered option are not looked at. *)
Fixpoint settings_to_options (entries : list (string * opt_value))
  (config_entries : list chassis_option_t) (frontend : chassis_frontend_t)
  : GError + chassis_frontend_t :=
  match config_entries with
  | [] => inr frontend
  | entry :: rest =>
    if set_on_cmdline entry
    then settings_to_options entries rest frontend
    else
      match key_file_get entries (long_name entry) with
      | None => settings_to_options entries rest frontend
      | Some v =>
        match store entry v frontend with
        | Some frontend => settings_to_options entries rest frontend
        | None => inl (bad_value (long_name entry))
        end
      end
  end.

(** Modelled from the spec: [chassis_keyfile_to_options_with_error] of
    [chassis-keyfile.c] (6: "grouped under a fixed top-level section"). *)
Definition chassis_keyfile_to_options_with_error (keyfile : GKeyFile)
  (ini_group_name : string) (config_entries : list chassis_option_t)
  (frontend : chassis_frontend_t) : GError + chassis_frontend_t :=
  match key_file_group keyfile ini_group_name with
  | None => inr frontend
  | Some entries => settings_to_options entries config_entries frontend
  end.

(** Modelled from the spec: [chassis_config_parse_options] of
    [chassis-config.c] (4.2 step 3: "apply it with the same semantics as
    the keyfile").  [None] is the call's [FALSE]. *)
Definition chassis_config_parse_options (conf : chassis_config_t)
  (config_entries : list chassis_option_t) (frontend : chassis_frontend_t)
  : option chassis_frontend_t :=
  match conf with
  | chassis_config_from_url _ settings =>
    match settings_to_options settings config_entries frontend with
    | inl _ => None
    | inr frontend => Some frontend
    end
  | chassis_config_from_local_dir _ _ => Some frontend
  end.

(** ** The environment of one run

    What the functions [main_cmdline] calls outside this file return in
    the run at hand.  A call that blocks ([chassis_mainloop], the
    supervisor's wait for its child) is represented by what it returns. *)

Module ChassisLog.

Record t := {
  min_lvl : GLogLevelFlags;
  log_filename : option string
}.

End ChassisLog.

(** [chassis_log_new]; line 651 sets the level at once. *)
Definition chassis_log_new : ChassisLog.t :=
  {| ChassisLog.min_lvl := G_LOG_LEVEL_ERROR; ChassisLog.log_filename := None |}.

(** The calls made after the supervision hand-off, and [mallinfo] at
    exit. *)
Record late_world := {
  w_write_pidfile : Z;
  w_write_pidfile_message : string;
  w_tc_log_init : Z;
  w_fdlimit_set : Z;
  w_fdlimit_errno : Z;
  w_fdlimit_get : Z;
  w_mainloop : Z;
  w_mallinfo : Z * Z * Z
}.

(** Modelled from the spec: [chassis_unix_proc_keepalive] of
    [chassis-unix-daemon.c] (4.6): the call returns in the child with 0; it
    fails with a negative value; in the supervisor it returns a positive
    value once a child has ended of its own accord, with that child's exit
    status.  Children killed by a signal are replaced inside the call and
    leave no mark on its result.  [child] is the environment in which the
    child that ended of its own accord ran the rest of [main_cmdline]. *)
Inductive keepalive_role :=
| fork_failed
| is_child
| is_supervisor (child : late_world).

Record world := {
  w_argv0 : string;
  w_argv : list cmd_arg;
  w_init_glib : Z;
  w_chassis_new : option Chassis.t;
  w_init_base_options : list cmd_arg -> GError + (Z * option string * list cmd_arg);
  w_open_config_file : string -> GError + GKeyFile;
  w_remote_settings : string -> option (list (string * opt_value));
  w_init_basedir : string -> option string -> Z * option string;
  w_running_on_valgrind : bool;
  w_init_plugin_dir : option string -> option string -> option string;
  w_resolve_path : option string -> option string -> option string;
  w_log_open : bool;
  w_errno : Z;
  w_strerror : Z -> string;
  w_fopen_slow_query_log : bool;
  w_log_set_level : string -> Z;
  w_event_get_version : string;
  w_network_mysqld_init : Z;
  w_load_plugins : Z;
  w_plugin_options : list (string * option_type);
  w_init_plugins_error : option GError;
  w_keepalive : keepalive_role;
  w_late : late_world
}.

(** [RUNNING_ON_VALGRIND]: the constant 0 without [valgrind.h]. *)
Definition RUNNING_ON_VALGRIND (cfg : build_config) (w : world) : bool :=
  HAVE_VALGRIND_VALGRIND_H cfg && w_running_on_valgrind w.

(** ** The locals of [main_cmdline] *)

Record locals := {
  srv : Chassis.t;
  frontend : chassis_frontend_t;
  opts : option chassis_options_t;
  gerr : option GError;
  log : ChassisLog.t;
  argv : list cmd_arg;
  slow_query_log_fp : bool;
  tr : trace
}.

Definition locals_eta (x : locals) : locals :=
  {| srv := srv x; frontend := frontend x; opts := opts x; gerr := gerr x;
     log := log x; argv := argv x; slow_query_log_fp := slow_query_log_fp x;
     tr := tr x |}.

Definition set_srv := ltac:(assign locals_eta srv).
Definition set_frontend := ltac:(assign locals_eta frontend).
Definition set_opts := ltac:(assign locals_eta opts).
Definition set_gerr := ltac:(assign locals_eta gerr).
Definition set_log := ltac:(assign locals_eta log).
Definition set_argv := ltac:(assign locals_eta argv).
Definition set_slow_query_log_fp := ltac:(assign locals_eta slow_query_log_fp).
Definition set_tr := ltac:(assign locals_eta tr).

(** [opts] is not [NULL] from line 706 on. *)
Definition the_opts (l : locals) : chassis_options_t :=
  match opts l with
  | Some o => o
  | None => chassis_options_new
  end.

(** Appending to the log. *)
Definition say (f : trace -> trace) (l : locals) : locals := set_tr (f (tr l)) l.

Definition does (c : extcall) (l : locals) : locals := set_tr (call c :: tr l) l.

Definition EXIT_SUCCESS : Z := 0.
Definition EXIT_FAILURE : Z := 1.

(** Where control stands after a stage: at the next stage, or on its way
    to [exit_nicely] with an exit code and the line it left from. *)
Inductive flow :=
| Next (l : locals)
| GOTO_EXIT (status : Z) (location : Z) (l : locals).

Definition and_then (f : flow) (k : locals -> flow) : flow :=
  match f with
  | Next l => k l
  | GOTO_EXIT _ _ _ => f
  end.

Notation "f >>> k" := (and_then f k) (at level 50, left associativity).

(** ** The stages of [main_cmdline] (lines 619-1018) *)

Section Stages.

Variable cfg : build_config.
Variable w : world.

(** Lines 673-682: the first pass, for [--defaults-file] and
    [--version]. *)
Definition parse_base_options (l : locals) : flow :=
  match w_init_base_options w (argv l) with
  | inl e =>
    let l := say (g_critical "%s: %s" [G_STRLOC 678; AStr (message e)]) l in
    GOTO_EXIT EXIT_FAILURE 681 l
  | inr (version, file, remaining) =>
    let l := set_frontend (set_print_version version (frontend l)) l in
    let l := set_frontend (set_default_file file (frontend l)) l in
    Next (set_argv remaining l)
  end.

(** Lines 684-695. *)
Definition open_config_file (l : locals) : flow :=
  match default_file (frontend l) with
  | Some file =>
    match w_open_config_file w file with
    | inr kf => Next (set_frontend (set_keyfile (Some kf) (frontend l)) l)
    | inl e =>
      let l := say (g_critical "%s: loading config from '%s' failed: %s"
                      [G_STRLOC 688; AStr file; AStr (message e)]) l in
      GOTO_EXIT EXIT_FAILURE 693 l
    end
  | None => Next l
  end.

(** Lines 701-703. *)
Definition print_main_version (l : locals) : flow :=
  if truthy (print_version (frontend l))
  then Next (does chassis_frontend_print_version l)
  else Next l.

(** Lines 706-715: the registry of the core options, and the lenient
    pass over the command line. *)
Definition parse_core_options (l : locals) : flow :=
  let o := chassis_options_new in
  let o := set_ignore_unknown true o in
  let o := chassis_frontend_set_chassis_options o in
  let l := set_opts (Some o) l in
  match chassis_options_parse_cmdline o (argv l) (frontend l) with
  | inl e =>
    let l := set_gerr (Some e) l in
    let l := say (g_critical "%s" [AStr (message e)]) l in
    GOTO_EXIT EXIT_FAILURE 714 l
  | inr (o, fe, remaining) =>
    Next (set_argv remaining (set_frontend fe (set_opts (Some o) l)))
  end.

(** Lines 717-724. *)
Definition apply_keyfile (l : locals) : flow :=
  match keyfile (frontend l) with
  | Some kf =>
    match chassis_keyfile_to_options_with_error kf "cetus" (options (the_opts l))
            (frontend l) with
    | inl e =>
      let l := set_gerr (Some e) l in
      let l := say (g_critical "%s" [AStr (message e)]) l in
      GOTO_EXIT EXIT_FAILURE 722 l
    | inr fe => Next (set_frontend fe l)
    end
  | None => Next l
  end.

(** Lines 726-736. *)
Definition apply_remote_config (l : locals) : flow :=
  match remote_config_url (frontend l) with
  | Some url =>
    match w_remote_settings w url with
    | None =>
      let l := say (g_critical "remote config init error" []) l in
      GOTO_EXIT EXIT_FAILURE 730 l
    | Some settings =>
      let conf := chassis_config_from_url url settings in
      let l := set_srv (Chassis.set_config_manager (Some conf) (srv l)) l in
      match chassis_config_parse_options conf (options (the_opts l)) (frontend l) with
      | None =>
        let l := say (g_critical "remote_config parse error" []) l in
        GOTO_EXIT EXIT_FAILURE 734 l
      | Some fe => Next (set_frontend fe l)
      end
    end
  | None => Next l
  end.

(** Lines 738-740. *)
Definition init_basedir (l : locals) : flow :=
  let '(ret, dir) := w_init_basedir w (w_argv0 w) (base_dir (frontend l)) in
  let l := set_frontend (set_base_dir dir (frontend l)) l in
  if truthy ret then GOTO_EXIT EXIT_FAILURE 739 l else Next l.

(** Lines 742-753: register the sigsegv interceptor. *)
Definition register_sigsegv_interceptor (l : locals) : flow :=
  if HAVE_SIGACTION cfg then
    let l := set_frontend (set_invoke_dbg_on_crash 1 (frontend l)) l in
    if truthy (invoke_dbg_on_crash (frontend l)) && negb (RUNNING_ON_VALGRIND cfg w)
    then Next (does (sigaction SIGSEGV sigsegv_handler_fn) l)
    else Next l
  else Next l.

(** [resolve_path] (lines 551-583). *)
Definition resolve_path (s : Chassis.t) (fe : chassis_frontend_t) : chassis_frontend_t :=
  let fe :=
    match w_resolve_path w (Chassis.base_dir s) (log_filename fe) with
    | Some new_path => set_log_filename (Some new_path) fe
    | None => fe
    end in
  let fe :=
    match w_resolve_path w (Chassis.base_dir s) (pid_file fe) with
    | Some new_path => set_pid_file (Some new_path) fe
    | None => fe
    end in
  let fe :=
    match w_resolve_path w (Chassis.base_dir s) (plugin_dir fe) with
    | Some new_path => set_plugin_dir (Some new_path) fe
    | None => fe
    end in
  let fe :=
    match w_resolve_path w (Chassis.base_dir s) (conf_dir fe) with
    | Some new_path => set_conf_dir (Some new_path) fe
    | None => fe
    end in
  fe.

(** Lines 759-773. *)
Definition publish_directories (l : locals) : flow :=
  let l := set_srv (Chassis.set_base_dir (base_dir (frontend l)) (srv l)) l in
  let l := set_srv (Chassis.set_plugin_dir (plugin_dir (frontend l)) (srv l)) l in
  let l := set_frontend
             (set_plugin_dir
                (w_init_plugin_dir w (plugin_dir (frontend l)) (Chassis.base_dir (srv l)))
                (frontend l)) l in
  let l :=
    match conf_dir (frontend l) with
    | None => set_frontend (set_conf_dir (Some "conf") (frontend l)) l
    | Some _ => l
    end in
  let l := set_frontend (resolve_path (srv l) (frontend l)) l in
  let l := set_srv (Chassis.set_conf_dir (conf_dir (frontend l)) (srv l)) l in
  let l :=
    match Chassis.config_manager (srv l) with
    | None =>
      set_srv (Chassis.set_config_manager
                 (Some (chassis_config_from_local_dir (Chassis.conf_dir (srv l))
                          (default_file (frontend l))))
                 (srv l)) l
    | Some _ => l
    end in
  Next l.

(** [init_slow_query_log] (lines 599-614): whether the file was opened. *)
Definition init_slow_query_log (main_log : option string) : bool :=
  match main_log with
  | None => false
  | Some _ => w_fopen_slow_query_log w
  end.

(** Lines 778-790. *)
Definition open_log_file (l : locals) : flow :=
  let l :=
    match log_filename (frontend l) with
    | Some name =>
      set_log {| ChassisLog.min_lvl := ChassisLog.min_lvl (log l);
                 ChassisLog.log_filename := Some name |} l
    | None => l
    end in
  match ChassisLog.log_filename (log l), w_log_open w with
  | Some name, false =>
    let l := say (g_critical "can't open log-file '%s': %s"
                    [AStr name; AStr (w_strerror w (w_errno w))]) l in
    GOTO_EXIT EXIT_FAILURE 785 l
  | _, _ =>
    let l := set_slow_query_log_fp
               (init_slow_query_log (ChassisLog.log_filename (log l))) l in
    if negb (slow_query_log_fp l)
    then Next (say (g_warning "cannot open slow-query log" []) l)
    else Next l
  end.

(** Lines 796-815. *)
Definition apply_log_level (l : locals) : flow :=
  let after (l : locals) : flow :=
    let l := say (g_message ("starting " ++ PACKAGE_STRING cfg) []) l in
    let l :=
      match CHASSIS_BUILD_TAG cfg with
      | Some tag => say (g_message ("build revision: " ++ tag) []) l
      | None => l
      end in
    let l := say (g_message "glib version: %d.%d.%d"
                    [AInt (GLIB_MAJOR_VERSION cfg); AInt (GLIB_MINOR_VERSION cfg);
                     AInt (GLIB_MICRO_VERSION cfg)]) l in
    let l := say (g_message "libevent version: %s" [AStr (w_event_get_version w)]) l in
    let l := say (g_message "config dir: %s"
                    [match conf_dir (frontend l) with Some d => AStr d | None => ANull end]) l in
    Next l in
  match log_level (frontend l) with
  | Some level =>
    if negb (w_log_set_level w level =? 0)
    then
      let l := say (g_critical "--log-level=... failed, level '%s' is unknown "
                      [AStr level]) l in
      GOTO_EXIT EXIT_FAILURE 801 l
    else after l
  | None =>
    after (set_log {| ChassisLog.min_lvl := G_LOG_LEVEL_CRITICAL;
                      ChassisLog.log_filename := ChassisLog.log_filename (log l) |} l)
  end.

(** Lines 817-820. *)
Definition init_network (l : locals) : flow :=
  if w_network_mysqld_init w =? -1
  then GOTO_EXIT EXIT_FAILURE 819 (set_tr (g_print "network_mysqld_init failed\n" :: tr l) l)
  else Next l.

(** Lines 822-830. *)
Definition default_plugin_names (l : locals) : flow :=
  match plugin_names (frontend l) with
  | None =>
    let name :=
      match DEFAULT_PLUGIN cfg with
      | Some plugin => plugin
      | None => "proxy"
      end in
    Next (set_frontend (set_plugin_names (Some [name]) (frontend l)) l)
  | Some _ => Next l
  end.

(** Lines 832-836. *)
Definition load_plugins (l : locals) : flow :=
  let names := strv (plugin_names (frontend l)) in
  let ret := w_load_plugins w in
  let l := does (chassis_frontend_load_plugins (plugin_dir (frontend l)) names ret) l in
  if truthy ret
  then GOTO_EXIT EXIT_FAILURE 835 l
  else Next (set_srv (Chassis.set_modules names (srv l)) l).

(** Modelled from the spec: [chassis_frontend_init_plugins] of
    [chassis-frontend.c] (4.2: "register every known option (core +
    plugin-declared) into the registry").  The options the loaded plugins
    declare join the registry, with slots the plugins own; a pass over the
    command line takes their flags; a plugin that fails to initialise
    gives the error. *)
Definition init_plugin_options (o : chassis_options_t) (args : list cmd_arg)
  (fe : chassis_frontend_t)
  : GError + (chassis_options_t * chassis_frontend_t * list cmd_arg) :=
  let o := fold_left
             (fun o d => chassis_options_add o (fst d) 0 0 (snd d) ptr_plugin EmptyString None)
             (w_plugin_options w) o in
  match chassis_options_parse_cmdline o args fe with
  | inl e => inl e
  | inr r =>
    match w_init_plugins_error w with
    | Some e => inl e
    | None => inr r
    end
  end.

(** Lines 838-851. *)
Definition init_plugins (l : locals) : flow :=
  match init_plugin_options (the_opts l) (argv l) (frontend l) with
  | inl e =>
    let l := does (chassis_frontend_init_plugins (-1)) l in
    let l := say (g_critical "%s: %s" [G_STRLOC 845; AStr (message e)]) l in
    GOTO_EXIT EXIT_FAILURE 850 l
  | inr (o, fe, remaining) =>
    let l := does (chassis_frontend_init_plugins 0) l in
    Next (set_argv remaining (set_frontend fe (set_opts (Some o) l)))
  end.

(** Lines 854-858: if we only print the version numbers, exit and don't
    do any more work. *)
Definition print_plugin_versions (l : locals) : flow :=
  if truthy (print_version (frontend l))
  then GOTO_EXIT EXIT_SUCCESS 857 (does chassis_frontend_print_plugin_versions l)
  else Next l.

(** Lines 860-881: the strict pass. *)
Definition parse_all_options (l : locals) : flow :=
  let o := set_ignore_unknown false (the_opts l) in
  let o := set_help_enabled true o in
  let l := set_opts (Some o) l in
  match chassis_options_parse_cmdline o (argv l) (frontend l) with
  | inl e =>
    let l := set_gerr (Some e) l in
    let l :=
      if String.eqb (domain e) G_OPTION_ERROR && (code e =? G_OPTION_ERROR_UNKNOWN_OPTION)
      then say (g_critical "%s: %s (use --help to show all options)"
                  [G_STRLOC 868; AStr (message e)]) l
      else say (g_critical "%s: %s (code = %d, domain = %s)"
                  [G_STRLOC 872; AStr (message e); AInt (code e); AStr (domain e)]) l in
    GOTO_EXIT EXIT_FAILURE 880 l
  | inr (o, fe, remaining) =>
    Next (set_argv remaining (set_frontend fe (set_opts (Some o) l)))
  end.

(** Lines 883-888: after parsing the options only the program name
    should be left. *)
Definition reject_remaining_arguments (l : locals) : flow :=
  match argv l with
  | a :: _ =>
    GOTO_EXIT EXIT_FAILURE 887 (say (g_critical "unknown option: %s" [AStr (arg_text a)]) l)
  | [] => Next l
  end.

(** Lines 890-894. *)
Definition ignore_sigpipe_and_daemonize (l : locals) : flow :=
  let l := does (signal SIGPIPE SIG_IGN) l in
  if truthy (daemon_mode (frontend l))
  then Next (does chassis_unix_daemonize l)
  else Next l.

(** Lines 911-918. *)
Definition write_pidfile (lw : late_world) (l : locals) : flow :=
  match pid_file (frontend l) with
  | Some path =>
    let ret := w_write_pidfile lw in
    let l := does (chassis_frontend_write_pidfile path ret) l in
    if negb (ret =? 0)
    then
      let l := say (g_critical "%s" [AStr (w_write_pidfile_message lw)]) l in
      GOTO_EXIT EXIT_FAILURE 916 l
    else Next l
  | None => Next l
  end.

(** Lines 920-933. *)
Definition check_plugin_mode (l : locals) : flow :=
  let l := does chassis_frontend_log_plugin_versions l in
  let l := set_srv (Chassis.set_user (user (frontend l)) (srv l)) l in
  let '(valid, t) := check_plugin_mode_valid (frontend l) (srv l) (tr l) in
  let l := set_tr t l in
  if negb valid then GOTO_EXIT EXIT_FAILURE 932 l else Next l.

(** Lines 935-938. *)
Definition check_default_username (l : locals) : flow :=
  match default_username (frontend l) with
  | None =>
    GOTO_EXIT EXIT_FAILURE 937 (say (g_critical "proxy needs default username" []) l)
  | Some _ => Next l
  end.

(** Line 940. *)
Definition initialize_parameters (l : locals) : flow :=
  let '(s, t) := init_parameters cfg (frontend l) (srv l) (tr l) in
  Next (set_tr t (set_srv s l)).

(** Lines 942-957. *)
Definition init_xa_log (lw : late_world) (l : locals) : flow :=
  if SIMPLE_PARSER cfg then Next l
  else
    let l :=
      match log_xa_filename (frontend l) with
      | None => set_frontend (set_log_xa_filename (Some "logs/xa.log") (frontend l)) l
      | Some _ => l
      end in
    let l :=
      match w_resolve_path w (Chassis.base_dir (srv l)) (log_xa_filename (frontend l)) with
      | Some new_path => set_frontend (set_log_xa_filename (Some new_path) (frontend l)) l
      | None => l
      end in
    let l := say (g_message "XA log file: %s"
                    [match log_xa_filename (frontend l) with
                     | Some f => AStr f
                     | None => ANull
                     end]) l in
    let ret := w_tc_log_init lw in
    let l := does (tc_log_init (log_xa_filename (frontend l)) ret) l in
    if ret =? -1 then GOTO_EXIT EXIT_FAILURE 955 l else Next l.

(** Lines 959-970. *)
Definition set_fdlimit (lw : late_world) (l : locals) : flow :=
  let after (l : locals) : flow :=
    Next (say (g_debug ("max open file-descriptors = %" ++ G_GINT64_FORMAT cfg)
                 [AInt (w_fdlimit_get lw)]) l) in
  if truthy (max_files_number (frontend l))
  then
    let ret := w_fdlimit_set lw in
    let l := does (chassis_fdlimit_set (max_files_number (frontend l)) ret) l in
    if negb (ret =? 0)
    then
      let l := say (g_critical "%s: setting fdlimit = %d failed: %s (%d)"
                      [G_STRLOC 961; AInt (max_files_number (frontend l));
                       AStr (w_strerror w (w_fdlimit_errno lw));
                       AInt (w_fdlimit_errno lw)]) l in
      GOTO_EXIT EXIT_FAILURE 966 l
    else after l
  else after l.

(** Lines 973-981. *)
Definition run_mainloop (lw : late_world) (l : locals) : flow :=
  let l := does cetus_monitor_start_thread l in
  let ret := w_mainloop lw in
  let l := does (chassis_mainloop ret) l in
  if truthy ret
  then
    let l := say (g_critical "%s: Failure from chassis_mainloop. Shutting down."
                    [G_STRLOC 977]) l in
    GOTO_EXIT EXIT_FAILURE 978 l
  else Next (does cetus_monitor_stop_thread l).

(** Lines 911-981: what the process that serves does after the
    supervision hand-off. *)
Definition serve (lw : late_world) (l : locals) : flow :=
  Next l
  >>> write_pidfile lw
  >>> check_plugin_mode
  >>> check_default_username
  >>> initialize_parameters
  >>> init_xa_log lw
  >>> set_fdlimit lw
  >>> run_mainloop lw.

(** The exit code [main_cmdline] returns from a flow: line 640 sets
    [EXIT_SUCCESS], and only a jump to [exit_nicely] changes it. *)
Definition status_of (f : flow) : Z :=
  match f with
  | Next _ => EXIT_SUCCESS
  | GOTO_EXIT status _ _ => status
  end.

(** Lines 896-910: the supervisor forwards the exit status of the child,
    which is what the child's [main_cmdline] returns from the rest of the
    sequence. *)
Definition supervise (l : locals) : flow :=
  if truthy (auto_restart (frontend l))
  then
    match w_keepalive w with
    | is_supervisor child =>
      let child_exit_status := status_of (serve child l) in
      let l := does (chassis_unix_proc_keepalive 1) l in
      GOTO_EXIT child_exit_status 641 l
    | fork_failed =>
      GOTO_EXIT EXIT_FAILURE 906 (does (chassis_unix_proc_keepalive (-1)) l)
    | is_child =>
      Next (does (chassis_unix_proc_keepalive 0) l)
    end
  else Next l.

(** Lines 706-736: the command line, the key file and the remote
    configuration are merged into the front-end record. *)
Definition merge_sources (l : locals) : flow :=
  Next l
  >>> parse_core_options
  >>> apply_keyfile
  >>> apply_remote_config.

(** Lines 673-740. *)
Definition load_configuration (l : locals) : flow :=
  Next l
  >>> parse_base_options
  >>> open_config_file
  >>> print_main_version
  >>> merge_sources
  >>> init_basedir.

(** Lines 755-820. *)
Definition start_service (l : locals) : flow :=
  Next l
  >>> publish_directories
  >>> open_log_file
  >>> apply_log_level
  >>> init_network.

(** Lines 838-881: the passes over the command line once the plugins'
    options are known. *)
Definition finish_options (l : locals) : flow :=
  Next l
  >>> init_plugins
  >>> print_plugin_versions
  >>> parse_all_options.

(** Lines 673-981 in order. *)
Definition bootstrap (l : locals) : flow :=
  Next l
  >>> load_configuration
  >>> register_sigsegv_interceptor
  >>> start_service
  >>> default_plugin_names
  >>> load_plugins
  >>> finish_options
  >>> reject_remaining_arguments
  >>> ignore_sigpipe_and_daemonize
  >>> supervise
  >>> serve (w_late w).

End Stages.

(** ** The exit funnel *)

(** What a run of [main_cmdline] leaves: the value it returns, the log in
    the order written, and the front-end record and service object as they
    stood when [exit_nicely] was reached ([None] when the run left before
    they existed). *)
Record outcome := {
  exit_code : Z;
  exit_location : Z;
  events : list event;
  frontend_at_exit : option chassis_frontend_t;
  srv_at_exit : option Chassis.t
}.

Definition is_some {A : Type} (x : option A) : bool :=
  match x with
  | Some _ => true
  | None => false
  end.

(** A call or log line made under a condition. *)
Definition when (c : bool) (e : event) (tr : trace) : trace :=
  if c then e :: tr else tr.

(** [release_resouces_when_exit] (lines 535-549).  Line 548 calls
    [chassis_frontend_free] whether there is a record or not; the test for
    [NULL] is the callee's (line 157). *)
Definition release_resouces_when_exit (fe : option chassis_frontend_t)
  (s : option Chassis.t) (e : option GError) (o : option chassis_options_t)
  (tr : trace) : trace :=
  let tr := when (is_some e) (call g_error_free) tr in
  let tr := when (is_some s) (call chassis_free) tr in
  let tr := g_debug "%s: call chassis_options_free" [G_STRLOC 541] tr in
  let tr := when (is_some o) (call chassis_options_free) tr in
  let tr := g_debug "%s: call g_hash_table_destroy" [G_STRLOC 543] tr in
  let tr := g_debug "%s: call chassis_log_free" [G_STRLOC 544] tr in
  let tr := call chassis_log_free :: tr in
  let tr := call tc_log_end :: tr in
  let tr := call chassis_frontend_free :: tr in
  tr.

Section Exit.

Variable cfg : build_config.
Variable w : world.

(** Lines 999-1004: the tag added to the log file. *)
Definition shutdown_tag (status : Z) (fe : option chassis_frontend_t) (tr : trace) : trace :=
  match fe with
  | Some f =>
    when (negb (truthy (print_version f)))
         (g_log (if truthy (verbose_shutdown f)
                 then G_LOG_LEVEL_CRITICAL else G_LOG_LEVEL_MESSAGE)
                "shutting down normally, exit code is: %d" [AInt status])
         tr
  | None => tr
  end.

(** Lines 1006-1012: reset the handler. *)
Definition reset_sigsegv_handler (fe : option chassis_frontend_t) (tr : trace) : trace :=
  when (HAVE_SIGACTION cfg
        && match fe with
           | Some f => truthy (invoke_dbg_on_crash f) && negb (RUNNING_ON_VALGRIND cfg w)
           | None => false
           end)
       (call (sigaction SIGSEGV SIG_DFL)) tr.

(** [exit_nicely] (lines 983-1017).  [slow_query_log_fp] is declared at
    line 787; on a jump from before that line the model takes it as
    [NULL]. *)
Definition exit_nicely (status location : Z) (fe : option chassis_frontend_t)
  (s : option Chassis.t) (e : option GError) (o : option chassis_options_t)
  (slow_query_log : bool) (tr : trace) : outcome :=
  let location := if negb (truthy status) then 988 else location in
  let m := w_mallinfo (w_late w) in
  let tr := g_message "Total allocated space (bytes): %d" [AInt (fst (fst m))] tr in
  let tr := g_message "Total free space (bytes): %d" [AInt (snd (fst m))] tr in
  let tr := g_message "Top-most, releasable space (bytes): %d" [AInt (snd m)] tr in
  let tr := call (chassis_set_shutdown_location location) :: tr in
  let tr := shutdown_tag status fe tr in
  let tr := reset_sigsegv_handler fe tr in
  let tr := release_resouces_when_exit fe s e o tr in
  let tr := when slow_query_log (call fclose) tr in
  {| exit_code := status;
     exit_location := location;
     events := rev tr;
     frontend_at_exit := fe;
     srv_at_exit := s |}.

(** Falling off the end of the sequence, or jumping, into [exit_nicely];
    line 641 is the exit location the function starts with. *)
Definition finish (f : flow) : outcome :=
  match f with
  | Next l =>
    exit_nicely EXIT_SUCCESS 641 (Some (frontend l)) (Some (srv l)) (gerr l) (opts l)
      (slow_query_log_fp l) (tr l)
  | GOTO_EXIT status location l =>
    exit_nicely status location (Some (frontend l)) (Some (srv l)) (gerr l) (opts l)
      (slow_query_log_fp l) (tr l)
  end.

(** The locals as lines 620-662 leave them: the log on [stderr] at
    message level, the service object, a fresh front-end record. *)
Definition initial_locals (s : Chassis.t) : locals :=
  let lg := chassis_log_new in
  let lg := {| ChassisLog.min_lvl := G_LOG_LEVEL_MESSAGE;
               ChassisLog.log_filename := ChassisLog.log_filename lg |} in
  {| srv := s; frontend := chassis_frontend_new cfg; opts := None; gerr := None;
     log := lg; argv := w_argv w; slow_query_log_fp := false; tr := [] |}.

(** [main_cmdline] (lines 619-1018).  [chassis_frontend_new] never
    returns [NULL] ([g_slice_new0] aborts instead), so the test at line
    664 does not fire. *)
Definition main_cmdline : outcome :=
  if truthy (w_init_glib w)
  then exit_nicely EXIT_FAILURE 645 None None None None false []
  else
    match w_chassis_new w with
    | None => exit_nicely EXIT_FAILURE 656 None None None None false []
    | Some s => finish (bootstrap cfg w (initial_locals s))
    end.

End Exit.

(** ** Observations on a run *)

Definition is_shutdown_line (e : event) : bool :=
  match e with
  | g_log _ format _ => String.eqb format "shutting down normally, exit code is: %d"
  | _ => false
  end.

(** The terminal log lines of a run. *)
Definition shutdown_lines (o : outcome) : list event := filter is_shutdown_line (events o).

Definition is_mainloop_call (e : event) : bool :=
  match e with
  | call (chassis_mainloop _) => true
  | _ => false
  end.

(** The first line [init_parameters] logs. *)
Definition is_init_parameters_line (e : event) : bool :=
  match e with
  | g_log _ format _ => String.eqb format "set default pool size:%d"
  | _ => false
  end.

Definition is_mode_conflict (e : event) : bool :=
  match e with
  | g_log G_LOG_LEVEL_CRITICAL format _ =>
    String.eqb format "shard & proxy is mutual exclusive"
  | _ => false
  end.

(** [chassis_frontend_init_plugins] has returned 0. *)
Definition is_init_plugins_done (e : event) : bool :=
  match e with
  | call (chassis_frontend_init_plugins ret) => ret =? 0
  | _ => false
  end.

Definition is_sigsegv_install (e : event) : bool :=
  match e with
  | call (sigaction SIGSEGV sigsegv_handler_fn) => true
  | _ => false
  end.

(** The name vectors handed to [chassis_frontend_load_plugins]. *)
Definition loaded_names (e : event) : list (list string) :=
  match e with
  | call (chassis_frontend_load_plugins _ names _) => [names]
  | _ => []
  end.

(** In the log [evs], in the order written: some [a] event comes before
    the first [b] event. *)
Fixpoint happens_before (a b : event -> bool) (evs : list event) : bool :=
  match evs with
  | [] => false
  | e :: rest =>
    if b e then false
    else if a e then existsb b rest
    else happens_before a b rest
  end.

(** The plugin list names both [shard] and [proxy]. *)
Definition mode_conflict (fe : chassis_frontend_t) : bool :=
  existsb (String.eqb "shard") (strv (plugin_names fe))
  && existsb (String.eqb "proxy") (strv (plugin_names fe)).

(** The front-end record cannot pass the checks of lines 931-938. *)
Definition refused (fe : chassis_frontend_t) : bool :=
  mode_conflict fe || negb (is_some (default_username fe)).

(** Parameter initialisation or the mainloop has begun. *)
Definition started (e : event) : bool :=
  is_mainloop_call e || is_init_parameters_line e.

Definition not_started (l : locals) : Prop := filter started (tr l) = [].

(** On the log [t], newest entry first: every mode-conflict error has a
    completed plugin initialisation among the older entries. *)
Fixpoint ordered (t : trace) : bool :=
  match t with
  | [] => true
  | e :: older =>
    (if is_mode_conflict e then existsb is_init_plugins_done older else true)
    && ordered older
  end.

(** On the log [evs], in the order written: every mode-conflict error
    comes after a completed plugin initialisation. *)
Definition conflict_after_init (evs : list event) : Prop :=
  forall pre e post,
    evs = (pre ++ e :: post)%list ->
    is_mode_conflict e = true ->
    existsb is_init_plugins_done pre = true.

(** The sample environment when [--version] is on the command line. *)
Definition with_version (w : world) : world :=
  {| w_argv0 := w_argv0 w;
     w_argv := w_argv w;
     w_init_glib := w_init_glib w;
     w_chassis_new := w_chassis_new w;
     w_init_base_options := fun a =>
       match w_init_base_options w a with
       | inr (_, file, remaining) => inr (1, file, remaining)
       | inl e => inl e
       end;
     w_open_config_file := w_open_config_file w;
     w_remote_settings := w_remote_settings w;
     w_init_basedir := w_init_basedir w;
     w_running_on_valgrind := w_running_on_valgrind w;
     w_init_plugin_dir := w_init_plugin_dir w;
     w_resolve_path := w_resolve_path w;
     w_log_open := w_log_open w;
     w_errno := w_errno w;
     w_strerror := w_strerror w;
     w_fopen_slow_query_log := w_fopen_slow_query_log w;
     w_log_set_level := w_log_set_level w;
     w_event_get_version := w_event_get_version w;
     w_network_mysqld_init := w_network_mysqld_init w;
     w_load_plugins := w_load_plugins w;
     w_plugin_options := w_plugin_options w;
     w_init_plugins_error := w_init_plugins_error w;
     w_keepalive := w_keepalive w;
     w_late := w_late w |}.

(** A command line that selects both plugins. *)
Definition shard_and_proxy : list cmd_arg :=
  [LongOpt "plugins" (VString "shard"); LongOpt "plugins" (VString "proxy")].

(** *** Slots and the command line *)

(** What a slot holds. *)
Inductive slot_value :=
| SInt (z : Z)
| SDouble (d : float)
| SString (s : option string)
| SStrv (v : option (list string))
| SPlugin.

Definition read_slot (d : arg_data) (fe : chassis_frontend_t) : slot_value :=
  match d with
  | ptr_int get _ => SInt (get fe)
  | ptr_double get _ => SDouble (get fe)
  | ptr_string get _ => SString (get fe)
  | ptr_strv get _ => SStrv (get fe)
  | ptr_plugin => SPlugin
  end.

(** Reading a slot after an assignment through it gives what was
    assigned. *)
Definition lens_ok (d : arg_data) : Prop :=
  match d with
  | ptr_int get set => forall v fe, get (set v fe) = v
  | ptr_double get set => forall v fe, get (set v fe) = v
  | ptr_string get set => forall v fe, get (set v fe) = v
  | ptr_strv get set => forall v fe, get (set v fe) = v
  | ptr_plugin => True
  end.

(** An assignment through [d1] does not change what [d2] reads. *)
Definition separate (d1 d2 : arg_data) : Prop :=
  match d1 with
  | ptr_int _ set => forall v fe, read_slot d2 (set v fe) = read_slot d2 fe
  | ptr_double _ set => forall v fe, read_slot d2 (set v fe) = read_slot d2 fe
  | ptr_string _ set => forall v fe, read_slot d2 (set v fe) = read_slot d2 fe
  | ptr_strv _ set => forall v fe, read_slot d2 (set v fe) = read_slot d2 fe
  | ptr_plugin => True
  end.

(** The names of the flags on a command line. *)
Definition flag_names (args : list cmd_arg) : list string :=
  flat_map (fun a => match a with LongOpt n _ => [n] | Positional _ => [] end) args.

(** The front-end record after the values the command line gives the
    option named [n], of kind [a] and slot [d], have been stored one after
    the other, and nothing else. *)
Fixpoint cmdline_only (n : string) (a : option_type) (d : arg_data)
  (args : list cmd_arg) (fe : chassis_frontend_t) : chassis_frontend_t :=
  match args with
  | [] => fe
  | LongOpt n' v :: rest =>
    if String.eqb n' n
    then match store_through a d v fe with
         | Some fe' => cmdline_only n a d rest fe'
         | None => fe
         end
    else cmdline_only n a d rest fe
  | Positional _ :: rest => cmdline_only n a d rest fe
  end.

(** The registry [chassis_frontend_set_chassis_options] builds. *)
Definition core_options : list chassis_option_t :=
  options (chassis_frontend_set_chassis_options chassis_options_new).

(** What the registry [reg] must be like for the option named [n], of
    kind [a] and slot [d]: the name is registered, with that kind and
    slot, and the slots of the other names are apart from it. *)
Definition registers (reg : list chassis_option_t) (n : string) (a : option_type)
  (d : arg_data) : Prop :=
  In n (map long_name reg)
  /\ lens_ok d
  /\ (forall o, In o reg -> long_name o = n -> arg o = a /\ arg_data_of o = d)
  /\ (forall o, In o reg -> long_name o <> n -> separate (arg_data_of o) d).

(** No flag left on the command line names a slot of the front-end
    record: the first pass has taken those, and what the registry has
    gained since are options of the plugins. *)
Definition settled (l : locals) : Prop :=
  forall n o,
    In n (flag_names (argv l)) ->
    find_option n (options (the_opts l)) = Some o ->
    arg_data_of o = ptr_plugin.


(** The installations of [sigsegv_handler] in the log, and the name
    vectors it has handed to [chassis_frontend_load_plugins]. *)
Definition installs (l : locals) (evs : list event) : Prop :=
  filter is_sigsegv_install (tr l) = evs.

Definition loads (l : locals) (v : list (list string)) : Prop :=
  flat_map loaded_names (tr l) = v.

(** What the key file the front-end record holds says of the option
    named [n], in the group [main_cmdline] reads. *)
Definition keyfile_value (fe : chassis_frontend_t) (n : string) : option opt_value :=
  match keyfile fe with
  | Some kf =>
    match key_file_group kf "cetus" with
    | Some entries => key_file_get entries n
    | None => None
    end
  | None => None
  end.


(** The log is ordered; the log is ordered and plugin initialisation has
    completed. *)
Definition in_order (l : locals) : Prop := ordered (tr l) = true.

Definition initialised (l : locals) : Prop :=
  ordered (tr l) = true /\ existsb is_init_plugins_done (tr l) = true.

(** An event that none of the observations above singles out. *)
Definition unremarkable (e : event) : bool :=
  negb (is_shutdown_line e) && negb (is_mode_conflict e)
  && negb (is_init_plugins_done e) && negb (is_mainloop_call e)
  && negb (is_sigsegv_install e)
  && match loaded_names e with [] => true | _ :: _ => false end.

(** No terminal line has been logged yet. *)
Definition quiet (l : locals) : Prop := filter is_shutdown_line (tr l) = [].

(** What holds when the sequence leaves for [exit_nicely]: with a record
    that cannot pass the checks, neither parameter initialisation nor the
    mainloop has begun, and the exit code is [EXIT_FAILURE] unless the
    version was asked for. *)
Definition refused_exit (status : Z) (location : Z) (l : locals) : Prop :=
  refused (frontend l) = true ->
  not_started l
  /\ (truthy (print_version (frontend l)) = false -> status = EXIT_FAILURE).

(** What holds of the locals when a flow goes on ([P]) and when it leaves
    for [exit_nicely] ([E]). *)
Definition flow_spec (P : locals -> Prop) (E : Z -> Z -> locals -> Prop) (f : flow) : Prop :=
  match f with
  | Next l => P l
  | GOTO_EXIT status location l => E status location l
  end.

(** ** A reference build and sample environments *)

Definition reference_build : build_config :=
  {| HAVE_SIGACTION := true;
     HAVE_VALGRIND_VALGRIND_H := false;
     SIMPLE_PARSER := false;
     DEFAULT_PLUGIN := None;
     CHASSIS_BUILD_TAG := None;
     PACKAGE_STRING := "cetus";
     MAX_QUERY_TIME := 65536;
     MAX_ALLOWED_PACKET_DEFAULT := 33554432;
     MAX_ALLOWED_PACKET_FLOOR := 1024;
     MAX_ALLOWED_PACKET_CEIL := 1073741824;
     GLIB_MAJOR_VERSION := 2;
     GLIB_MINOR_VERSION := 56;
     GLIB_MICRO_VERSION := 1;
     G_GINT64_FORMAT := "li" |}.

(** A service object with every field zero. *)
Definition chassis_zero : Chassis.t :=
  {| Chassis.config_manager := None;
     Chassis.base_dir := None;
     Chassis.plugin_dir := None;
     Chassis.conf_dir := None;
     Chassis.user := None;
     Chassis.modules := [];
     Chassis.default_username := None;
     Chassis.default_charset := None;
     Chassis.default_db := None;
     Chassis.mid_idle_connections := 0;
     Chassis.max_idle_connections := 0;
     Chassis.max_resp_len := 0;
     Chassis.merged_output_size := 0;
     Chassis.compressed_merged_output_size := 0;
     Chassis.max_header_size := 0;
     Chassis.guid_state_worker_id := 0;
     Chassis.client_found_rows := 0;
     Chassis.xa_log_detailed := 0;
     Chassis.is_reset_conn_enabled := 0;
     Chassis.query_cache_enabled := 0;
     Chassis.query_cache_table := None;
     Chassis.cache_index := None;
     Chassis.is_tcp_stream_enabled := 0;
     Chassis.disable_threads := 0;
     Chassis.is_back_compressed := 0;
     Chassis.compress_support := 0;
     Chassis.check_slave_delay := 0;
     Chassis.slave_delay_down_threshold_sec := 0%float;
     Chassis.slave_delay_recover_threshold_sec := 0%float;
     Chassis.master_preferred := 0;
     Chassis.disable_dns_cache := 0;
     Chassis.default_query_cache_timeout := 0;
     Chassis.long_query_time := 0;
     Chassis.cetus_max_allowed_packet := 0 |}.

(** Every late call succeeds. *)
Definition calm_late : late_world :=
  {| w_write_pidfile := 0;
     w_write_pidfile_message := "write failed";
     w_tc_log_init := 0;
     w_fdlimit_set := 0;
     w_fdlimit_errno := 0;
     w_fdlimit_get := 1024;
     w_mainloop := 0;
     w_mallinfo := (0, 0, 0) |}.

(** A path resolver as 4.3 describes it. *)
Definition sample_resolve_path (base candidate : option string) : option string :=
  match base, candidate with
  | Some b, Some c =>
    if String.eqb c EmptyString then Some c
    else if String.prefix "/" c then Some c
    else Some (b ++ "/" ++ c)
  | _, _ => None
  end.

(** An environment in which every call succeeds: the command line is
    [args], and the key file, when there is one, is named by
    [--defaults-file] and holds [kf]. *)
Definition sample_world (args : list cmd_arg) (kf : option GKeyFile) : world :=
  {| w_argv0 := "/usr/local/cetus/bin/cetus";
     w_argv := args;
     w_init_glib := 0;
     w_chassis_new := Some chassis_zero;
     w_init_base_options := fun a =>
       inr (0, match kf with Some _ => Some "/etc/cetus.conf" | None => None end, a);
     w_open_config_file := fun _ =>
       match kf with
       | Some k => inr k
       | None => inl {| domain := "g-file-error-quark"; code := 4;
                        message := "No such file or directory" |}
       end;
     w_remote_settings := fun _ => None;
     w_init_basedir := fun _ d =>
       (0, match d with Some d => Some d | None => Some "/usr/local/cetus" end);
     w_running_on_valgrind := false;
     w_init_plugin_dir := fun d _ =>
       match d with Some d => Some d | None => Some "lib/cetus/plugins" end;
     w_resolve_path := sample_resolve_path;
     w_log_open := true;
     w_errno := 0;
     w_strerror := fun _ => "error";
     w_fopen_slow_query_log := true;
     w_log_set_level := fun _ => 0;
     w_event_get_version := "2.1.8";
     w_network_mysqld_init := 0;
     w_load_plugins := 0;
     w_plugin_options := [("proxy-address", OPTION_ARG_STRING)];
     w_init_plugins_error := None;
     w_keepalive := is_child;
     w_late := calm_late |}.

(** The sample environment with a failing [chassis_frontend_init_glib]. *)
Definition world_without_runtime : world :=
  {| w_argv0 := w_argv0 (sample_world [] None);
     w_argv := [];
     w_init_glib := 1;
     w_chassis_new := w_chassis_new (sample_world [] None);
     w_init_base_options := w_init_base_options (sample_world [] None);
     w_open_config_file := w_open_config_file (sample_world [] None);
     w_remote_settings := w_remote_settings (sample_world [] None);
     w_init_basedir := w_init_basedir (sample_world [] None);
     w_running_on_valgrind := false;
     w_init_plugin_dir := w_init_plugin_dir (sample_world [] None);
     w_resolve_path := sample_resolve_path;
     w_log_open := true;
     w_errno := 0;
     w_strerror := w_strerror (sample_world [] None);
     w_fopen_slow_query_log := true;
     w_log_set_level := w_log_set_level (sample_world [] None);
     w_event_get_version := "2.1.8";
     w_network_mysqld_init := 0;
     w_load_plugins := 0;
     w_plugin_options := [];
     w_init_plugins_error := None;
     w_keepalive := is_child;
     w_late := calm_late |}.

(** A front-end record with the two pool sizes given. *)
Definition frontend_with_pool (d m : Z) : chassis_frontend_t :=
  set_max_pool_size m (set_default_pool_size d (chassis_frontend_new reference_build)).

(** A front-end record with the two slave-delay thresholds given. *)
Definition frontend_with_delay (down recover : float) : chassis_frontend_t :=
  set_slave_delay_recover_threshold_sec recover
    (set_slave_delay_down_threshold_sec down (chassis_frontend_new reference_build)).





(** ** The sources of one option *)


(** A key file that sets the plugin list, to the empty list. *)
Definition keyfile_without_plugins : GKeyFile :=
  [("cetus", [("plugins", VStrings [])])].

(** Lines 706-881: from the lenient pass over the command line to the
    strict one, as [bootstrap] runs them. *)
Definition through_strict_pass (cfg : build_config) (w : world) (l : locals) : flow :=
  Next l
  >>> merge_sources w
  >>> init_basedir w
  >>> register_sigsegv_interceptor cfg w
  >>> start_service cfg w
  >>> default_plugin_names cfg
  >>> load_plugins w
  >>> finish_options w.


(** A key file and a command line that both name the log file, and the
    state in which [main_cmdline] merges them. *)
Definition log_keyfile : GKeyFile :=
  [("cetus", [("log-file", VString "/var/log/from-keyfile.log")])].

Definition log_command_line : list cmd_arg :=
  [LongOpt "log-file" (VString "cetus.log")].

Definition log_locals : locals :=
  let w := sample_world log_command_line (Some log_keyfile) in
  let l := initial_locals reference_build w chassis_zero in
  set_frontend (set_keyfile (Some log_keyfile) (frontend l)) l.


(** ** The functions of the file that [main_cmdline] does not call itself *)

Module Frontend.

(** What [chassis_frontend_free] hands back to the allocator. *)
Inductive release :=
| g_key_file_free (keyfile : GKeyFile)
| g_free (mem : option string)
| g_strfreev (str_array : list string)
| g_slice_free.

(** [chassis_frontend_free] (lines 156-181): the releases it makes, in
    order.  [g_free (NULL)] is a call that does nothing. *)
Definition chassis_frontend_free (frontend : option chassis_frontend_t) : list release :=
  match frontend with
  | None => []
  | Some frontend =>
    (match keyfile frontend with
     | Some kf => [g_key_file_free kf]
     | None => []
     end)
    ++ [g_free (default_file frontend);
        g_free (log_xa_filename frontend);
        g_free (log_filename frontend);
        g_free (base_dir frontend);
        g_free (conf_dir frontend);
        g_free (user frontend);
        g_free (pid_file frontend);
        g_free (log_level frontend);
        g_free (plugin_dir frontend);
        g_free (default_username frontend);
        g_free (default_db frontend);
        g_free (default_charset frontend)]
    ++ (match plugin_names frontend with
        | Some names => [g_strfreev names]
        | None => []
        end)
    ++ [g_free (remote_config_url frontend); g_slice_free]
  end.

(** What [chassis_frontend_free] does with the slot of an option: a
    string is handed to [g_free], a string vector that is not [NULL] to
    [g_strfreev]; a number needs nothing. *)
Definition released (d : arg_data) (fe : chassis_frontend_t) : Prop :=
  match d with
  | ptr_string get _ => In (g_free (get fe)) (chassis_frontend_free (Some fe))
  | ptr_strv get _ =>
    match get fe with
    | Some v => In (g_strfreev v) (chassis_frontend_free (Some fe))
    | None => True
    end
  | _ => True
  end.

End Frontend.

(** [slow_query_log_handler] (lines 585-597).  [stamp] is what [strftime]
    makes of the local time with the format of line 593; [timestr] is the
    32-byte buffer, zeroed at line 591, after the call: the stamp and the
    terminating zero when they fit, and the buffer as it was when they do
    not.  The file is the text written to it so far. *)
Definition timestr (stamp : string) : list Ascii.ascii :=
  if (String.length stamp <? 32)%nat
  then firstn 32 (list_ascii_of_string stamp ++ repeat Ascii.zero 32)
  else repeat Ascii.zero 32.

Definition fwrite (ptr : list Ascii.ascii) (nmemb : nat) (fp : list Ascii.ascii)
  : list Ascii.ascii :=
  fp ++ firstn nmemb ptr.

Definition slow_query_log_handler (stamp : string) (message : string)
  (fp : list Ascii.ascii) : list Ascii.ascii :=
  let len := 20%nat in
  let fp := fwrite (timestr stamp) len fp in
  let fp := fwrite (list_ascii_of_string message) (String.length message) fp in
  let fp := fwrite [Ascii.ascii_of_nat 10] 1 fp in
  fp.

(** ** Further observations on a run *)

(** The calls in a log, in the order of the log. *)
Definition calls (evs : list event) : list extcall :=
  flat_map (fun e => match e with call c => [c] | _ => [] end) evs.

Definition is_log (e : event) : bool :=
  match e with
  | call _ => false
  | _ => true
  end.

(** Where the text of [main_cmdline] makes a call: ten times the line,
    and for the calls of [release_resouces_when_exit], which line 1014
    makes, their place in it added.  The two installations of a signal
    handler that the file does not make have no place. *)
Definition rank (c : extcall) : Z :=
  match c with
  | chassis_frontend_print_version => 7020
  | sigaction SIGSEGV sigsegv_handler_fn => 7510
  | chassis_frontend_load_plugins _ _ _ => 8320
  | chassis_frontend_init_plugins _ => 8380
  | chassis_frontend_print_plugin_versions => 8560
  | signal SIGPIPE SIG_IGN => 8900
  | chassis_unix_daemonize => 8930
  | chassis_unix_proc_keepalive _ => 8980
  | chassis_frontend_write_pidfile _ _ => 9120
  | chassis_frontend_log_plugin_versions => 9230
  | tc_log_init _ _ => 9540
  | chassis_fdlimit_set _ _ => 9600
  | cetus_monitor_start_thread => 9730
  | chassis_mainloop _ => 9750
  | cetus_monitor_stop_thread => 9810
  | chassis_set_shutdown_location _ => 9970
  | sigaction SIGSEGV SIG_DFL => 10100
  | g_error_free => 10141
  | chassis_free => 10142
  | chassis_options_free => 10143
  | chassis_log_free => 10144
  | tc_log_end => 10145
  | chassis_frontend_free => 10146
  | fclose => 10150
  | sigaction _ _ => 0
  | signal _ _ => 0
  end.

(** On a log, newest entry first: the calls are below [bound], and each
    is above the calls made before it. *)
Fixpoint descending (bound : Z) (t : trace) : bool :=
  match t with
  | [] => true
  | call c :: t => (rank c <? bound) && descending (rank c) t
  | _ :: t => descending bound t
  end.

Definition below (bound : Z) (l : locals) : Prop := descending bound (tr l) = true.



(** The monitor thread and the mainloop. *)
Definition is_monitor_or_mainloop (c : extcall) : bool :=
  match c with
  | cetus_monitor_start_thread | chassis_mainloop _ | cetus_monitor_stop_thread => true
  | _ => false
  end.

Definition idle (l : locals) : Prop := filter is_monitor_or_mainloop (calls (tr l)) = [].

(** The mainloop has failed: the exit of line 978. *)
Definition mainloop_failed (status location : Z) (l : locals) : Prop :=
  idle l
  \/ exists ret,
      ret <> 0
      /\ filter is_monitor_or_mainloop (calls (tr l))
         = [chassis_mainloop ret; cetus_monitor_start_thread]
      /\ status = EXIT_FAILURE /\ location = 978.

(** The options of the four paths [resolve_path] rewrites. *)
Definition resolved_paths : list string := ["log-file"; "pid-file"; "plugin-dir"; "conf-dir"].

Definition resolved (w : world) (s : Chassis.t) (path : option string) : option string :=
  match w_resolve_path w (Chassis.base_dir s) path with
  | Some new_path => Some new_path
  | None => path
  end.

(** [chassis_unix_proc_keepalive] has returned in a process that is not
    the child: the supervisor, or the process whose [fork] has failed. *)
Definition is_supervisor_return (c : extcall) : bool :=
  match c with
  | chassis_unix_proc_keepalive ret => negb (ret =? 0)
  | _ => false
  end.

(** The calls of lines 911-981, which only a process that serves makes. *)
Definition is_service_call (c : extcall) : bool :=
  match c with
  | chassis_frontend_write_pidfile _ _ | chassis_frontend_log_plugin_versions
  | tc_log_init _ _ | chassis_fdlimit_set _ _
  | cetus_monitor_start_thread | chassis_mainloop _ | cetus_monitor_stop_thread => true
  | _ => false
  end.

Definition unsupervised (l : locals) : Prop :=
  filter is_supervisor_return (calls (tr l)) = [].

Definition not_serving (l : locals) : Prop :=
  filter is_service_call (calls (tr l)) = [] /\ filter started (tr l) = [].

(** What holds when the sequence leaves for [exit_nicely]: a process in
    which [chassis_unix_proc_keepalive] has returned anything but 0 has
    made none of the calls of a process that serves, and leaves with
    [EXIT_FAILURE] from line 906 when the value is negative. *)
Definition supervisor_exit (status location : Z) (l : locals) : Prop :=
  unsupervised l
  \/ (not_serving l
      /\ exists ret,
          filter is_supervisor_return (calls (tr l)) = [chassis_unix_proc_keepalive ret]
          /\ (ret < 0 -> status = EXIT_FAILURE /\ location = 906)).

(** The sample environment, for the supervisor of a child that has ended
    of its own accord. *)
Definition supervisor_world : world :=
  let w := sample_world [LongOpt "keepalive" VFlag] None in
  {| w_argv0 := w_argv0 w;
     w_argv := w_argv w;
     w_init_glib := w_init_glib w;
     w_chassis_new := w_chassis_new w;
     w_init_base_options := w_init_base_options w;
     w_open_config_file := w_open_config_file w;
     w_remote_settings := w_remote_settings w;
     w_init_basedir := w_init_basedir w;
     w_running_on_valgrind := w_running_on_valgrind w;
     w_init_plugin_dir := w_init_plugin_dir w;
     w_resolve_path := w_resolve_path w;
     w_log_open := w_log_open w;
     w_errno := w_errno w;
     w_strerror := w_strerror w;
     w_fopen_slow_query_log := w_fopen_slow_query_log w;
     w_log_set_level := w_log_set_level w;
     w_event_get_version := w_event_get_version w;
     w_network_mysqld_init := w_network_mysqld_init w;
     w_load_plugins := w_load_plugins w;
     w_plugin_options := w_plugin_options w;
     w_init_plugins_error := w_init_plugins_error w;
     w_keepalive := is_supervisor calm_late;
     w_late := w_late w |}.

(** What must have happened before the mainloop is entered, and where
    the text makes the call: the plugins loaded and initialised with
    success, [SIGPIPE] ignored, the plugin versions logged and the monitor
    thread started. *)
Definition is_plugins_loaded (c : extcall) : bool :=
  match c with
  | chassis_frontend_load_plugins _ _ ret => ret =? 0
  | _ => false
  end.

Definition is_plugins_initialised (c : extcall) : bool :=
  match c with
  | chassis_frontend_init_plugins ret => ret =? 0
  | _ => false
  end.

Definition is_sigpipe_ignored (c : extcall) : bool :=
  match c with
  | signal SIGPIPE SIG_IGN => true
  | _ => false
  end.

Definition is_versions_logged (c : extcall) : bool :=
  match c with
  | chassis_frontend_log_plugin_versions => true
  | _ => false
  end.

Definition is_monitor_started (c : extcall) : bool :=
  match c with
  | cetus_monitor_start_thread => true
  | _ => false
  end.

Definition is_mainloop_entered (c : extcall) : bool :=
  match c with
  | chassis_mainloop _ => true
  | _ => false
  end.

Definition prerequisites : list ((extcall -> bool) * Z) :=
  [(is_plugins_loaded, 8320); (is_plugins_initialised, 8380); (is_sigpipe_ignored, 8900);
   (is_versions_logged, 9230); (is_monitor_started, 9730)].

Definition met (cs : list extcall) (ps : list ((extcall -> bool) * Z)) : bool :=
  forallb (fun p => existsb (fst p) cs) ps.

(** With the text read up to [bound]: the prerequisites whose call lies
    before [bound] are met, and the mainloop has not been entered if its
    call does not. *)
Definition ready (bound : Z) (l : locals) : Prop :=
  (if bound <=? 9750 then negb (existsb is_mainloop_entered (calls (tr l))) else true)
  && met (calls (tr l)) (filter (fun p => snd p <? bound) prerequisites) = true.

Definition ready_exit (status location : Z) (l : locals) : Prop :=
  implb (existsb is_mainloop_entered (calls (tr l))) (met (calls (tr l)) prerequisites)
  = true.

(** A command line with which the sample environment serves. *)
Definition serving_command_line : list cmd_arg :=
  [LongOpt "default-username" (VString "root")].

(** The crash handler is to be reset on the way out, and the passes
    over the command line that are still to come cannot change that. *)
Definition armed (l : locals) : Prop :=
  invoke_dbg_on_crash (frontend l) = 1 /\ settled l.

Definition armed_exit (evs : list event) (status location : Z) (l : locals) : Prop :=
  installs l evs /\ (evs <> [] -> invoke_dbg_on_crash (frontend l) = 1).

(** A warning in the log. *)
Definition is_warning (e : event) : bool :=
  match e with
  | g_log G_LOG_LEVEL_WARNING _ _ => true
  | _ => false
  end.

(** A store through [d] leaves what [obs] sees of the front-end record. *)
Definition keeps {A} (obs : chassis_frontend_t -> A) (d : arg_data) : Prop :=
  match d with
  | ptr_int _ set => forall v fe, obs (set v fe) = obs fe
  | ptr_double _ set => forall v fe, obs (set v fe) = obs fe
  | ptr_string _ set => forall v fe, obs (set v fe) = obs fe
  | ptr_strv _ set => forall v fe, obs (set v fe) = obs fe
  | ptr_plugin => True
  end.

(** The XA log is opened under a name. *)
Definition is_xa_log_without_name (c : extcall) : bool :=
  match c with
  | tc_log_init None _ => true
  | _ => false
  end.

(** The calls of lines 890-981: what a process does that is to serve. *)
Definition is_start_up_call (c : extcall) : bool :=
  match c with
  | signal _ _ | chassis_unix_daemonize | chassis_unix_proc_keepalive _ => true
  | _ => is_service_call c
  end.

Definition is_plugin_versions_printed (c : extcall) : bool :=
  match c with
  | chassis_frontend_print_plugin_versions => true
  | _ => false
  end.

(** The version has been asked for, and nothing has been started. *)
Definition only_versions (l : locals) : Prop :=
  truthy (print_version (frontend l)) = true
  /\ filter is_start_up_call (calls (tr l)) = []
  /\ existsb is_plugin_versions_printed (calls (tr l)) = false.

Definition only_versions_exit (status location : Z) (l : locals) : Prop :=
  filter is_start_up_call (calls (tr l)) = []
  /\ (status = EXIT_SUCCESS <->
      existsb is_plugin_versions_printed (calls (tr l)) = true).

(** The sample environment, asked for the version. *)
Definition version_world : world :=
  let w := sample_world [] None in
  {| w_argv0 := w_argv0 w;
     w_argv := w_argv w;
     w_init_glib := w_init_glib w;
     w_chassis_new := w_chassis_new w;
     w_init_base_options := fun a => inr (1, None, a);
     w_open_config_file := w_open_config_file w;
     w_remote_settings := w_remote_settings w;
     w_init_basedir := w_init_basedir w;
     w_running_on_valgrind := w_running_on_valgrind w;
     w_init_plugin_dir := w_init_plugin_dir w;
     w_resolve_path := w_resolve_path w;
     w_log_open := w_log_open w;
     w_errno := w_errno w;
     w_strerror := w_strerror w;
     w_fopen_slow_query_log := w_fopen_slow_query_log w;
     w_log_set_level := w_log_set_level w;
     w_event_get_version := w_event_get_version w;
     w_network_mysqld_init := w_network_mysqld_init w;
     w_load_plugins := w_load_plugins w;
     w_plugin_options := w_plugin_options w;
     w_init_plugins_error := w_init_plugins_error w;
     w_keepalive := w_keepalive w;
     w_late := w_late w |}.

(** Lines 673-910: the sequence up to the supervision hand-off. *)
Definition up_to_supervision (cfg : build_config) (w : world) (l : locals) : flow :=
  Next l
  >>> load_configuration w
  >>> register_sigsegv_interceptor cfg w
  >>> start_service cfg w
  >>> default_plugin_names cfg
  >>> load_plugins w
  >>> finish_options w
  >>> reject_remaining_arguments
  >>> ignore_sigpipe_and_daemonize
  >>> supervise cfg w.

(** The plugin list is there, and the passes still to come cannot take
    it away. *)
Definition plugins_named (l : locals) : Prop :=
  is_some (plugin_names (frontend l)) = true /\ settled l.

(** No option in the registry writes where the version switch is. *)
Definition version_safe (l : locals) : Prop :=
  forall o, In o (options (the_opts l)) -> keeps print_version (arg_data_of o).

Definition versions_only (l : locals) : Prop :=
  only_versions l /\ settled l.

(** * Properties *)

Local Open Scope list_scope.

(** ** Parameter initialisation *)

Ltac split_ifs :=
  repeat match goal with
         | |- context [if ?c then _ else _] => destruct c eqn:?
         end.

Lemma init_parameters_mid_idle cfg fe s t :
  Chassis.mid_idle_connections (fst (init_parameters cfg fe s t)) = default_pool_size fe.
Proof. unfold init_parameters. split_ifs; reflexivity. Qed.

Lemma init_parameters_max_idle cfg fe s t :
  Chassis.max_idle_connections (fst (init_parameters cfg fe s t)) =
  if max_pool_size fe >=? default_pool_size fe
  then max_pool_size fe
  else Int.shl (default_pool_size fe) 1.
Proof.
  unfold init_parameters.
  cbn [Chassis.set_mid_idle_connections Chassis.mid_idle_connections].
  split_ifs; try reflexivity; congruence.
Qed.

Lemma shl_1_double d :
  -1073741824 <= d < 1073741824 -> Int.shl d 1 = d * 2.
Proof.
  intros H. unfold Int.shl, Int.wrap, Int.modulus.
  rewrite Z.shiftl_mul_pow2 by lia. change (2 ^ 1) with 2.
  rewrite Z.mod_small by lia. lia.
Qed.

(** C3, as the code has it: the resolved default pool size is the
    configured one; the resolved maximum is the configured maximum when it
    is not below the default, and otherwise the default shifted left by one
    on a 32-bit [int], which is twice the default as long as the default
    lies in [-2^30, 2^30). *)
Theorem pool_size_resolution cfg fe s t :
  let d := default_pool_size fe in
  let m := max_pool_size fe in
  let s' := fst (init_parameters cfg fe s t) in
  Chassis.mid_idle_connections s' = d
  /\ (m >= d -> Chassis.max_idle_connections s' = m)
  /\ (m < d -> Chassis.max_idle_connections s' = Int.shl d 1)
  /\ (m < d -> -1073741824 <= d < 1073741824 -> Chassis.max_idle_connections s' = d * 2).
Proof.
  cbv zeta. rewrite init_parameters_mid_idle, init_parameters_max_idle.
  split; [reflexivity|].
  destruct (Z.geb_spec (max_pool_size fe) (default_pool_size fe)) as [Hge | Hlt].
  - split; [|split]; intros; try reflexivity; lia.
  - split; [|split]; intros; try reflexivity; try lia.
    apply shl_1_double; assumption.
Qed.

Lemma pool_size_resolution_witness :
  let s' := fst (init_parameters reference_build (frontend_with_pool 100 0) chassis_zero []) in
  Chassis.mid_idle_connections s' = 100 /\ Chassis.max_idle_connections s' = 200.
Proof.
  pose proof (pool_size_resolution reference_build (frontend_with_pool 100 0) chassis_zero [])
    as (Hmid & _ & _ & Hdouble).
  cbv zeta. split.
  - exact Hmid.
  - apply Hdouble; vm_compute; split; congruence.
Defined.

(** C3 as stated fails where doubling leaves the range of [int]: with a
    default of 2^30 and no maximum given, the resolved maximum is -2^31,
    not 2^31. *)
Lemma pool_size_doubling_wraps :
  let fe := frontend_with_pool 1073741824 0 in
  let s' := fst (init_parameters reference_build fe chassis_zero []) in
  Int.in_range (default_pool_size fe)
  /\ max_pool_size fe < default_pool_size fe
  /\ Chassis.max_idle_connections s' = -2147483648
  /\ Chassis.max_idle_connections s' <> default_pool_size fe * 2.
Proof.
  cbv zeta. rewrite init_parameters_max_idle.
  vm_compute. intuition congruence.
Qed.

Lemma init_parameters_recover cfg fe s t :
  Chassis.slave_delay_recover_threshold_sec (fst (init_parameters cfg fe s t)) =
  if fgt (slave_delay_recover_threshold_sec fe) 0
  then if fgt (slave_delay_recover_threshold_sec fe) (slave_delay_down_threshold_sec fe)
       then slave_delay_down_threshold_sec fe
       else slave_delay_recover_threshold_sec fe
  else (slave_delay_down_threshold_sec fe / 2)%float.
Proof.
  unfold init_parameters.
  split_ifs; try reflexivity; simpl in *; congruence.
Qed.

Lemma init_parameters_recover_warning cfg fe s t :
  fgt (slave_delay_recover_threshold_sec fe) 0 = true ->
  fgt (slave_delay_recover_threshold_sec fe) (slave_delay_down_threshold_sec fe) = true ->
  exists older,
    snd (init_parameters cfg fe s t) =
    g_log G_LOG_LEVEL_WARNING "Set slave-delay-recover=%.3f"
      [ADouble (slave_delay_down_threshold_sec fe)]
    :: g_log G_LOG_LEVEL_WARNING
         "`slave-delay-recover` should be lower than `slave-delay-down`." []
    :: older.
Proof.
  intros H0 Hd. unfold init_parameters. rewrite H0.
  split_ifs; try (eexists; reflexivity); simpl in *; congruence.
Qed.

(** C4, as the code has it: a recover threshold that is not greater than
    0 (the zero of a field never set, but also a negative value or a NaN)
    resolves to half the down threshold; a recover threshold greater than
    0 and greater than the down threshold is clamped to the down
    threshold, with the two warnings logged; any other recover threshold
    is kept. *)
Theorem slave_delay_resolution cfg fe s t :
  let down := slave_delay_down_threshold_sec fe in
  let recover := slave_delay_recover_threshold_sec fe in
  let r := init_parameters cfg fe s t in
  let resolved := Chassis.slave_delay_recover_threshold_sec (fst r) in
  (recover = 0%float -> resolved = (down / 2)%float)
  /\ (fgt recover 0 = false -> resolved = (down / 2)%float)
  /\ (fgt recover 0 = true -> fgt recover down = true ->
      resolved = down
      /\ In (g_log G_LOG_LEVEL_WARNING
               "`slave-delay-recover` should be lower than `slave-delay-down`." [])
            (snd r))
  /\ (fgt recover 0 = true -> fgt recover down = false -> resolved = recover).
Proof.
  cbv zeta. rewrite init_parameters_recover.
  split; [|split; [|split]].
  - intros ->. reflexivity.
  - intros ->. reflexivity.
  - intros H0 Hd. rewrite H0, Hd. split; [reflexivity|].
    destruct (init_parameters_recover_warning cfg fe s t H0 Hd) as [older ->].
    right. left. reflexivity.
  - intros -> ->. reflexivity.
Qed.

Lemma slave_delay_resolution_witness :
  Chassis.slave_delay_recover_threshold_sec
    (fst (init_parameters reference_build (frontend_with_delay 60 0) chassis_zero []))
  = 30%float
  /\ Chassis.slave_delay_recover_threshold_sec
       (fst (init_parameters reference_build (frontend_with_delay 60 90) chassis_zero []))
     = 60%float
  /\ Chassis.slave_delay_recover_threshold_sec
       (fst (init_parameters reference_build (frontend_with_delay 60 20) chassis_zero []))
     = 20%float.
Proof.
  pose proof (slave_delay_resolution reference_build (frontend_with_delay 60 0) chassis_zero [])
    as (Hunset & _).
  pose proof (slave_delay_resolution reference_build (frontend_with_delay 60 90) chassis_zero [])
    as (_ & _ & Hclamp & _).
  pose proof (slave_delay_resolution reference_build (frontend_with_delay 60 20) chassis_zero [])
    as (_ & _ & _ & Hkeep).
  cbv zeta in *. split; [|split].
  - exact (Hunset eq_refl).
  - exact (proj1 (Hclamp eq_refl eq_refl)).
  - exact (Hkeep eq_refl eq_refl).
Defined.

(** C4 as stated fails for a recover threshold that is set but not
    positive: with down = 60 and recover = -5 the threshold is neither
    unset nor above the down threshold, yet it resolves to 30, not -5. *)
Lemma negative_recover_threshold_is_dropped :
  let fe := frontend_with_delay 60 (-5) in
  let resolved :=
    Chassis.slave_delay_recover_threshold_sec
      (fst (init_parameters reference_build fe chassis_zero [])) in
  slave_delay_recover_threshold_sec fe <> 0%float
  /\ fgt (slave_delay_recover_threshold_sec fe) (slave_delay_down_threshold_sec fe) = false
  /\ resolved = 30%float
  /\ resolved <> slave_delay_recover_threshold_sec fe.
Proof.
  cbv zeta. rewrite init_parameters_recover.
  assert (Hne : forall a b : float, PrimFloat.ltb a 0 <> PrimFloat.ltb b 0 -> a <> b)
    by (intros a b Hab ->; apply Hab; reflexivity).
  split; [|split; [|split]].
  - apply Hne. vm_compute. discriminate.
  - reflexivity.
  - reflexivity.
  - apply Hne. vm_compute. discriminate.
Qed.

Lemma init_parameters_worker_id cfg fe s t :
  Chassis.guid_state_worker_id (fst (init_parameters cfg fe s t)) =
  if worker_id fe >? 0
  then Z.land (worker_id fe) 0x3f
  else Chassis.guid_state_worker_id s.
Proof. unfold init_parameters. split_ifs; reflexivity. Qed.

(** C5: a worker id greater than 0 is stored masked to its low six bits
    (so 64 becomes 0 and 65 becomes 1); for a worker id that is not
    greater than 0 the service object's worker id is left as it was. *)
Theorem worker_id_resolution cfg fe s t :
  let resolved := Chassis.guid_state_worker_id (fst (init_parameters cfg fe s t)) in
  (worker_id fe > 0 -> resolved = Z.land (worker_id fe) 0x3f)
  /\ (worker_id fe = 64 -> resolved = 0)
  /\ (worker_id fe = 65 -> resolved = 1)
  /\ (worker_id fe <= 0 -> resolved = Chassis.guid_state_worker_id s).
Proof.
  cbv zeta. rewrite init_parameters_worker_id.
  split; [|split; [|split]].
  - intros H. destruct (Z.gtb_spec (worker_id fe) 0); [reflexivity | lia].
  - intros ->. reflexivity.
  - intros ->. reflexivity.
  - intros H. destruct (Z.gtb_spec (worker_id fe) 0); [lia | reflexivity].
Qed.

Lemma worker_id_resolution_witness :
  Chassis.guid_state_worker_id
    (fst (init_parameters reference_build
            (set_worker_id 65 (chassis_frontend_new reference_build)) chassis_zero []))
  = 1
  /\ Chassis.guid_state_worker_id
       (fst (init_parameters reference_build
               (set_worker_id 0 (chassis_frontend_new reference_build))
               (Chassis.set_guid_state_worker_id 7 chassis_zero) []))
     = 7.
Proof.
  split.
  - apply (worker_id_resolution reference_build
             (set_worker_id 65 (chassis_frontend_new reference_build)) chassis_zero []).
    reflexivity.
  - apply (worker_id_resolution reference_build
             (set_worker_id 0 (chassis_frontend_new reference_build))
             (Chassis.set_guid_state_worker_id 7 chassis_zero) []).
    vm_compute. discriminate.
Defined.

(** ** The crash handler *)

Lemma backtrace_bounded stack size :
  (List.length (backtrace stack size) <= size)%nat.
Proof. unfold backtrace. apply firstn_le_length. Qed.

(** The loop of [log_backtrace] over the indices of [strings] logs the
    strings themselves, in order. *)
Lemma warn_each_frame (strings done : list string) (t : trace) :
  fold_left (fun t i => g_warning "%s" [AStr (nth i (done ++ strings) EmptyString)] t)
            (seq (List.length done) (List.length strings)) t
  = rev (map (fun s => g_log G_LOG_LEVEL_WARNING "%s" [AStr s]) strings) ++ t.
Proof.
  revert done t. induction strings as [| s strings IH]; intros done t.
  - reflexivity.
  - cbn [List.length seq fold_left map rev].
    rewrite nth_middle.
    replace (done ++ s :: strings) with ((done ++ [s]) ++ strings)
      by (rewrite <- app_assoc; reflexivity).
    replace (S (List.length done)) with (List.length (done ++ [s]))
      by (rewrite length_app; cbn; lia).
    rewrite IH. rewrite <- app_assoc. reflexivity.
Qed.

(** C8: whenever the handler runs, it ends by raising SIGABRT and never by
    returning; it captures at most 16 frames of the stack; and what it
    adds to the log is the count line followed by one warning-level line
    for each captured frame, in stack order. *)
Theorem sigsegv_handler_logs_and_aborts (symbol_of : Z -> string) (sig : signum)
  (stack : list Z) (t : trace) :
  let frames := backtrace stack 16 in
  (List.length frames <= 16)%nat
  /\ snd (sigsegv_handler symbol_of sig stack t) = raises SIGABRT
  /\ fst (sigsegv_handler symbol_of sig stack t) =
     rev (map (fun a => g_log G_LOG_LEVEL_WARNING "%s" [AStr (symbol_of a)]) frames)
     ++ g_log G_LOG_LEVEL_WARNING "Obtained %d stack frames."
          [AInt (Z.of_nat (List.length frames))]
     :: t.
Proof.
  cbv zeta. split; [apply backtrace_bounded | split; [reflexivity |]].
  unfold sigsegv_handler, log_backtrace, backtrace_symbols. cbn [fst].
  rewrite <- (length_map symbol_of (backtrace stack 16)) at 1.
  rewrite (warn_each_frame (map symbol_of (backtrace stack 16)) [] _).
  rewrite map_map. reflexivity.
Qed.

(** ** Reasoning about flows *)

Lemma and_then_spec (P1 P2 : locals -> Prop) E f k :
  flow_spec P1 E f ->
  (forall l, P1 l -> flow_spec P2 E (k l)) ->
  flow_spec P2 E (f >>> k).
Proof. destruct f; simpl; auto. Qed.

Lemma flow_spec_weaken (P P' : locals -> Prop) (E E' : Z -> Z -> locals -> Prop) f :
  flow_spec P E f ->
  (forall l, P l -> P' l) ->
  (forall s n l, E s n l -> E' s n l) ->
  flow_spec P' E' f.
Proof. destruct f; simpl; auto. Qed.

Create HintDb stages discriminated.
Create HintDb segments discriminated.

#[local] Hint Unfold parse_base_options open_config_file print_main_version
  parse_core_options apply_keyfile apply_remote_config init_basedir
  register_sigsegv_interceptor publish_directories open_log_file apply_log_level
  init_network default_plugin_names load_plugins init_plugins print_plugin_versions
  parse_all_options reject_remaining_arguments ignore_sigpipe_and_daemonize supervise
  write_pidfile check_plugin_mode check_default_username initialize_parameters
  init_xa_log set_fdlimit run_mainloop : stages.

#[local] Hint Unfold merge_sources load_configuration start_service finish_options
  serve bootstrap : segments.

Arguments chassis_frontend_set_chassis_options : simpl never.
Arguments chassis_frontend_new : simpl never.
Arguments chassis_options_parse_cmdline : simpl never.
Arguments init_plugin_options : simpl never.
Arguments chassis_keyfile_to_options_with_error : simpl never.
Arguments chassis_config_parse_options : simpl never.
Arguments init_parameters : simpl never.
Arguments check_plugin_mode_valid : simpl never.
Arguments resolve_path : simpl never.
Arguments serve : simpl never.

(** Case analysis on the innermost scrutinee of the goal. *)
Ltac destruct_inner :=
  match goal with
  | |- context [match ?x with _ => _ end] =>
    lazymatch x with
    | context [match _ with _ => _ end] => fail
    | _ => destruct x eqn:?
    end
  end.

(** One stage, path by path. *)
Ltac run_stage := autounfold with stages; simpl; repeat (destruct_inner; simpl).

(** A chain of stages under the invariant [P]: [fin] closes what is left
    of each stage once its paths are laid out. *)
Ltac chain P fin :=
  cbv beta;
  lazymatch goal with
  | |- flow_spec _ _ (and_then _ _) =>
    eapply (and_then_spec P);
    [ chain P fin
    | let l := fresh "l" in let H := fresh "Inv" in intros l H; chain P fin ]
  | |- flow_spec _ _ (Next _) => assumption
  | |- flow_spec _ _ _ =>
    first [ progress autounfold with segments; chain P fin | run_stage; fin ]
  end.

(** ** The exit funnel *)

Lemma exit_nicely_code cfg w status loc fe s e o slow t :
  exit_code (exit_nicely cfg w status loc fe s e o slow t) = status.
Proof. reflexivity. Qed.

Lemma exit_nicely_frontend cfg w status loc fe s e o slow t :
  frontend_at_exit (exit_nicely cfg w status loc fe s e o slow t) = fe.
Proof. reflexivity. Qed.

Lemma when_app c e t : when c e t = when c e [] ++ t.
Proof. destruct c; reflexivity. Qed.

(** The funnel only appends to the log. *)
Lemma exit_nicely_events cfg w status loc fe s e o slow t :
  events (exit_nicely cfg w status loc fe s e o slow t) =
  rev t ++ events (exit_nicely cfg w status loc fe s e o slow []).
Proof.
  unfold exit_nicely. cbn [events].
  rewrite <- rev_app_distr. f_equal.
  unfold release_resouces_when_exit, reset_sigsegv_handler, shutdown_tag,
    g_message, g_debug.
  destruct fe as [f |]; cbn [is_some];
    repeat match goal with
           | |- context [when ?c _ _] => destruct c; cbn [when]
           end; reflexivity.
Qed.

Lemma funnel_shutdown_lines cfg w status loc fe s e o slow :
  filter is_shutdown_line (events (exit_nicely cfg w status loc fe s e o slow [])) =
  match fe with
  | Some f =>
    if truthy (print_version f) then []
    else [g_log (if truthy (verbose_shutdown f)
                 then G_LOG_LEVEL_CRITICAL else G_LOG_LEVEL_MESSAGE)
            "shutting down normally, exit code is: %d" [AInt status]]
  | None => []
  end.
Proof.
  unfold exit_nicely. cbn [events]. rewrite filter_rev.
  unfold release_resouces_when_exit, reset_sigsegv_handler, shutdown_tag,
    g_message, g_debug.
  destruct fe as [f |];
    [destruct (truthy (print_version f)); [| destruct (truthy (verbose_shutdown f))] |];
    cbn [is_some negb];
    repeat match goal with
           | |- context [when ?c _ _] => destruct c; cbn [when]
           end; reflexivity.
Qed.


(** ** What the plugin-mode check and parameter initialisation log *)

Lemma strcmp_eqb a b : (strcmp a b =? 0) = String.eqb b a.
Proof.
  unfold strcmp. destruct (String.compare a b) eqn:E.
  - apply String.compare_eq_iff in E. subst. rewrite String.eqb_refl. reflexivity.
  - symmetry. apply String.eqb_neq. intros ->.
    pose proof (String.compare_antisym a a) as X. rewrite E in X. discriminate.
  - symmetry. apply String.eqb_neq. intros ->.
    pose proof (String.compare_antisym a a) as X. rewrite E in X. discriminate.
Qed.

Lemma truthy_bit (b : bool) (z : Z) : truthy (if b then 1 else z) = b || truthy z.
Proof. destruct b; reflexivity. Qed.

(** The loop raises each mode flag when its name occurs, and logs one
    message per occurrence of [shard]. *)
Lemma repeat_snoc {A} (a : A) k (t : list A) :
  repeat a k ++ a :: t = repeat a (S k) ++ t.
Proof.
  change (a :: t) with ([a] ++ t). rewrite app_assoc, <- repeat_cons. reflexivity.
Qed.

Lemma check_plugin_mode_loop_spec names : forall p s t,
  exists k,
    check_plugin_mode_loop names p s t =
    (if existsb (String.eqb "proxy") names then 1 else p,
     if existsb (String.eqb "shard") names then 1 else s,
     repeat (g_log G_LOG_LEVEL_MESSAGE "set sharding mode true" []) k ++ t).
Proof.
  induction names as [| n names IH]; intros p s t.
  - exists 0%nat. reflexivity.
  - cbn [check_plugin_mode_loop existsb]. rewrite !strcmp_eqb.
    destruct (String.eqb "shard" n), (String.eqb "proxy" n); cbn [orb].
    + destruct (IH 1 1 (g_message "set sharding mode true" [] t)) as [k ->].
      exists (S k). unfold g_message. rewrite repeat_snoc.
      destruct (existsb _ names), (existsb _ names); reflexivity.
    + destruct (IH p 1 (g_message "set sharding mode true" [] t)) as [k ->].
      exists (S k). unfold g_message. rewrite repeat_snoc.
      destruct (existsb _ names), (existsb _ names); reflexivity.
    + destruct (IH 1 s t) as [k ->]. exists k.
      destruct (existsb _ names), (existsb _ names); reflexivity.
    + destruct (IH p s t) as [k ->]. exists k. reflexivity.
Qed.

Lemma check_plugin_mode_valid_spec fe s t :
  exists k,
    check_plugin_mode_valid fe s t =
    (negb (mode_conflict fe),
     when (mode_conflict fe)
          (g_log G_LOG_LEVEL_CRITICAL "shard & proxy is mutual exclusive" [])
          (repeat (g_log G_LOG_LEVEL_MESSAGE "set sharding mode true" []) k ++ t)).
Proof.
  unfold check_plugin_mode_valid, mode_conflict.
  destruct (check_plugin_mode_loop_spec (strv (plugin_names fe)) 0 0 t) as [k ->].
  exists k.
  destruct (existsb (String.eqb "shard") (strv (plugin_names fe))),
           (existsb (String.eqb "proxy") (strv (plugin_names fe))); reflexivity.
Qed.

Lemma forallb_repeat {A} (f : A -> bool) (a : A) k :
  f a = true -> forallb f (repeat a k) = true.
Proof. intros H. induction k; simpl; [| rewrite H]; auto. Qed.

(** What [init_parameters] adds to the log does not depend on the log. *)
Lemma init_parameters_log cfg fe s t :
  snd (init_parameters cfg fe s t) = snd (init_parameters cfg fe s []) ++ t.
Proof. unfold init_parameters. split_ifs; reflexivity. Qed.

Lemma init_parameters_log_unremarkable cfg fe s :
  forallb unremarkable (snd (init_parameters cfg fe s [])) = true.
Proof. unfold init_parameters. split_ifs; reflexivity. Qed.

Lemma unremarkable_filters l :
  forallb unremarkable l = true ->
  filter is_shutdown_line l = []
  /\ filter is_mode_conflict l = []
  /\ existsb is_init_plugins_done l = false
  /\ filter is_mainloop_call l = []
  /\ filter is_sigsegv_install l = []
  /\ flat_map loaded_names l = [].
Proof.
  induction l as [| e l IH]; [intros _; repeat split |].
  cbn [forallb filter existsb flat_map]. unfold unremarkable at 1.
  intros H. repeat (apply andb_prop in H; destruct H as [H ?]).
  destruct (IH ltac:(assumption)) as (-> & -> & -> & -> & -> & ->).
  destruct (is_shutdown_line e), (is_mode_conflict e), (is_init_plugins_done e),
    (is_mainloop_call e), (is_sigsegv_install e), (loaded_names e);
    try discriminate; repeat split.
Qed.

Lemma unremarkable_ordered l t :
  forallb unremarkable l = true ->
  ordered (l ++ t) = ordered t.
Proof.
  induction l as [| e l IH]; [reflexivity |].
  cbn [forallb app ordered]. unfold unremarkable at 1.
  intros H. repeat (apply andb_prop in H; destruct H as [H ?]).
  rewrite IH by assumption.
  destruct (is_mode_conflict e); [discriminate | reflexivity].
Qed.

(** Replace the log a call has returned by what the call added to the
    log it was given. *)
Ltac note_logs :=
  repeat match goal with
         | H : init_parameters ?c ?f ?s ?t0 = (_, ?t') |- _ =>
           let X := fresh "X" in
           pose proof (init_parameters_log c f s t0) as X;
           rewrite H in X; cbn [snd] in X; subst t';
           pose proof (init_parameters_log_unremarkable c f s);
           clear H
         | H : check_plugin_mode_valid ?f ?s ?t0 = (_, _) |- _ =>
           let X := fresh "X" in
           let k := fresh "k" in
           destruct (check_plugin_mode_valid_spec f s t0) as [k X];
           rewrite H in X; injection X as -> ->; clear H
         end.
(** ** C7: the terminal log line *)

Lemma quiet_app l t :
  forallb unremarkable l = true ->
  filter is_shutdown_line (l ++ t) = filter is_shutdown_line t.
Proof.
  intros H. rewrite filter_app. apply unremarkable_filters in H as (-> & _). reflexivity.
Qed.

Ltac use_quiet :=
  note_logs; unfold quiet, when in *; simpl in *;
  try match goal with
      | |- context [mode_conflict ?f] => destruct (mode_conflict f); simpl
      end;
  rewrite ?quiet_app by first [assumption | apply forallb_repeat; reflexivity];
  try assumption; try reflexivity.

Lemma bootstrap_quiet cfg w l :
  quiet l -> flow_spec quiet (fun _ _ => quiet) (bootstrap cfg w l).
Proof. intros H. chain quiet use_quiet. Qed.

Lemma finish_shutdown_lines cfg w f :
  flow_spec quiet (fun _ _ => quiet) f ->
  let out := finish cfg w f in
  shutdown_lines out =
  match frontend_at_exit out with
  | Some fe =>
    if truthy (print_version fe) then []
    else [g_log (if truthy (verbose_shutdown fe)
                 then G_LOG_LEVEL_CRITICAL else G_LOG_LEVEL_MESSAGE)
            "shutting down normally, exit code is: %d" [AInt (exit_code out)]]
  | None => []
  end.
Proof.
  intros H. cbv zeta. unfold finish.
  destruct f; simpl in H; rewrite exit_nicely_frontend, exit_nicely_code;
    unfold shutdown_lines;
    rewrite exit_nicely_events, filter_app, filter_rev, H, funnel_shutdown_lines;
    reflexivity.
Qed.

(** C7, as the code has it: a run that has created the front-end record
    and was not asked for the version logs exactly one terminal line, which
    reports the exit code, at critical level when the verbose-shutdown flag
    is set and at message level otherwise; a run that was asked for the
    version logs none; and a run that leaves before the front-end record
    exists logs none either. *)
Theorem one_shutdown_line cfg w :
  let out := main_cmdline cfg w in
  shutdown_lines out =
  match frontend_at_exit out with
  | Some fe =>
    if truthy (print_version fe) then []
    else [g_log (if truthy (verbose_shutdown fe)
                 then G_LOG_LEVEL_CRITICAL else G_LOG_LEVEL_MESSAGE)
            "shutting down normally, exit code is: %d" [AInt (exit_code out)]]
  | None => []
  end.
Proof.
  cbv zeta. unfold main_cmdline.
  destruct (truthy (w_init_glib w));
    [unfold shutdown_lines; rewrite funnel_shutdown_lines; reflexivity |].
  destruct (w_chassis_new w) as [s |];
    [| unfold shutdown_lines; rewrite funnel_shutdown_lines; reflexivity].
  apply finish_shutdown_lines, bootstrap_quiet. reflexivity.
Qed.

(** C7 as stated fails on the exits taken before the front-end record
    exists: when [chassis_frontend_init_glib] fails the process leaves
    with code 1, has printed no version, and logs no terminal line. *)
Lemma no_shutdown_line_without_frontend :
  let out := main_cmdline reference_build world_without_runtime in
  exit_code out = 1
  /\ frontend_at_exit out = None
  /\ ~ In (call chassis_frontend_print_version) (events out)
  /\ shutdown_lines out = [].
Proof.
  vm_compute. intuition congruence.
Qed.

(** ** The checks of lines 931-938 *)

Lemma mode_conflict_In fe :
  In "shard" (strv (plugin_names fe)) ->
  In "proxy" (strv (plugin_names fe)) ->
  mode_conflict fe = true.
Proof.
  intros Hs Hp. unfold mode_conflict. apply andb_true_intro. split;
    apply existsb_exists.
  - exists "shard". split; [assumption | reflexivity].
  - exists "proxy". split; [assumption | reflexivity].
Qed.

(** The mode check leaves for [exit_nicely] at line 932, with the error
    logged, exactly when both names are in the list. *)
Lemma check_plugin_mode_spec l :
  exists k,
    let t := repeat (g_log G_LOG_LEVEL_MESSAGE "set sharding mode true" []) k
             ++ call chassis_frontend_log_plugin_versions :: tr l in
    let l' := set_srv (Chassis.set_user (user (frontend l)) (srv l)) l in
    check_plugin_mode l =
    if mode_conflict (frontend l)
    then GOTO_EXIT EXIT_FAILURE 932
           (set_tr (g_log G_LOG_LEVEL_CRITICAL "shard & proxy is mutual exclusive" [] :: t) l')
    else Next (set_tr t l').
Proof.
  unfold check_plugin_mode.
  destruct (check_plugin_mode_valid_spec
              (frontend (set_srv (Chassis.set_user (user (frontend l)) (srv l))
                           (does chassis_frontend_log_plugin_versions l)))
              (srv (set_srv (Chassis.set_user (user (frontend l)) (srv l))
                      (does chassis_frontend_log_plugin_versions l)))
              (tr (set_srv (Chassis.set_user (user (frontend l)) (srv l))
                     (does chassis_frontend_log_plugin_versions l)))) as [k E].
  exists k. cbv zeta. simpl in *. rewrite E.
  destruct (mode_conflict (frontend l)); reflexivity.
Qed.

Lemma not_started_app l t :
  forallb unremarkable l = true ->
  filter is_init_parameters_line l = [] ->
  filter started (l ++ t) = filter started t.
Proof.
  intros H Hi. rewrite filter_app.
  replace (filter started l) with (@nil event); [reflexivity |].
  apply unremarkable_filters in H as (_ & _ & _ & Hm & _).
  induction l as [| e l IH]; [reflexivity |].
  cbn [filter] in *. unfold started at 1.
  destruct (is_mainloop_call e); [discriminate |].
  destruct (is_init_parameters_line e); [discriminate |]. cbn [orb]. auto.
Qed.

Lemma sharding_messages_not_started k t :
  filter started (repeat (g_log G_LOG_LEVEL_MESSAGE "set sharding mode true" []) k ++ t)
  = filter started t.
Proof.
  apply not_started_app.
  - apply forallb_repeat. reflexivity.
  - induction k; [reflexivity | exact IHk].
Qed.

(** A front-end record that cannot pass the checks makes the rest of the
    sequence leave with [EXIT_FAILURE], before parameter initialisation
    and the mainloop. *)
Lemma serve_refused cfg w lw l :
  refused (frontend l) = true ->
  not_started l ->
  flow_spec (fun _ => False)
            (fun status _ l' =>
               status = EXIT_FAILURE /\ not_started l' /\ frontend l' = frontend l)
            (serve cfg w lw l).
Proof.
  intros Href Hq. unfold serve.
  pose (P0 := fun l' => not_started l' /\ frontend l' = frontend l).
  pose (P1 := fun l' => P0 l' /\ mode_conflict (frontend l') = false).
  do 4 (eapply (and_then_spec (fun _ => False)); [| intros ? []]).
  eapply (and_then_spec P1); [eapply (and_then_spec P0); [eapply (and_then_spec P0) |] |].
  - split; [assumption | reflexivity].
  - intros l0 [Hq0 Hf0]. run_stage; unfold P0, not_started in *; simpl in *; auto.
  - intros l0 [Hq0 Hf0]. destruct (check_plugin_mode_spec l0) as [k ->]. cbv zeta.
    destruct (mode_conflict (frontend l0)) eqn:Hc; unfold P1, P0, not_started in *;
      simpl in *;
      change (filter started (?a :: ?b ++ ?c :: ?d)) with (filter started (b ++ c :: d));
      rewrite sharding_messages_not_started; simpl; auto.
  - intros l0 [[Hq0 Hf0] Hc]. run_stage; unfold not_started in *; simpl in *; auto.
    unfold refused in Href. rewrite <- Hf0, Hc, Heqo in Href. discriminate.
Qed.

Lemma serve_refused_status cfg w lw l :
  refused (frontend l) = true ->
  not_started l ->
  status_of (serve cfg w lw l) = EXIT_FAILURE.
Proof.
  intros Href Hq. pose proof (serve_refused cfg w lw l Href Hq) as H.
  destruct (serve cfg w lw l); simpl in *; [contradiction | tauto].
Qed.

(** The rest of the sequence never turns a record that passes the checks
    into one that does not. *)
Lemma serve_accepted cfg w lw l :
  refused (frontend l) = false ->
  flow_spec (fun l' => refused (frontend l') = false)
            (fun _ _ l' => refused (frontend l') = false)
            (serve cfg w lw l).
Proof.
  intros Href.
  chain (fun l' => refused (frontend l') = false)
        ltac:(idtac; unfold refused, mode_conflict in *; simpl in *; assumption).
Qed.

Lemma serve_checks cfg w lw l :
  not_started l ->
  flow_spec (fun l' => refused (frontend l') = false) refused_exit (serve cfg w lw l).
Proof.
  intros Hq. destruct (refused (frontend l)) eqn:Href.
  - eapply flow_spec_weaken; [apply serve_refused; assumption | intros ? [] |].
    intros s n l' (-> & Hq' & Hf) _. split; [assumption | reflexivity].
  - eapply flow_spec_weaken; [apply serve_accepted; assumption | auto |].
    intros s n l' Hf Hr. congruence.
Qed.

Ltac use_not_started :=
  unfold refused_exit, not_started in *; simpl in *;
  try assumption;
  try (intros ? ; split; [assumption |]; intros ?;
       first [ reflexivity
             | congruence
             | apply serve_refused_status; assumption ]).

Lemma bootstrap_checks cfg w l :
  not_started l ->
  flow_spec (fun l' => refused (frontend l') = false) refused_exit (bootstrap cfg w l).
Proof.
  intros Hq. unfold bootstrap.
  eapply (and_then_spec not_started); [| intros; apply serve_checks; assumption].
  chain not_started use_not_started.
Qed.

Lemma funnel_not_started cfg w status loc fe s e o slow :
  filter started (events (exit_nicely cfg w status loc fe s e o slow [])) = [].
Proof.
  unfold exit_nicely. cbn [events]. rewrite filter_rev.
  unfold release_resouces_when_exit, reset_sigsegv_handler, shutdown_tag,
    g_message, g_debug.
  destruct fe as [f |]; cbn [is_some];
    repeat match goal with
           | |- context [when ?c _ _] => destruct c; cbn [when]
           end; reflexivity.
Qed.

(** Every exit passes through the funnel: the exit location it records
    is in the log. *)
Lemma funnel_location cfg w status loc fe s e o slow t :
  let out := exit_nicely cfg w status loc fe s e o slow t in
  In (call (chassis_set_shutdown_location (exit_location out))) (events out).
Proof.
  cbv zeta. unfold exit_nicely. cbn [events exit_location]. apply -> in_rev.
  unfold release_resouces_when_exit, reset_sigsegv_handler, shutdown_tag,
    g_message, g_debug.
  destruct fe as [f |]; cbn [is_some];
    repeat match goal with
           | |- context [when ?c _ _] => destruct c; cbn [when]
           end; simpl; tauto.
Qed.

Lemma finish_location cfg w f :
  let out := finish cfg w f in
  In (call (chassis_set_shutdown_location (exit_location out))) (events out).
Proof. destruct f; apply funnel_location. Qed.

Lemma main_cmdline_location cfg w :
  let out := main_cmdline cfg w in
  In (call (chassis_set_shutdown_location (exit_location out))) (events out).
Proof.
  unfold main_cmdline.
  destruct (truthy (w_init_glib w)); [apply funnel_location |].
  destruct (w_chassis_new w); [apply finish_location | apply funnel_location].
Qed.

Lemma finish_checks cfg w f :
  flow_spec (fun l' => refused (frontend l') = false) refused_exit f ->
  let out := finish cfg w f in
  forall fe,
    frontend_at_exit out = Some fe ->
    refused fe = true ->
    filter started (events out) = []
    /\ (truthy (print_version fe) = false -> exit_code out = EXIT_FAILURE).
Proof.
  intros H. cbv zeta. unfold finish.
  destruct f as [l | status location l]; simpl in H; intros fe Hfe Href;
    rewrite exit_nicely_frontend in Hfe; injection Hfe as <-.
  - congruence.
  - destruct (H Href) as [Hq Hs].
    rewrite exit_nicely_events, filter_app, filter_rev, Hq, funnel_not_started,
      exit_nicely_code.
    split; [reflexivity | exact Hs].
Qed.

Lemma main_cmdline_checks cfg w :
  let out := main_cmdline cfg w in
  forall fe,
    frontend_at_exit out = Some fe ->
    refused fe = true ->
    filter started (events out) = []
    /\ (truthy (print_version fe) = false -> exit_code out = EXIT_FAILURE).
Proof.
  cbv zeta. unfold main_cmdline.
  destruct (truthy (w_init_glib w)); [intros fe Hfe; discriminate |].
  destruct (w_chassis_new w) as [s |]; [| intros fe Hfe; discriminate].
  apply finish_checks, bootstrap_checks. reflexivity.
Qed.

(** A run that never created the front-end record has failed. *)
Lemma main_cmdline_without_frontend cfg w :
  let out := main_cmdline cfg w in
  frontend_at_exit out = None ->
  exit_code out = EXIT_FAILURE /\ filter started (events out) = [].
Proof.
  cbv zeta. unfold main_cmdline.
  destruct (truthy (w_init_glib w));
    [intros _; split; [reflexivity | apply funnel_not_started] |].
  destruct (w_chassis_new w) as [s |];
    [| intros _; split; [reflexivity | apply funnel_not_started]].
  unfold finish. destruct (bootstrap cfg w (initial_locals cfg w s));
    rewrite exit_nicely_frontend; discriminate.
Qed.

(** C10: if the resolved default username is [NULL] and the version was
    not asked for, [main_cmdline] returns [EXIT_FAILURE] (which is not 0)
    through [exit_nicely], and neither parameter initialisation nor the
    mainloop has begun. *)
Theorem missing_default_username_is_fatal cfg w :
  let out := main_cmdline cfg w in
  (forall fe, frontend_at_exit out = Some fe ->
              default_username fe = None /\ truthy (print_version fe) = false) ->
  exit_code out = EXIT_FAILURE
  /\ exit_code out <> 0
  /\ filter is_init_parameters_line (events out) = []
  /\ filter is_mainloop_call (events out) = []
  /\ In (call (chassis_set_shutdown_location (exit_location out))) (events out).
Proof.
  cbv zeta. intros H.
  assert (Hcore : exit_code (main_cmdline cfg w) = EXIT_FAILURE
                  /\ filter started (events (main_cmdline cfg w)) = []).
  { destruct (frontend_at_exit (main_cmdline cfg w)) as [fe |] eqn:Hfe.
    - destruct (H fe eq_refl) as [Hu Hv].
      destruct (main_cmdline_checks cfg w fe Hfe) as [Hq Hs].
      + unfold refused. rewrite Hu. apply orb_true_r.
      + split; [apply Hs, Hv | exact Hq].
    - apply main_cmdline_without_frontend, Hfe. }
  destruct Hcore as [Hs Hq]. rewrite Hs.
  split; [reflexivity |]. split; [discriminate |].
  split; [| split; [| apply main_cmdline_location]].
  - revert Hq. generalize (events (main_cmdline cfg w)).
    induction l as [| e l IH]; [reflexivity |]. cbn [filter]. unfold started at 1.
    destruct (is_mainloop_call e), (is_init_parameters_line e); cbn [orb];
      try discriminate. exact IH.
  - revert Hq. generalize (events (main_cmdline cfg w)).
    induction l as [| e l IH]; [reflexivity |]. cbn [filter]. unfold started at 1.
    destruct (is_mainloop_call e), (is_init_parameters_line e); cbn [orb];
      try discriminate. exact IH.
Qed.

Lemma missing_default_username_is_fatal_witness :
  let out := main_cmdline reference_build (sample_world [] None) in
  exit_code out = EXIT_FAILURE
  /\ exit_location out = 937
  /\ filter is_mainloop_call (events out) = [].
Proof.
  pose proof (missing_default_username_is_fatal reference_build (sample_world [] None))
    as H.
  cbv zeta in *.
  destruct H as (Hs & _ & _ & Hm & _).
  - intros fe Hfe. vm_compute in Hfe. injection Hfe as <-. split; reflexivity.
  - split; [exact Hs | split; [reflexivity | exact Hm]].
Defined.

(** ** C1: the mode conflict *)

Lemma ordered_app l t :
  forallb unremarkable l = true -> ordered (l ++ t) = ordered t.
Proof. apply unremarkable_ordered. Qed.

Lemma done_app l t :
  forallb unremarkable l = true ->
  existsb is_init_plugins_done (l ++ t) = existsb is_init_plugins_done t.
Proof.
  intros H. rewrite existsb_app.
  apply unremarkable_filters in H as (_ & _ & -> & _). reflexivity.
Qed.

Ltac use_order :=
  note_logs; unfold in_order, initialised, when in *; simpl in *;
  repeat match goal with
         | H : _ /\ _ |- _ => destruct H
         end;
  try match goal with
      | |- context [mode_conflict ?f] => destruct (mode_conflict f); simpl
      end;
  rewrite ?ordered_app, ?done_app by first [assumption | apply forallb_repeat; reflexivity];
  simpl;
  repeat match goal with
         | H : ?x = true |- context [?x] =>
           lazymatch x with true => fail | _ => rewrite H end
         end;
  try first [assumption | reflexivity | split; first [assumption | reflexivity]].

Lemma bootstrap_in_order cfg w l :
  in_order l ->
  flow_spec in_order (fun _ _ => in_order) (bootstrap cfg w l).
Proof.
  intros H. unfold bootstrap.
  eapply flow_spec_weaken with (P := initialised) (E := fun _ _ => in_order);
    [| intros ? []; assumption | auto].
  do 4 (eapply (and_then_spec initialised);
        [| let l := fresh "l" in let H := fresh "Inv" in
           intros l H; chain initialised use_order]).
  eapply (and_then_spec in_order); [chain in_order use_order |].
  intros l0 H0. unfold finish_options.
  do 2 (eapply (and_then_spec initialised);
        [| let l := fresh "l" in let H := fresh "Inv" in
           intros l H; chain initialised use_order]).
  eapply (and_then_spec in_order); [exact H0 |].
  intros l1 H1. run_stage; use_order.
Qed.

Lemma existsb_rev {A} (f : A -> bool) l : existsb f (rev l) = existsb f l.
Proof.
  induction l as [| a l IH]; [reflexivity |].
  cbn [rev existsb]. rewrite existsb_app, IH. cbn [existsb].
  rewrite orb_false_r. apply orb_comm.
Qed.

Lemma ordered_conflict_after_init t :
  ordered t = true -> conflict_after_init (rev t).
Proof.
  induction t as [| e older IH]; intros H pre x post Heq Hx.
  - destruct pre; discriminate.
  - cbn [ordered rev] in *. apply andb_prop in H as [He Ho].
    destruct post as [| y post _] using rev_ind.
    + apply app_inj_tail in Heq as [Hpre ->]. rewrite Hx in He.
      rewrite <- Hpre, existsb_rev. exact He.
    + rewrite app_comm_cons, app_assoc in Heq.
      apply app_inj_tail in Heq as [Hpre _].
      exact (IH Ho pre x post Hpre Hx).
Qed.

Lemma funnel_in_order cfg w status loc fe s e o slow t :
  ordered t = true ->
  exists t', events (exit_nicely cfg w status loc fe s e o slow t) = rev t'
             /\ ordered t' = true.
Proof.
  intros H. unfold exit_nicely. cbn [events]. eexists. split; [reflexivity |].
  unfold release_resouces_when_exit, reset_sigsegv_handler, shutdown_tag,
    g_message, g_debug.
  destruct fe as [f |]; cbn [is_some];
    repeat match goal with
           | |- context [when ?c _ _] => destruct c; cbn [when]
           end;
    try destruct (truthy (verbose_shutdown f)); exact H.
Qed.

Lemma main_cmdline_in_order cfg w : conflict_after_init (events (main_cmdline cfg w)).
Proof.
  assert (H : exists t', events (main_cmdline cfg w) = rev t' /\ ordered t' = true).
  { unfold main_cmdline.
    destruct (truthy (w_init_glib w)); [apply funnel_in_order; reflexivity |].
    destruct (w_chassis_new w) as [s |]; [| apply funnel_in_order; reflexivity].
    pose proof (bootstrap_in_order cfg w (initial_locals cfg w s) eq_refl) as H.
    unfold finish. destruct (bootstrap cfg w (initial_locals cfg w s));
      apply funnel_in_order; exact H. }
  destruct H as (t' & -> & H). apply ordered_conflict_after_init, H.
Qed.

(** C1, as the code has it: when the plugin list names both [shard] and
    [proxy], neither parameter initialisation nor the mainloop begins,
    and [main_cmdline] returns [EXIT_FAILURE] unless the version was asked
    for; the check itself leaves at line 932 with the mode-conflict error
    logged; and in every run the mode-conflict error is logged only after
    [chassis_frontend_init_plugins] has returned 0. *)
Theorem mode_conflict_is_fatal cfg w :
  let out := main_cmdline cfg w in
  (forall fe,
      frontend_at_exit out = Some fe ->
      In "shard" (strv (plugin_names fe)) ->
      In "proxy" (strv (plugin_names fe)) ->
      filter started (events out) = []
      /\ (truthy (print_version fe) = false ->
          exit_code out = EXIT_FAILURE /\ exit_code out <> 0))
  /\ (forall l,
         In "shard" (strv (plugin_names (frontend l))) ->
         In "proxy" (strv (plugin_names (frontend l))) ->
         exists l',
           check_plugin_mode l = GOTO_EXIT EXIT_FAILURE 932 l'
           /\ In (g_log G_LOG_LEVEL_CRITICAL "shard & proxy is mutual exclusive" [])
                 (tr l'))
  /\ conflict_after_init (events out).
Proof.
  cbv zeta. split; [| split; [| apply main_cmdline_in_order]].
  - intros fe Hfe Hs Hp.
    destruct (main_cmdline_checks cfg w fe Hfe) as [Hq Hx].
    + unfold refused. rewrite mode_conflict_In by assumption. reflexivity.
    + split; [exact Hq |]. intros Hv. rewrite (Hx Hv). split; [reflexivity | discriminate].
  - intros l Hs Hp. destruct (check_plugin_mode_spec l) as [k ->]. cbv zeta.
    rewrite mode_conflict_In by assumption.
    eexists. split; [reflexivity |]. left. reflexivity.
Qed.

Lemma mode_conflict_is_fatal_witness :
  let out := main_cmdline reference_build (sample_world shard_and_proxy None) in
  exit_code out = EXIT_FAILURE /\ filter started (events out) = [].
Proof.
  pose proof (mode_conflict_is_fatal reference_build (sample_world shard_and_proxy None))
    as (H & _).
  cbv zeta in *.
  remember (frontend_at_exit
              (main_cmdline reference_build (sample_world shard_and_proxy None)))
    as o eqn:Hfe.
  vm_compute in Hfe. subst o.
  destruct (H _ eq_refl) as [Hq Hx].
  - vm_compute. left. reflexivity.
  - vm_compute. right. left. reflexivity.
  - split; [apply Hx; reflexivity | exact Hq].
Defined.

(** C1 as stated fails twice over.  With both plugins selected and every
    stage succeeding, [chassis_frontend_init_plugins] returns 0 before the
    mode-conflict error is logged: the check comes after plugin
    initialisation, not before its end.  And when the version is asked
    for, the same selection leaves with exit code 0 and no mode-conflict
    error at all. *)
Lemma mode_conflict_found_after_plugin_init :
  let out := main_cmdline reference_build (sample_world shard_and_proxy None) in
  let out_v := main_cmdline reference_build
                 (with_version (sample_world shard_and_proxy None)) in
  option_map plugin_names (frontend_at_exit out) = Some (Some ["shard"; "proxy"])
  /\ happens_before is_init_plugins_done is_mode_conflict (events out) = true
  /\ option_map plugin_names (frontend_at_exit out_v) = Some (Some ["shard"; "proxy"])
  /\ exit_code out_v = 0
  /\ filter is_mode_conflict (events out_v) = [].
Proof.
  vm_compute. repeat split.
Qed.

(** ** The option sources (C2) *)

Lemma find_option_In n reg o :
  find_option n reg = Some o -> In o reg /\ long_name o = n.
Proof.
  unfold find_option. intros H. apply find_some in H. destruct H as [Hin He].
  split; [assumption | now apply String.eqb_eq].
Qed.

Lemma find_option_registered n reg :
  In n (map long_name reg) -> find_option n reg <> None.
Proof.
  intros Hin Hn. apply in_map_iff in Hin as (o & Ho & Hino).
  pose proof (find_none _ _ Hn o Hino) as H. simpl in H.
  rewrite Ho, String.eqb_refl in H. discriminate.
Qed.

Lemma set_on_cmdline_mark o : set_on_cmdline (mark_cmdline o) = true.
Proof.
  unfold set_on_cmdline, mark_cmdline, OPTION_FLAG_CMDLINE. simpl.
  apply negb_true_iff, Z.eqb_neq. intros H.
  rewrite Z.land_lor_distr_l in H. apply Z.lor_eq_0_iff in H as [_ H].
  discriminate H.
Qed.

Lemma set_on_cmdline_mark_keeps o :
  set_on_cmdline o = true -> set_on_cmdline (mark_cmdline o) = true.
Proof. intros _. apply set_on_cmdline_mark. Qed.

Lemma mark_option_names m reg :
  map long_name (mark_option m reg) = map long_name reg.
Proof.
  unfold mark_option. rewrite map_map. apply map_ext.
  intros o. destruct (String.eqb _ _); reflexivity.
Qed.

Lemma mark_option_In m reg o' :
  In o' (mark_option m reg) ->
  exists o, In o reg /\ long_name o' = long_name o /\ arg o' = arg o
            /\ arg_data_of o' = arg_data_of o
            /\ (set_on_cmdline o = true -> set_on_cmdline o' = true)
            /\ (long_name o = m -> set_on_cmdline o' = true).
Proof.
  unfold mark_option. intros H. apply in_map_iff in H as (o & <- & Hin).
  exists o. split; [assumption|].
  destruct (String.eqb (long_name o) m) eqn:He.
  - repeat split; auto using set_on_cmdline_mark.
  - repeat split; auto. intros Hm. apply String.eqb_neq in He. contradiction.
Qed.

Lemma find_option_mark n m reg :
  find_option n (mark_option m reg)
  = option_map (fun o => if String.eqb (long_name o) m then mark_cmdline o else o)
      (find_option n reg).
Proof.
  unfold find_option, mark_option. induction reg as [|o reg IH]; simpl; [reflexivity|].
  destruct (String.eqb (long_name o) m) eqn:Hm; unfold mark_cmdline at 1; simpl;
    destruct (String.eqb (long_name o) n); simpl; rewrite ?Hm; auto.
Qed.

Lemma registers_mark m reg n a d :
  registers reg n a d -> registers (mark_option m reg) n a d.
Proof.
  intros (Hn & Hl & Hsame & Hsep). unfold registers.
  rewrite mark_option_names. split; [assumption|]. split; [assumption|]. split.
  - intros o' Hin Hname. apply mark_option_In in Hin as (o & Hin & En & Ea & Ed & _).
    rewrite Ea, Ed. apply Hsame; congruence.
  - intros o' Hin Hname. apply mark_option_In in Hin as (o & Hin & En & Ea & Ed & _).
    rewrite Ed. apply Hsep; congruence.
Qed.

(** *** Stores *)

Lemma store_through_same a d v fe fe2 fe' :
  lens_ok d -> read_slot d fe = read_slot d fe2 ->
  store_through a d v fe = Some fe' ->
  exists fe2', store_through a d v fe2 = Some fe2'
               /\ read_slot d fe' = read_slot d fe2'.
Proof.
  unfold store_through. destruct (value_fits a v); [|discriminate].
  destruct d, v; simpl; intros Hl Hr H; inversion H; subst; clear H;
    eexists; (split; [reflexivity|]); simpl; rewrite ?Hl; try reflexivity.
  congruence.
Qed.

Lemma store_through_separate a1 d1 d v fe fe' :
  separate d1 d -> store_through a1 d1 v fe = Some fe' ->
  read_slot d fe' = read_slot d fe.
Proof.
  unfold store_through. destruct (value_fits a1 v); [|discriminate].
  destruct d1, v; simpl; intros Hs H; inversion H; subst; auto.
Qed.

Lemma store_through_plugin a v fe fe' :
  store_through a ptr_plugin v fe = Some fe' -> fe' = fe.
Proof.
  unfold store_through. destruct (value_fits a v); [|discriminate].
  destruct v; congruence.
Qed.

(** *** One pass over the command line *)

Lemma parse_args_slot n a d ign args :
  forall reg fe fe2 reg' fe' rem,
    registers reg n a d ->
    read_slot d fe = read_slot d fe2 ->
    parse_args ign args reg fe = inr (reg', fe', rem) ->
    read_slot d fe' = read_slot d (cmdline_only n a d args fe2).
Proof.
  induction args as [|[n' v|s] args IH]; simpl; intros reg fe fe2 reg' fe' rem Hreg Hr H.
  - inversion H; subst. assumption.
  - destruct (find_option n' reg) as [o|] eqn:Hf.
    + destruct (store o v fe) as [fe1|] eqn:Hs; [|discriminate].
      destruct (String.eqb n' n) eqn:He.
      * apply String.eqb_eq in He. subst n'.
        apply find_option_In in Hf as [Hin Hname].
        destruct Hreg as (Hn & Hl & Hsame & Hsep).
        destruct (Hsame o Hin Hname) as [Ea Ed]. unfold store in Hs. rewrite Ea, Ed in Hs.
        destruct (store_through_same _ _ _ _ fe2 _ Hl Hr Hs) as (fe2' & -> & Hr').
        eapply IH; [| exact Hr' | exact H].
        apply registers_mark. exact (conj Hn (conj Hl (conj Hsame Hsep))).
      * apply String.eqb_neq in He.
        apply find_option_In in Hf as [Hin Hname].
        eapply IH; [apply registers_mark; exact Hreg | | exact H].
        rewrite <- Hr. eapply store_through_separate; [|exact Hs].
        destruct Hreg as (_ & _ & _ & Hsep). apply Hsep; congruence.
    + destruct ign; [|discriminate].
      destruct (parse_args true args reg fe) as [e|[[r f] rm]] eqn:Hp; [discriminate|].
      inversion H; subst; clear H.
      destruct (String.eqb n' n) eqn:He.
      * apply String.eqb_eq in He. subst n'.
        destruct Hreg as (Hn & _). now apply find_option_registered in Hn.
      * eapply IH; eassumption.
  - destruct (parse_args ign args reg fe) as [e|[[r f] rm]] eqn:Hp; [discriminate|].
    inversion H; subst; clear H. eapply IH; eassumption.
Qed.


Lemma parse_args_registers n a d ign args :
  forall reg fe reg' fe' rem,
    registers reg n a d ->
    parse_args ign args reg fe = inr (reg', fe', rem) ->
    registers reg' n a d.
Proof.
  induction args as [|[n' v|s] args IH]; simpl; intros reg fe reg' fe' rem Hreg H.
  - inversion H; subst. assumption.
  - destruct (find_option n' reg) as [o|] eqn:Hf.
    + destruct (store o v fe) as [fe1|] eqn:Hs; [|discriminate].
      eapply IH; [|exact H]. now apply registers_mark.
    + destruct ign; [|discriminate].
      destruct (parse_args true args reg fe) as [e|[[r f] rm]] eqn:Hp; [discriminate|].
      inversion H; subst; clear H. eapply IH; eassumption.
  - destruct (parse_args ign args reg fe) as [e|[[r f] rm]] eqn:Hp; [discriminate|].
    inversion H; subst; clear H. eapply IH; eassumption.
Qed.

(** A mark stays. *)
Lemma parse_args_keeps_marks n ign args :
  forall reg fe reg' fe' rem,
    (forall o, In o reg -> long_name o = n -> set_on_cmdline o = true) ->
    parse_args ign args reg fe = inr (reg', fe', rem) ->
    forall o, In o reg' -> long_name o = n -> set_on_cmdline o = true.
Proof.
  induction args as [|[n' v|s] args IH]; simpl; intros reg fe reg' fe' rem Hm H.
  - inversion H; subst. assumption.
  - destruct (find_option n' reg) as [o|] eqn:Hf.
    + destruct (store o v fe) as [fe1|] eqn:Hs; [|discriminate].
      eapply IH; [|exact H].
      intros o' Hin Hname. apply mark_option_In in Hin as (o0 & Hin & En & _ & _ & Hk & _).
      apply Hk, Hm; congruence.
    + destruct ign; [|discriminate].
      destruct (parse_args true args reg fe) as [e|[[r f] rm]] eqn:Hp; [discriminate|].
      inversion H; subst; clear H. eapply IH; eassumption.
  - destruct (parse_args ign args reg fe) as [e|[[r f] rm]] eqn:Hp; [discriminate|].
    inversion H; subst; clear H. eapply IH; eassumption.
Qed.

(** A registered option the command line names is marked. *)
Lemma parse_args_marks n ign args :
  forall reg fe reg' fe' rem,
    In n (flag_names args) ->
    In n (map long_name reg) ->
    parse_args ign args reg fe = inr (reg', fe', rem) ->
    forall o, In o reg' -> long_name o = n -> set_on_cmdline o = true.
Proof.
  induction args as [|[n' v|s] args IH]; simpl; intros reg fe reg' fe' rem Hin Hn H.
  - contradiction.
  - destruct (String.eqb n' n) eqn:He.
    + apply String.eqb_eq in He. subst n'.
      destruct (find_option n reg) as [o|] eqn:Hf;
        [|now apply find_option_registered in Hn].
      destruct (store o v fe) as [fe1|] eqn:Hs; [|discriminate].
      eapply parse_args_keeps_marks; [|exact H].
      intros o' Hin' Hname. apply mark_option_In in Hin' as (o0 & _ & En & _ & _ & _ & Hk).
      apply Hk. congruence.
    + apply String.eqb_neq in He. destruct Hin as [Hin|Hin]; [contradiction|].
      destruct (find_option n' reg) as [o|] eqn:Hf.
      * destruct (store o v fe) as [fe1|] eqn:Hs; [|discriminate].
        eapply IH; [exact Hin | | exact H]. now rewrite mark_option_names.
      * destruct ign; [|discriminate].
        destruct (parse_args true args reg fe) as [e|[[r f] rm]] eqn:Hp; [discriminate|].
        inversion H; subst; clear H. eapply IH; eassumption.
  - destruct (parse_args ign args reg fe) as [e|[[r f] rm]] eqn:Hp; [discriminate|].
    inversion H; subst; clear H. eapply IH; eassumption.
Qed.

(** What a descriptor found after the pass was before it. *)
Lemma parse_args_find ign args :
  forall reg fe reg' fe' rem m o',
    parse_args ign args reg fe = inr (reg', fe', rem) ->
    find_option m reg' = Some o' ->
    exists o, find_option m reg = Some o /\ arg_data_of o' = arg_data_of o.
Proof.
  induction args as [|[n' v|s] args IH]; simpl; intros reg fe reg' fe' rem m o' H Hf'.
  - inversion H; subst. eauto.
  - destruct (find_option n' reg) as [o|] eqn:Hf.
    + destruct (store o v fe) as [fe1|] eqn:Hs; [|discriminate].
      destruct (IH _ _ _ _ _ _ _ H Hf') as (o1 & Hf1 & E1).
      rewrite find_option_mark in Hf1.
      destruct (find_option m reg) as [o0|]; [|discriminate].
      exists o0. split; [reflexivity|]. simpl in Hf1. inversion Hf1; subst. rewrite E1.
      destruct (String.eqb _ _); reflexivity.
    + destruct ign; [|discriminate].
      destruct (parse_args true args reg fe) as [e|[[r f] rm]] eqn:Hp; [discriminate|].
      inversion H; subst; clear H. eapply IH; eassumption.
  - destruct (parse_args ign args reg fe) as [e|[[r f] rm]] eqn:Hp; [discriminate|].
    inversion H; subst; clear H. eapply IH; eassumption.
Qed.

(** What the lenient pass leaves on the command line names no registered
    option. *)
Lemma parse_args_remaining args :
  forall reg fe reg' fe' rem m,
    parse_args true args reg fe = inr (reg', fe', rem) ->
    In m (flag_names rem) -> find_option m reg = None.
Proof.
  induction args as [|[n' v|s] args IH]; simpl; intros reg fe reg' fe' rem m H Hin.
  - inversion H; subst. contradiction.
  - destruct (find_option n' reg) as [o|] eqn:Hf.
    + destruct (store o v fe) as [fe1|] eqn:Hs; [|discriminate].
      pose proof (IH _ _ _ _ _ _ H Hin) as Hn. rewrite find_option_mark in Hn.
      destruct (find_option m reg); [discriminate | reflexivity].
    + destruct (parse_args true args reg fe) as [e|[[r f] rm]] eqn:Hp; [discriminate|].
      inversion H; subst; clear H. destruct Hin as [<-|Hin]; [assumption|].
      eapply IH; eassumption.
  - destruct (parse_args true args reg fe) as [e|[[r f] rm]] eqn:Hp; [discriminate|].
    inversion H; subst; clear H. eapply IH; eassumption.
Qed.

Lemma parse_args_remaining_incl ign args :
  forall reg fe reg' fe' rem,
    parse_args ign args reg fe = inr (reg', fe', rem) ->
    incl (flag_names rem) (flag_names args).
Proof.
  induction args as [|[n' v|s] args IH]; simpl; intros reg fe reg' fe' rem H.
  - inversion H; subst. apply incl_refl.
  - destruct (find_option n' reg) as [o|] eqn:Hf.
    + destruct (store o v fe) as [fe1|] eqn:Hs; [|discriminate].
      apply incl_tl. eapply IH; eassumption.
    + destruct ign; [|discriminate].
      destruct (parse_args true args reg fe) as [e|[[r f] rm]] eqn:Hp; [discriminate|].
      inversion H; subst; clear H. simpl.
      apply incl_cons; [now left | apply incl_tl; eapply IH; eassumption].
  - destruct (parse_args ign args reg fe) as [e|[[r f] rm]] eqn:Hp; [discriminate|].
    inversion H; subst; clear H. simpl. eapply IH; eassumption.
Qed.

(** A pass whose flags name slots of plugins only leaves the front-end
    record as it was. *)
Lemma parse_args_frame ign args :
  forall reg fe reg' fe' rem,
    (forall n o, In n (flag_names args) -> find_option n reg = Some o ->
                 arg_data_of o = ptr_plugin) ->
    parse_args ign args reg fe = inr (reg', fe', rem) ->
    fe' = fe.
Proof.
  induction args as [|[n' v|s] args IH]; simpl; intros reg fe reg' fe' rem Hp H.
  - inversion H; subst. reflexivity.
  - destruct (find_option n' reg) as [o|] eqn:Hf.
    + destruct (store o v fe) as [fe1|] eqn:Hs; [|discriminate].
      unfold store in Hs. rewrite (Hp n' o) in Hs by auto.
      apply store_through_plugin in Hs. subst fe1.
      eapply IH; [|exact H]. intros n o0 Hin Hf0. rewrite find_option_mark in Hf0.
      destruct (find_option n reg) as [o1|] eqn:Hf1; [|discriminate].
      simpl in Hf0. inversion Hf0; subst.
      assert (arg_data_of o1 = ptr_plugin) as <- by (eapply Hp; eauto).
      destruct (String.eqb _ _); reflexivity.
    + destruct ign; [|discriminate].
      destruct (parse_args true args reg fe) as [e|[[r f] rm]] eqn:Hq; [discriminate|].
      inversion H; subst; clear H. eapply IH; [|exact Hq]. intros; eapply Hp; eauto.
  - destruct (parse_args ign args reg fe) as [e|[[r f] rm]] eqn:Hq; [discriminate|].
    inversion H; subst; clear H. eapply IH; [|exact Hq]. intros; eapply Hp; eauto.
Qed.

(** *** The key file and the remote settings *)






(** *** The registry of the front end *)

Lemma core_options_parse :
  options (chassis_frontend_set_chassis_options (set_ignore_unknown true chassis_options_new))
  = core_options
  /\ ignore_unknown
       (chassis_frontend_set_chassis_options (set_ignore_unknown true chassis_options_new))
     = true.
Proof. split; vm_compute; reflexivity. Qed.

Lemma core_lenses o : In o core_options -> lens_ok (arg_data_of o).
Proof.
  vm_compute.
  intros H; repeat (destruct H as [<-|H]; [simpl; try exact I; intros; reflexivity|]).
  contradiction.
Qed.

Lemma core_separate o1 o2 :
  In o1 core_options -> In o2 core_options -> long_name o1 <> long_name o2 ->
  separate (arg_data_of o1) (arg_data_of o2).
Proof.
  unfold core_options.
  cbv [chassis_frontend_set_chassis_options chassis_options_add chassis_options_new
       options set_options find_option find app long_name String.eqb Ascii.eqb Bool.eqb
       ignore_unknown help_enabled].
  intros H1 H2 Hne;
    repeat (destruct H1 as [<-|H1];
            [repeat (destruct H2 as [<-|H2];
                     [first [ now elim Hne | simpl; intros; reflexivity ] |]);
             contradiction|]).
  contradiction.
Qed.

Lemma core_names : NoDup (map long_name core_options).
Proof.
  assert (nodup string_dec (map long_name core_options) = map long_name core_options) as <-
      by (vm_compute; reflexivity).
  apply NoDup_nodup.
Qed.

Lemma NoDup_map_eq {A B} (f : A -> B) l x y :
  NoDup (map f l) -> In x l -> In y l -> f x = f y -> x = y.
Proof.
  induction l as [|a l IH]; simpl; [contradiction|].
  intros Hnd Hx Hy E. inversion Hnd as [|? ? Hnot Hnd']; subst.
  destruct Hx as [->|Hx], Hy as [->|Hy]; auto.
  - elim Hnot. rewrite E. now apply in_map.
  - elim Hnot. rewrite <- E. now apply in_map.
Qed.

Lemma core_registers o :
  In o core_options -> registers core_options (long_name o) (arg o) (arg_data_of o).
Proof.
  intros Hin. unfold registers.
  split; [exact (in_map long_name core_options o Hin)|].
  split; [exact (core_lenses o Hin)|]. split.
  - intros o' Hin' E.
    rewrite (NoDup_map_eq long_name core_options o' o core_names Hin' Hin E).
    split; reflexivity.
  - intros o' Hin' Hne. exact (core_separate o' o Hin' Hin Hne).
Qed.

(** *** The stages that read the sources *)

Lemma parse_core_options_spec l la o :
  In o core_options ->
  parse_core_options l = Next la ->
  read_slot (arg_data_of o) (frontend la)
  = read_slot (arg_data_of o)
      (cmdline_only (long_name o) (arg o) (arg_data_of o) (argv l) (frontend l))
  /\ registers (options (the_opts la)) (long_name o) (arg o) (arg_data_of o)
  /\ (In (long_name o) (flag_names (argv l)) ->
      forall o', In o' (options (the_opts la)) -> long_name o' = long_name o ->
                 set_on_cmdline o' = true)
  /\ settled la.
Proof.
  intros Hin. unfold parse_core_options, chassis_options_parse_cmdline.
  destruct core_options_parse as [-> ->]. simpl.
  destruct (parse_args true (argv l) core_options (frontend l)) as [e|[[reg' fe'] rem]] eqn:Hp;
    [discriminate|].
  intros H. inversion H; subst; clear H. unfold the_opts, settled. simpl.
  pose proof (core_registers o Hin) as Hreg.
  split; [|split; [|split]].
  - eapply parse_args_slot; [exact Hreg | reflexivity | exact Hp].
  - eapply parse_args_registers; eassumption.
  - intros Hflag. eapply parse_args_marks; [exact Hflag | | exact Hp].
    exact (in_map long_name core_options o Hin).
  - intros n o' Hn Hf.
    destruct (parse_args_find _ _ _ _ _ _ _ _ _ Hp Hf) as (o0 & Hf0 & _).
    rewrite (parse_args_remaining _ _ _ _ _ _ _ Hp Hn) in Hf0. discriminate.
Qed.





(** *** The passes that follow *)

Lemma find_option_app n l1 l2 :
  find_option n (l1 ++ l2)
  = match find_option n l1 with Some o => Some o | None => find_option n l2 end.
Proof.
  unfold find_option. induction l1 as [|o l1 IH]; simpl; [reflexivity|].
  destruct (String.eqb (long_name o) n); auto.
Qed.

Lemma chassis_options_add_plugin_find opts nm a n x :
  find_option n (options (chassis_options_add opts nm 0 0 a ptr_plugin EmptyString None))
  = Some x ->
  find_option n (options opts) = Some x \/ arg_data_of x = ptr_plugin.
Proof.
  unfold chassis_options_add. destruct (find_option nm (options opts)); [now left|].
  simpl. rewrite find_option_app. destruct (find_option n (options opts)); [now left|].
  unfold find_option. simpl. destruct (String.eqb nm n); [|discriminate].
  intros H. inversion H; subst. now right.
Qed.

Lemma plugin_options_find ds :
  forall opts n x,
    find_option n
      (options (fold_left
                  (fun o d => chassis_options_add o (fst d) 0 0 (snd d) ptr_plugin
                                EmptyString None) ds opts)) = Some x ->
    find_option n (options opts) = Some x \/ arg_data_of x = ptr_plugin.
Proof.
  induction ds as [|d ds IH]; simpl; intros opts n x H; [now left|].
  apply IH in H as [H|H]; [|now right].
  now apply chassis_options_add_plugin_find in H.
Qed.

Lemma init_plugins_frame w l l' :
  settled l -> init_plugins w l = Next l' ->
  frontend l' = frontend l /\ settled l'.
Proof.
  intros Hs. unfold init_plugins, init_plugin_options, chassis_options_parse_cmdline.
  match goal with
  | |- context [parse_args ?i ?a ?r ?f] =>
    destruct (parse_args i a r f) as [e|[[reg' fe'] rem]] eqn:Hp; [discriminate|]
  end.
  destruct (w_init_plugins_error w); [discriminate|].
  intros H. inversion H; subst; clear H. simpl.
  assert (forall n o, In n (flag_names (argv l)) ->
            find_option n
              (options (fold_left
                  (fun o d => chassis_options_add o (fst d) 0 0 (snd d) ptr_plugin
                                EmptyString None) (w_plugin_options w) (the_opts l))) = Some o ->
            arg_data_of o = ptr_plugin) as Hplug.
  { intros n o Hn Hf. apply plugin_options_find in Hf as [Hf|Hf]; [|assumption].
    eapply Hs; eassumption. }
  split.
  - eapply parse_args_frame; [|exact Hp]. exact Hplug.
  - unfold settled, the_opts. simpl. intros n o' Hn Hf.
    destruct (parse_args_find _ _ _ _ _ _ _ _ _ Hp Hf) as (o0 & Hf0 & ->).
    eapply Hplug; [|exact Hf0]. eapply parse_args_remaining_incl; eassumption.
Qed.

Lemma parse_all_options_frame l l' :
  settled l -> parse_all_options l = Next l' ->
  frontend l' = frontend l /\ settled l'.
Proof.
  intros Hs. unfold parse_all_options, chassis_options_parse_cmdline. simpl.
  match goal with
  | |- context [parse_args ?i ?a ?r ?f] =>
    destruct (parse_args i a r f) as [e|[[reg' fe'] rem]] eqn:Hp; [discriminate|]
  end.
  intros H. inversion H; subst; clear H. simpl.
  split.
  - eapply parse_args_frame; [|exact Hp]. exact Hs.
  - unfold settled, the_opts. simpl. intros n o' Hn Hf.
    destruct (parse_args_find _ _ _ _ _ _ _ _ _ Hp Hf) as (o0 & Hf0 & ->).
    eapply Hs; [|exact Hf0]. eapply parse_args_remaining_incl; eassumption.
Qed.

Lemma finish_options_frame w l l' :
  settled l -> finish_options w l = Next l' ->
  frontend l' = frontend l /\ settled l'.
Proof.
  intros Hs. unfold finish_options. simpl.
  destruct (init_plugins w l) as [la|] eqn:Ha; [|discriminate]. simpl.
  destruct (init_plugins_frame _ _ _ Hs Ha) as [Ea Hsa].
  unfold print_plugin_versions at 1.
  destruct (truthy (print_version (frontend la))); [discriminate|]. simpl.
  intros Hb. destruct (parse_all_options_frame _ _ Hsa Hb) as [Eb Hsb].
  split; [congruence | assumption].
Qed.



(** *** The key file over the defaults *)




(** ** C9: the crash handler is installed whatever the options say *)

Lemma install_app l t :
  forallb unremarkable l = true ->
  filter is_sigsegv_install (l ++ t) = filter is_sigsegv_install t.
Proof.
  intros H. rewrite filter_app.
  apply unremarkable_filters in H as (_ & _ & _ & _ & -> & _). reflexivity.
Qed.

Ltac use_install :=
  note_logs; unfold installs, when in *; simpl in *;
  try match goal with
      | |- context [mode_conflict ?f] => destruct (mode_conflict f); simpl
      end;
  rewrite ?install_app by first [assumption | apply forallb_repeat; reflexivity];
  try assumption; try exact I.

Lemma load_configuration_installs w l :
  installs l [] ->
  flow_spec (fun l' => installs l' []) (fun _ _ _ => True) (load_configuration w l).
Proof. intros H. chain (fun l' => installs l' []) use_install. Qed.

Lemma register_sigsegv_interceptor_spec cfg w l :
  HAVE_SIGACTION cfg = true ->
  register_sigsegv_interceptor cfg w l
  = Next (set_tr (when (negb (RUNNING_ON_VALGRIND cfg w))
                    (call (sigaction SIGSEGV sigsegv_handler_fn)) (tr l))
            (set_frontend (set_invoke_dbg_on_crash 1 (frontend l)) l)).
Proof.
  intros H. unfold register_sigsegv_interceptor. rewrite H. simpl.
  destruct (RUNNING_ON_VALGRIND cfg w); reflexivity.
Qed.

Lemma funnel_installs cfg w status loc fe s e o slow :
  filter is_sigsegv_install (events (exit_nicely cfg w status loc fe s e o slow [])) = [].
Proof.
  unfold exit_nicely. cbn [events]. rewrite filter_rev.
  unfold release_resouces_when_exit, reset_sigsegv_handler, shutdown_tag,
    g_message, g_debug.
  destruct fe as [f |]; cbn [is_some];
    repeat match goal with
           | |- context [when ?c _ _] => destruct c; cbn [when]
           end;
    try destruct (truthy (verbose_shutdown f)); reflexivity.
Qed.

Lemma finish_installs cfg w f evs :
  flow_spec (fun l => installs l evs) (fun _ _ l => installs l evs) f ->
  filter is_sigsegv_install (events (finish cfg w f)) = rev evs.
Proof.
  intros H. unfold finish, installs in *.
  destruct f; simpl in H;
    rewrite exit_nicely_events, filter_app, filter_rev, H, funnel_installs;
    apply app_nil_r.
Qed.

(** C9: with [HAVE_SIGACTION], the stage of lines 742-753 sets
    [invoke_dbg_on_crash] to 1 whatever the record held, and installs
    [sigsegv_handler] for [SIGSEGV] unless the process runs under
    valgrind; and a run that reaches the stage has the installation in its
    log exactly once, or not at all under valgrind. *)
Theorem sigsegv_interceptor_installed cfg w :
  HAVE_SIGACTION cfg = true ->
  (forall l, exists l',
      register_sigsegv_interceptor cfg w l = Next l'
      /\ invoke_dbg_on_crash (frontend l') = 1
      /\ tr l' = when (negb (RUNNING_ON_VALGRIND cfg w))
                   (call (sigaction SIGSEGV sigsegv_handler_fn)) (tr l))
  /\ (forall s l,
         truthy (w_init_glib w) = false ->
         w_chassis_new w = Some s ->
         load_configuration w (initial_locals cfg w s) = Next l ->
         filter is_sigsegv_install (events (main_cmdline cfg w))
         = when (negb (RUNNING_ON_VALGRIND cfg w))
             (call (sigaction SIGSEGV sigsegv_handler_fn)) []).
Proof.
  intros Hsa. split.
  - intros l. eexists. split; [apply register_sigsegv_interceptor_spec; exact Hsa|].
    split; reflexivity.
  - intros s l Hglib Hnew Hload.
    unfold main_cmdline. rewrite Hglib, Hnew.
    set (evs := when (negb (RUNNING_ON_VALGRIND cfg w))
                  (call (sigaction SIGSEGV sigsegv_handler_fn)) []).
    replace evs with (rev evs) by (unfold evs, when; destruct (negb _); reflexivity).
    apply finish_installs.
    pose proof (load_configuration_installs w (initial_locals cfg w s) eq_refl) as Hpre.
    rewrite Hload in Hpre. simpl in Hpre.
    unfold bootstrap.
    do 8 (eapply (and_then_spec (fun l => installs l evs));
          [| let l' := fresh "l" in let Inv := fresh "Inv" in
             intros l' Inv; chain (fun l => installs l evs) use_install]).
    unfold and_then at 2. rewrite Hload. unfold and_then.
    rewrite register_sigsegv_interceptor_spec by exact Hsa.
    unfold flow_spec, installs in *. simpl. unfold evs, when.
    destruct (negb _); simpl; rewrite Hpre; reflexivity.
Qed.

Lemma sigsegv_interceptor_installed_witness :
  filter is_sigsegv_install (events (main_cmdline reference_build (sample_world [] None)))
  = [call (sigaction SIGSEGV sigsegv_handler_fn)].
Proof.
  destruct (sigsegv_interceptor_installed reference_build (sample_world [] None) eq_refl)
    as [_ H].
  destruct (load_configuration (sample_world [] None)
              (initial_locals reference_build (sample_world [] None) chassis_zero))
    as [l|] eqn:Hl; [|vm_compute in Hl; discriminate].
  exact (H chassis_zero l eq_refl eq_refl Hl).
Defined.

(** ** C6: the default plugin *)

Lemma loads_app l t :
  forallb unremarkable l = true ->
  flat_map loaded_names (l ++ t) = flat_map loaded_names t.
Proof.
  intros H. rewrite flat_map_app.
  apply unremarkable_filters in H as (_ & _ & _ & _ & _ & ->). reflexivity.
Qed.


Ltac use_loads :=
  note_logs; unfold loads, when in *; simpl in *;
  try match goal with
      | |- context [mode_conflict ?f] => destruct (mode_conflict f); simpl
      end;
  rewrite ?loads_app by first [assumption | apply forallb_repeat; reflexivity];
  try assumption; try exact I.

Lemma before_plugins_loads cfg w l :
  loads l [] ->
  flow_spec (fun l' => loads l' []) (fun _ _ _ => True)
    (Next l >>> load_configuration w >>> register_sigsegv_interceptor cfg w
     >>> start_service cfg w).
Proof. intros H. chain (fun l' => loads l' []) use_loads. Qed.




(** * Further properties of the functions of the file *)

(** ** [check_plugin_mode_valid] *)

Lemma check_plugin_mode_loop_count names : forall p s t,
  check_plugin_mode_loop names p s t =
  (if existsb (String.eqb "proxy") names then 1 else p,
   if existsb (String.eqb "shard") names then 1 else s,
   repeat (g_log G_LOG_LEVEL_MESSAGE "set sharding mode true" [])
     (count_occ string_dec names "shard") ++ t).
Proof.
  induction names as [| n names IH]; intros p s t; [reflexivity|].
  cbn [check_plugin_mode_loop existsb count_occ]. rewrite !strcmp_eqb.
  destruct (string_dec n "shard") as [-> | Hne].
  - change (String.eqb "shard" "shard") with true.
    change (String.eqb "proxy" "shard") with false. cbn [orb].
    rewrite IH. unfold g_message. rewrite repeat_snoc.
    destruct (existsb _ names), (existsb _ names); reflexivity.
  - assert (String.eqb "shard" n = false) as ->
        by (apply String.eqb_neq; congruence).
    destruct (String.eqb "proxy" n); cbn [orb]; rewrite IH;
      destruct (existsb _ names), (existsb _ names); reflexivity.
Qed.

Lemma existsb_eqb_In a names : existsb (String.eqb a) names = true <-> In a names.
Proof.
  rewrite existsb_exists. split.
  - intros (x & Hin & E). apply String.eqb_eq in E. subst. assumption.
  - intros H. exists a. split; [assumption | apply String.eqb_refl].
Qed.

(** [check_plugin_mode_valid] returns [FALSE] exactly when the plugin
    list names both [shard] and [proxy], wherever and however often; it
    logs one message for each occurrence of [shard], and after them the
    error exactly when it returns [FALSE]. *)
Theorem plugin_mode_check fe s t :
  let names := strv (plugin_names fe) in
  let r := check_plugin_mode_valid fe s t in
  (fst r = false <-> In "shard" names /\ In "proxy" names)
  /\ snd r
     = when (negb (fst r))
         (g_log G_LOG_LEVEL_CRITICAL "shard & proxy is mutual exclusive" [])
         (repeat (g_log G_LOG_LEVEL_MESSAGE "set sharding mode true" [])
            (count_occ string_dec names "shard") ++ t).
Proof.
  cbv zeta. unfold check_plugin_mode_valid.
  rewrite check_plugin_mode_loop_count.
  rewrite <- !existsb_eqb_In.
  destruct (existsb (String.eqb "shard") (strv (plugin_names fe))),
           (existsb (String.eqb "proxy") (strv (plugin_names fe)));
    cbn; (split; [split; [intros H; try discriminate H; auto
                         | intros [H1 H2]; try discriminate H1; try discriminate H2; auto]
                 | reflexivity]).
Qed.

(** ** [init_parameters] *)

(** Case analysis on the tests that decide what the service object
    becomes, leaving alone the ones that only decide what is logged. *)
Ltac split_srv_ifs :=
  repeat match goal with
         | |- context [if ?c then ?a else _] =>
           let T := type of a in
           lazymatch eval cbv beta in T with
           | Chassis.t => destruct c eqn:?
           | (Chassis.t * trace)%type => destruct c eqn:?
           end
         end.

Lemma init_parameters_fields cfg fe s t :
  let s' := fst (init_parameters cfg fe s t) in
  Chassis.default_query_cache_timeout s' = Int.MAX (default_query_cache_timeout fe) 1
  /\ Chassis.long_query_time s' = Int.MIN (long_query_time fe) (MAX_QUERY_TIME cfg)
  /\ Chassis.cetus_max_allowed_packet s'
     = Int.CLAMP (cetus_max_allowed_packet fe)
         (MAX_ALLOWED_PACKET_FLOOR cfg) (MAX_ALLOWED_PACKET_CEIL cfg)
  /\ Chassis.merged_output_size s' = merged_output_size fe
  /\ Chassis.compressed_merged_output_size s' = Int.shl (merged_output_size fe) 3
  /\ Chassis.query_cache_enabled s' = query_cache_enabled fe
  /\ Chassis.query_cache_table s'
     = (if truthy (query_cache_enabled fe) then Some [] else Chassis.query_cache_table s)
  /\ Chassis.cache_index s'
     = (if truthy (query_cache_enabled fe) then Some [] else Chassis.cache_index s).
Proof.
  cbv zeta. unfold init_parameters.
  cbn [Chassis.set_query_cache_enabled Chassis.query_cache_enabled].
  split_srv_ifs; repeat split; try reflexivity; simpl in *; congruence.
Qed.

(** The three limits [init_parameters] applies: the query-cache timeout
    is at least 1, the long-query time at most [MAX_QUERY_TIME], and the
    packet size between the floor and the ceiling when the floor is not
    above the ceiling; a configured value that is within its limit is
    taken as it is. *)
Theorem init_parameters_limits cfg fe s t :
  let s' := fst (init_parameters cfg fe s t) in
  1 <= Chassis.default_query_cache_timeout s'
  /\ Chassis.long_query_time s' <= MAX_QUERY_TIME cfg
  /\ (MAX_ALLOWED_PACKET_FLOOR cfg <= MAX_ALLOWED_PACKET_CEIL cfg ->
      MAX_ALLOWED_PACKET_FLOOR cfg <= Chassis.cetus_max_allowed_packet s'
      <= MAX_ALLOWED_PACKET_CEIL cfg)
  /\ (1 <= default_query_cache_timeout fe ->
      Chassis.default_query_cache_timeout s' = default_query_cache_timeout fe)
  /\ (long_query_time fe <= MAX_QUERY_TIME cfg ->
      Chassis.long_query_time s' = long_query_time fe)
  /\ (MAX_ALLOWED_PACKET_FLOOR cfg <= cetus_max_allowed_packet fe
      <= MAX_ALLOWED_PACKET_CEIL cfg ->
      Chassis.cetus_max_allowed_packet s' = cetus_max_allowed_packet fe).
Proof.
  cbv zeta.
  destruct (init_parameters_fields cfg fe s t) as (-> & -> & -> & _).
  unfold Int.MAX, Int.MIN, Int.CLAMP.
  repeat match goal with
         | |- context [?a >? ?b] => destruct (Z.gtb_spec a b)
         | |- context [?a <? ?b] => destruct (Z.ltb_spec a b)
         end; repeat split; intros; lia.
Qed.

Lemma init_parameters_limits_witness :
  let fe := set_cetus_max_allowed_packet 16
              (set_long_query_time 100000
                 (set_default_query_cache_timeout 0 (chassis_frontend_new reference_build))) in
  let s' := fst (init_parameters reference_build fe chassis_zero []) in
  Chassis.default_query_cache_timeout s' = 1
  /\ Chassis.long_query_time s' = 65536
  /\ 1024 <= Chassis.cetus_max_allowed_packet s' <= 1073741824.
Proof.
  cbv zeta.
  pose proof (init_parameters_limits reference_build
                (set_cetus_max_allowed_packet 16
                   (set_long_query_time 100000
                      (set_default_query_cache_timeout 0
                         (chassis_frontend_new reference_build))))
                chassis_zero []) as (_ & _ & H & _).
  split; [vm_compute; reflexivity|]. split; [vm_compute; reflexivity|].
  apply H. vm_compute. discriminate.
Defined.

Lemma shl_3_times_8 m :
  -268435456 <= m < 268435456 -> Int.shl m 3 = m * 8.
Proof.
  intros H. unfold Int.shl, Int.wrap, Int.modulus.
  rewrite Z.shiftl_mul_pow2 by lia. change (2 ^ 3) with 8.
  rewrite Z.mod_small by lia. lia.
Qed.

Lemma wrap_in_range z : Int.in_range (Int.wrap z).
Proof.
  unfold Int.in_range, Int.wrap, Int.min_signed, Int.max_signed, Int.modulus.
  pose proof (Z.mod_pos_bound (z + 2147483648) 4294967296 ltac:(lia)). lia.
Qed.

(** The size limit of a compressed merged output is the merged output
    size shifted left by three on a 32-bit [int]: eight times the size
    while the size lies in [-2^28, 2^28), and the wrapped product, not the
    product, from there on. *)
Theorem compressed_merged_output_size_resolution cfg fe s t :
  let m := merged_output_size fe in
  let s' := fst (init_parameters cfg fe s t) in
  Chassis.merged_output_size s' = m
  /\ Chassis.compressed_merged_output_size s' = Int.wrap (m * 8)
  /\ Int.in_range (Chassis.compressed_merged_output_size s')
  /\ (-268435456 <= m < 268435456 -> Chassis.compressed_merged_output_size s' = m * 8)
  /\ (m = 268435456 -> Chassis.compressed_merged_output_size s' = -2147483648).
Proof.
  cbv zeta.
  destruct (init_parameters_fields cfg fe s t) as (_ & _ & _ & -> & -> & _).
  split; [reflexivity|]. split.
  { unfold Int.shl. rewrite Z.shiftl_mul_pow2 by lia. reflexivity. }
  split; [apply wrap_in_range|]. split.
  - apply shl_3_times_8.
  - intros ->. reflexivity.
Qed.

Lemma compressed_merged_output_size_resolution_witness :
  Chassis.compressed_merged_output_size
    (fst (init_parameters reference_build (chassis_frontend_new reference_build)
            chassis_zero [])) = 65536.
Proof.
  pose proof (compressed_merged_output_size_resolution reference_build
                (chassis_frontend_new reference_build) chassis_zero [])
    as (_ & _ & _ & H & _).
  cbv zeta in H. rewrite H; [reflexivity | vm_compute; split; [discriminate | reflexivity]].
Defined.

(** The query cache comes into being exactly when it is enabled:
    [init_parameters] gives the service object an empty cache table and an
    empty cache index when [query_cache_enabled] is not zero, and leaves
    both as they were when it is zero. *)
Theorem query_cache_created_when_enabled cfg fe s t :
  let s' := fst (init_parameters cfg fe s t) in
  Chassis.query_cache_enabled s' = query_cache_enabled fe
  /\ (query_cache_enabled fe <> 0 ->
      Chassis.query_cache_table s' = Some [] /\ Chassis.cache_index s' = Some [])
  /\ (query_cache_enabled fe = 0 ->
      Chassis.query_cache_table s' = Chassis.query_cache_table s
      /\ Chassis.cache_index s' = Chassis.cache_index s).
Proof.
  cbv zeta.
  destruct (init_parameters_fields cfg fe s t) as (_ & _ & _ & _ & _ & -> & -> & ->).
  split; [reflexivity|]. unfold truthy. split.
  - intros H. apply Z.eqb_neq in H. rewrite H. split; reflexivity.
  - intros ->. split; reflexivity.
Qed.

Lemma query_cache_created_when_enabled_witness :
  let fe := set_query_cache_enabled 1 (chassis_frontend_new reference_build) in
  Chassis.query_cache_table (fst (init_parameters reference_build fe chassis_zero []))
  = Some [].
Proof.
  cbv zeta.
  pose proof (query_cache_created_when_enabled reference_build
                (set_query_cache_enabled 1 (chassis_frontend_new reference_build))
                chassis_zero []) as (_ & H & _).
  apply H. vm_compute. discriminate.
Defined.

(** ** The option table *)

Lemma nth_core_option n :
  (n < 41)%nat ->
  In (nth n core_options (mark_cmdline (nth 0 core_options
        {| long_name := EmptyString; short_name := 0; flags := 0; arg := OPTION_ARG_NONE;
           arg_data_of := ptr_plugin; description := EmptyString;
           arg_description := None |}))) core_options.
Proof.
  intros H. apply nth_In.
  assert (List.length core_options = 41%nat) as -> by (vm_compute; reflexivity).
  exact H.
Qed.

(** [chassis_frontend_set_chassis_options] gives every name to one
    option, and every option a field of its own: an option is known by its
    name, what is stored through an option's slot is what is read back
    from it, and storing through the slot of one option leaves the slot of
    every other option as it was. *)
Theorem option_slots_are_apart o1 o2 :
  In o1 core_options -> In o2 core_options ->
  (long_name o1 = long_name o2 -> o1 = o2)
  /\ lens_ok (arg_data_of o1)
  /\ (long_name o1 <> long_name o2 ->
      separate (arg_data_of o1) (arg_data_of o2)
      /\ separate (arg_data_of o2) (arg_data_of o1)).
Proof.
  intros H1 H2. split; [|split].
  - exact (NoDup_map_eq long_name core_options o1 o2 core_names H1 H2).
  - exact (core_lenses o1 H1).
  - intros Hne. split.
    + exact (core_separate o1 o2 H1 H2 Hne).
    + apply (core_separate o2 o1 H2 H1). congruence.
Qed.

Lemma option_slots_are_apart_witness :
  let fe := chassis_frontend_new reference_build in
  max_pool_size (set_default_pool_size 7 fe) = max_pool_size fe
  /\ default_pool_size (set_default_pool_size 7 fe) = 7.
Proof.
  cbv zeta.
  destruct (find_option "default-pool-size" core_options) as [o1|] eqn:H1.
  2: { vm_compute in H1. discriminate. }
  destruct (find_option "max-pool-size" core_options) as [o2|] eqn:H2.
  2: { vm_compute in H2. discriminate. }
  pose proof (find_option_In _ _ _ H1) as [Hin1 Hn1].
  pose proof (find_option_In _ _ _ H2) as [Hin2 Hn2].
  destruct (option_slots_are_apart o1 o2 Hin1 Hin2) as (_ & Hl & Hs).
  assert (long_name o1 <> long_name o2) as Hne by (rewrite Hn1, Hn2; discriminate).
  destruct (Hs Hne) as [Hs' _]. clear Hs Hne.
  vm_compute in H1, H2. inversion H1; subst o1. inversion H2; subst o2. clear H1 H2.
  generalize (chassis_frontend_new reference_build). intros fe. split.
  - pose proof (Hs' 7 fe) as E.
    change (SInt (max_pool_size (set_default_pool_size 7 fe)) = SInt (max_pool_size fe)) in E.
    congruence.
  - exact (Hl 7 fe).
Defined.

(** ** [resolve_path] *)

Lemma path_setters_frame o :
  In o core_options -> ~ In (long_name o) resolved_paths ->
  forall v fe,
    read_slot (arg_data_of o) (set_log_filename v fe) = read_slot (arg_data_of o) fe
    /\ read_slot (arg_data_of o) (set_pid_file v fe) = read_slot (arg_data_of o) fe
    /\ read_slot (arg_data_of o) (set_plugin_dir v fe) = read_slot (arg_data_of o) fe
    /\ read_slot (arg_data_of o) (set_conf_dir v fe) = read_slot (arg_data_of o) fe.
Proof.
  unfold core_options.
  cbv [chassis_frontend_set_chassis_options chassis_options_add chassis_options_new
       options set_options find_option find app long_name String.eqb Ascii.eqb Bool.eqb
       ignore_unknown help_enabled].
  intros H Hn;
    repeat (destruct H as [<-|H];
            [first [ exfalso; apply Hn; simpl; tauto
                   | intros v fe; repeat split ] |]).
  contradiction.
Qed.

(** [resolve_path] puts in each of the four paths what
    [chassis_resolve_path] makes of it, keeps a path for which
    [chassis_resolve_path] returns nothing new, and changes the slot of no
    other option. *)
Theorem resolve_path_rewrites_the_paths w s fe :
  let fe' := resolve_path w s fe in
  log_filename fe' = resolved w s (log_filename fe)
  /\ pid_file fe' = resolved w s (pid_file fe)
  /\ plugin_dir fe' = resolved w s (plugin_dir fe)
  /\ conf_dir fe' = resolved w s (conf_dir fe)
  /\ forall o, In o core_options -> ~ In (long_name o) resolved_paths ->
               read_slot (arg_data_of o) fe' = read_slot (arg_data_of o) fe.
Proof.
  cbv zeta. unfold resolve_path, resolved.
  destruct (w_resolve_path w (Chassis.base_dir s) (log_filename fe)) as [p1|];
    cbn [pid_file set_log_filename];
    destruct (w_resolve_path w (Chassis.base_dir s) (pid_file fe)) as [p2|];
    cbn [plugin_dir set_log_filename set_pid_file];
    destruct (w_resolve_path w (Chassis.base_dir s) (plugin_dir fe)) as [p3|];
    cbn [conf_dir set_log_filename set_pid_file set_plugin_dir];
    destruct (w_resolve_path w (Chassis.base_dir s) (conf_dir fe)) as [p4|];
    (split; [reflexivity|]); (split; [reflexivity|]); (split; [reflexivity|]);
    (split; [reflexivity|]);
    intros o Hin Hn;
    repeat match goal with
           | |- context [read_slot _ (?set ?v ?x)] =>
             rewrite (proj1 (path_setters_frame o Hin Hn v x))
             || rewrite (proj1 (proj2 (path_setters_frame o Hin Hn v x)))
             || rewrite (proj1 (proj2 (proj2 (path_setters_frame o Hin Hn v x))))
             || rewrite (proj2 (proj2 (proj2 (path_setters_frame o Hin Hn v x))))
           end; reflexivity.
Qed.

Lemma resolve_path_rewrites_the_paths_witness :
  let w := sample_world [] None in
  let fe := set_default_pool_size 7 (chassis_frontend_new reference_build) in
  default_pool_size (resolve_path w chassis_zero fe) = 7.
Proof.
  cbv zeta.
  destruct (find_option "default-pool-size" core_options) as [o|] eqn:H;
    [|vm_compute in H; discriminate].
  pose proof (find_option_In _ _ _ H) as [Hin Hname].
  destruct (resolve_path_rewrites_the_paths (sample_world [] None) chassis_zero
              (set_default_pool_size 7 (chassis_frontend_new reference_build)))
    as (_ & _ & _ & _ & Hf).
  assert (~ In (long_name o) resolved_paths) as Hnot
      by (rewrite Hname; vm_compute; intuition discriminate).
  pose proof (Hf o Hin Hnot) as E. clear Hf Hnot Hin Hname.
  vm_compute in H. inversion H; subst o; clear H.
  change (SInt (default_pool_size
                  (resolve_path (sample_world [] None) chassis_zero
                     (set_default_pool_size 7 (chassis_frontend_new reference_build))))
          = SInt (default_pool_size
                    (set_default_pool_size 7 (chassis_frontend_new reference_build)))) in E.
  exact (f_equal (fun v => match v with SInt z => z | _ => 0 end) E).
Defined.

(** ** [chassis_frontend_free] *)

(** [chassis_frontend_free] does nothing for [NULL]; otherwise it gives
    back the record last and once, and before that the string or the
    string vector in the slot of every option that has one. *)
Theorem chassis_frontend_free_releases fe :
  Frontend.chassis_frontend_free None = []
  /\ (exists before,
         Frontend.chassis_frontend_free (Some fe) = before ++ [Frontend.g_slice_free]
         /\ ~ In Frontend.g_slice_free before)
  /\ forall o, In o core_options -> Frontend.released (arg_data_of o) fe.
Proof.
  split; [reflexivity|]. split.
  - unfold Frontend.chassis_frontend_free.
    eexists. split.
    + rewrite !app_assoc.
      change [Frontend.g_free (remote_config_url fe); Frontend.g_slice_free]
        with ([Frontend.g_free (remote_config_url fe)] ++ [Frontend.g_slice_free]).
      rewrite app_assoc. reflexivity.
    + rewrite !in_app_iff. simpl.
      destruct (keyfile fe), (plugin_names fe); simpl; intuition discriminate.
  - unfold core_options.
    cbv [chassis_frontend_set_chassis_options chassis_options_add chassis_options_new
         options set_options find_option find app long_name String.eqb Ascii.eqb Bool.eqb
         ignore_unknown help_enabled].
    intros o H;
      repeat (destruct H as [<-|H];
              [unfold Frontend.released, Frontend.chassis_frontend_free;
               cbn [arg_data_of];
               try exact I;
               destruct (keyfile fe), (plugin_names fe); cbn [app In];
               try exact I;
               repeat (first [left; reflexivity | right]) |]).
    contradiction.
Qed.

Lemma chassis_frontend_free_releases_witness :
  let fe := set_user (Some "cetus") (chassis_frontend_new reference_build) in
  In (Frontend.g_free (Some "cetus")) (Frontend.chassis_frontend_free (Some fe)).
Proof.
  cbv zeta. generalize (chassis_frontend_new reference_build). intros fe.
  destruct (find_option "user" core_options) as [o|] eqn:H.
  2: { vm_compute in H. discriminate. }
  pose proof (find_option_In _ _ _ H) as [Hin _].
  destruct (chassis_frontend_free_releases (set_user (Some "cetus") fe)) as (_ & _ & Hr).
  specialize (Hr o Hin).
  vm_compute in H. inversion H; subst o; clear H Hin.
  exact Hr.
Defined.

(** ** [slow_query_log_handler] *)

Lemma length_list_ascii_of_string s :
  List.length (list_ascii_of_string s) = String.length s.
Proof. induction s as [|c s IH]; simpl; congruence. Qed.

Lemma firstn_repeat_le {A} (a : A) k m :
  (k <= m)%nat -> firstn k (repeat a m) = repeat a k.
Proof.
  revert m. induction k as [|k IH]; intros m H; [reflexivity|].
  destruct m as [|m]; [lia|]. simpl. f_equal. apply IH. lia.
Qed.

Lemma length_timestr stamp : List.length (timestr stamp) = 32%nat.
Proof.
  unfold timestr. destruct (String.length stamp <? 32)%nat.
  - rewrite length_firstn, length_app, repeat_length. lia.
  - apply repeat_length.
Qed.

(** A record of the slow-query log is 20 bytes of time stamp, the
    message and a newline, whatever [strftime] has produced: a stamp of 20
    characters, which the format of line 593 gives for a year of four
    digits, is written as it is, a longer one loses what comes after its
    20th character, and a shorter one is filled up with zero bytes. *)
Theorem slow_query_record stamp message fp :
  let out := slow_query_log_handler stamp message fp in
  let newline := Ascii.ascii_of_nat 10 in
  List.length out = (List.length fp + 20 + String.length message + 1)%nat
  /\ ((String.length stamp < 32)%nat ->
      out = fp ++ firstn 20 (list_ascii_of_string stamp ++ repeat Ascii.zero 20)
               ++ list_ascii_of_string message ++ [newline])
  /\ (String.length stamp = 20%nat ->
      out = fp ++ list_ascii_of_string stamp ++ list_ascii_of_string message ++ [newline]).
Proof.
  cbv zeta. unfold slow_query_log_handler, fwrite.
  rewrite <- (length_list_ascii_of_string message), firstn_all.
  assert ((String.length stamp < 32)%nat ->
          firstn 20 (timestr stamp)
          = firstn 20 (list_ascii_of_string stamp ++ repeat Ascii.zero 20)) as Hcut.
  { intros H. unfold timestr. apply Nat.ltb_lt in H. rewrite H.
    rewrite firstn_firstn. change (Nat.min 20 32) with 20%nat.
    rewrite !firstn_app. f_equal.
    rewrite length_list_ascii_of_string.
    remember (20 - String.length stamp)%nat as k.
    assert (k <= 20)%nat as Hk by lia. clear - Hk.
    rewrite !firstn_repeat_le by lia. reflexivity. }
  split; [|split].
  - rewrite !length_app, length_firstn, length_timestr. simpl. lia.
  - intros H. rewrite (Hcut H), <- !app_assoc. reflexivity.
  - intros H. rewrite Hcut by lia. rewrite <- !app_assoc. do 2 f_equal.
    rewrite firstn_app, length_list_ascii_of_string, H, Nat.sub_diag.
    rewrite <- H at 1. rewrite <- (length_list_ascii_of_string stamp), firstn_all.
    simpl. rewrite app_nil_r. reflexivity.
Qed.

Lemma slow_query_record_witness :
  slow_query_log_handler "2018-06-01 12:00:00 " "select 1" []
  = list_ascii_of_string "2018-06-01 12:00:00 select 1" ++ [Ascii.ascii_of_nat 10].
Proof.
  pose proof (slow_query_record "2018-06-01 12:00:00 " "select 1" []) as (_ & _ & H).
  cbv zeta in H. rewrite H; reflexivity.
Defined.

(** * Further properties of [main_cmdline] *)

(** ** The calls in the log *)

Lemma calls_app l t : calls (l ++ t) = calls l ++ calls t.
Proof. apply flat_map_app. Qed.

Lemma calls_rev t : calls (rev t) = rev (calls t).
Proof.
  induction t as [|e t IH]; [reflexivity|].
  cbn [rev]. rewrite calls_app, IH. cbn [calls flat_map]. rewrite app_nil_r.
  destruct e; cbn [app rev]; rewrite ?app_nil_r; reflexivity.
Qed.

Lemma calls_logs l : forallb is_log l = true -> calls l = [].
Proof.
  induction l as [|e l IH]; [reflexivity|].
  cbn [forallb]. intros H. apply andb_prop in H as [He Hl].
  destruct e; try discriminate; cbn [calls flat_map app]; exact (IH Hl).
Qed.

Lemma init_parameters_logs_only cfg fe s :
  calls (snd (init_parameters cfg fe s [])) = [].
Proof.
  apply calls_logs. unfold init_parameters. split_ifs; reflexivity.
Qed.

Lemma calls_repeat_log lvl format args k t :
  calls (repeat (g_log lvl format args) k ++ t) = calls t.
Proof.
  rewrite calls_app, calls_logs; [reflexivity|]. apply forallb_repeat. reflexivity.
Qed.

(** Replace the log a call has returned by what the call added to the
    log it was given, which holds no call. *)
Ltac note_calls :=
  repeat match goal with
         | H : init_parameters ?c ?f ?s ?t0 = (_, ?t') |- _ =>
           let X := fresh "X" in
           pose proof (init_parameters_log c f s t0) as X;
           rewrite H in X; cbn [snd] in X; subst t';
           pose proof (init_parameters_logs_only c f s);
           clear H
         | H : check_plugin_mode_valid ?f ?s ?t0 = (_, _) |- _ =>
           let X := fresh "X" in
           let k := fresh "k" in
           destruct (check_plugin_mode_valid_spec f s t0) as [k X];
           rewrite H in X; injection X as -> ->; clear H
         end.

Ltac simpl_calls :=
  note_calls; unfold when in *; simpl in *;
  try match goal with
      | |- context [mode_conflict ?f] => destruct (mode_conflict f); simpl
      end;
  repeat match goal with
         | H : calls ?L = [] |- context [calls (?L ++ _)] => rewrite (calls_app L), H; simpl
         | |- context [calls (repeat _ _ ++ _)] => rewrite calls_repeat_log
         end.

(** ** The exit code *)



(** ** The funnel gives everything back, once *)




(** ** The monitor thread and the mainloop *)

Lemma funnel_idle cfg w status loc fe s e o slow :
  filter is_monitor_or_mainloop
    (calls (events (exit_nicely cfg w status loc fe s e o slow []))) = [].
Proof.
  unfold exit_nicely. cbn [events]. rewrite calls_rev, filter_rev.
  unfold release_resouces_when_exit, reset_sigsegv_handler, shutdown_tag,
    g_message, g_debug.
  destruct fe as [f |]; cbn [is_some];
    repeat match goal with
           | |- context [when ?c _ _] => destruct c; cbn [when]
           end;
    try destruct (truthy (verbose_shutdown f)); reflexivity.
Qed.

Ltac use_idle :=
  unfold mainloop_failed, idle in *; simpl_calls; simpl;
  first [assumption | left; assumption].

Lemma bootstrap_mainloop cfg w l :
  idle l ->
  flow_spec
    (fun l' => filter is_monitor_or_mainloop (calls (tr l'))
               = [cetus_monitor_stop_thread; chassis_mainloop 0;
                  cetus_monitor_start_thread])
    mainloop_failed (bootstrap cfg w l).
Proof.
  intros H. unfold bootstrap.
  eapply (and_then_spec idle); [chain idle use_idle|].
  intros l1 H1. unfold serve.
  eapply (and_then_spec idle); [chain idle use_idle|].
  intros l2 H2. unfold run_mainloop, idle, mainloop_failed in *. simpl.
  destruct (truthy (w_mainloop (w_late w))) eqn:Hret; simpl; rewrite H2.
  - right. exists (w_mainloop (w_late w)). repeat split.
    unfold truthy in Hret. apply negb_true_iff, Z.eqb_neq in Hret. exact Hret.
  - unfold truthy in Hret. apply negb_false_iff, Z.eqb_eq in Hret. rewrite Hret.
    reflexivity.
Qed.

(** [main_cmdline] enters the mainloop at most once, and only after it
    has started the monitor thread; it stops the monitor thread exactly
    when the mainloop has returned 0, and then returns [EXIT_SUCCESS]; when
    the mainloop returns anything else it leaves from line 978 with
    [EXIT_FAILURE], the monitor thread not stopped. *)
Theorem mainloop_is_bracketed cfg w :
  let out := main_cmdline cfg w in
  let m := filter is_monitor_or_mainloop (calls (events out)) in
  m = []
  \/ (exists ret,
         ret <> 0
         /\ m = [cetus_monitor_start_thread; chassis_mainloop ret]
         /\ exit_code out = EXIT_FAILURE /\ exit_location out = 978)
  \/ (m = [cetus_monitor_start_thread; chassis_mainloop 0; cetus_monitor_stop_thread]
      /\ exit_code out = EXIT_SUCCESS).
Proof.
  cbv zeta. unfold main_cmdline.
  destruct (truthy (w_init_glib w)); [|destruct (w_chassis_new w) as [s|]];
    try (left; apply funnel_idle).
  pose proof (bootstrap_mainloop cfg w (initial_locals cfg w s) eq_refl) as H.
  unfold finish.
  destruct (bootstrap cfg w (initial_locals cfg w s)) as [l | status loc l];
    simpl in H;
    rewrite exit_nicely_events, calls_app, calls_rev, filter_app, filter_rev, funnel_idle,
      app_nil_r.
  - right. right. rewrite H. split; reflexivity.
  - destruct H as [H | (ret & Hret & H & -> & ->)].
    + left. unfold idle in H. rewrite H. reflexivity.
    + right. left. exists ret. rewrite H. repeat split. exact Hret.
Qed.

(** ** The order of the calls *)

Lemma descending_mono b b' t :
  descending b t = true -> b <= b' -> descending b' t = true.
Proof.
  induction t as [|e t IH]; [reflexivity|].
  destruct e; cbn [descending]; auto.
  intros H Hb. apply andb_prop in H as [H1 H2]. rewrite H2, andb_true_r.
  apply Z.ltb_lt in H1. apply Z.ltb_lt. lia.
Qed.

Lemma descending_logs b l t :
  calls l = [] -> descending b (l ++ t) = descending b t.
Proof.
  induction l as [|e l IH]; [reflexivity|].
  destruct e; cbn [calls flat_map app descending]; auto. discriminate.
Qed.

Lemma descending_repeat_log b lvl format args k t :
  descending b (repeat (g_log lvl format args) k ++ t) = descending b t.
Proof.
  apply descending_logs, calls_logs, forallb_repeat. reflexivity.
Qed.

Lemma StronglySorted_snoc {A} (R : A -> A -> Prop) l a :
  StronglySorted R l -> Forall (fun x => R x a) l -> StronglySorted R (l ++ [a]).
Proof.
  induction 1 as [|x l Hs IH Hx]; intros Ha; simpl.
  - constructor; constructor.
  - inversion Ha; subst. constructor; [auto|].
    apply Forall_app. split; [assumption | constructor; [assumption | constructor]].
Qed.

Lemma descending_sorted b t :
  descending b t = true ->
  StronglySorted Z.lt (map rank (calls (rev t)))
  /\ Forall (fun r => r < b) (map rank (calls (rev t))).
Proof.
  revert b. induction t as [|e t IH]; intros b H.
  - split; constructor.
  - cbn [rev]. rewrite calls_app, map_app.
    destruct e as [| |c]; cbn [descending] in H; cbn [calls flat_map map app];
      rewrite ?app_nil_r; auto.
    apply andb_prop in H as [H1 H2]. apply Z.ltb_lt in H1.
    destruct (IH _ H2) as [Hs Hf]. split.
    + apply StronglySorted_snoc; assumption.
    + apply Forall_app. split.
      * eapply Forall_impl; [|exact Hf]. simpl. intros; lia.
      * constructor; [assumption | constructor].
Qed.

Ltac head_of t :=
  lazymatch t with
  | ?f _ => head_of f
  | _ => t
  end.

(** The bound that holds of the log once a stage is over. *)
Ltac stage_bound h :=
  lazymatch h with
  | parse_base_options => constr:(0)
  | open_config_file => constr:(0)
  | print_main_version => constr:(7021)
  | parse_core_options => constr:(7021)
  | apply_keyfile => constr:(7021)
  | apply_remote_config => constr:(7021)
  | merge_sources => constr:(7021)
  | init_basedir => constr:(7021)
  | load_configuration => constr:(7021)
  | register_sigsegv_interceptor => constr:(7511)
  | publish_directories => constr:(7511)
  | open_log_file => constr:(7511)
  | apply_log_level => constr:(7511)
  | init_network => constr:(7511)
  | start_service => constr:(7511)
  | default_plugin_names => constr:(7511)
  | load_plugins => constr:(8321)
  | init_plugins => constr:(8381)
  | print_plugin_versions => constr:(8381)
  | parse_all_options => constr:(8381)
  | finish_options => constr:(8381)
  | reject_remaining_arguments => constr:(8381)
  | ignore_sigpipe_and_daemonize => constr:(8931)
  | supervise => constr:(8981)
  | write_pidfile => constr:(9121)
  | check_plugin_mode => constr:(9231)
  | check_default_username => constr:(9231)
  | initialize_parameters => constr:(9231)
  | init_xa_log => constr:(9541)
  | set_fdlimit => constr:(9601)
  | run_mainloop => constr:(9811)
  | serve => constr:(9811)
  end.

Ltac bound_after k :=
  lazymatch k with
  | (fun _ => and_then _ ?k') => bound_after k'
  | _ => let h := head_of k in stage_bound h
  end.

Ltac bound_of_prefix f :=
  lazymatch f with
  | and_then _ ?k => bound_after k
  | Next ?l => match goal with H : below ?b l |- _ => b end
  end.

Ltac use_below :=
  note_calls; unfold below, when in *; simpl in *;
  try match goal with
      | |- context [mode_conflict ?f] => destruct (mode_conflict f); simpl
      end;
  repeat match goal with
         | H : calls ?L = [] |- context [descending _ (?L ++ _)] =>
           rewrite (descending_logs _ L _ H); simpl
         | |- context [descending _ (repeat _ _ ++ _)] =>
           rewrite descending_repeat_log; simpl
         end;
  first [assumption | eapply descending_mono; [eassumption | lia]].

Ltac chain_order :=
  cbv beta;
  lazymatch goal with
  | |- flow_spec _ _ (and_then ?f ?k) =>
    let b := bound_of_prefix f in
    eapply (and_then_spec (below b));
    [ chain_order
    | let l := fresh "l" in let H := fresh "Inv" in intros l H; chain_order ]
  | |- flow_spec _ _ (Next _) => assumption
  | |- flow_spec _ _ _ =>
    first [ progress autounfold with segments; chain_order | run_stage; use_below ]
  end.

Lemma bootstrap_order cfg w l :
  below 0 l ->
  flow_spec (below 9811) (fun _ _ => below 9970) (bootstrap cfg w l).
Proof. intros H. chain_order. Qed.

Lemma funnel_order cfg w status loc fe s e o slow t :
  descending 9970 t = true ->
  exists t', events (exit_nicely cfg w status loc fe s e o slow t) = rev t'
             /\ descending 10151 t' = true.
Proof.
  intros H. unfold exit_nicely. cbn [events]. eexists. split; [reflexivity |].
  unfold release_resouces_when_exit, reset_sigsegv_handler, shutdown_tag,
    g_message, g_debug.
  destruct fe as [f |]; cbn [is_some];
    repeat match goal with
           | |- context [when ?c _ _] => destruct c; cbn [when]
           end;
    try destruct (truthy (verbose_shutdown f)); exact H.
Qed.

(** The calls of a run are made in the order of the text of
    [main_cmdline], each call site at most once: nothing is loaded,
    started, written or given back twice, the process turns into a daemon
    before it writes its pid file, the monitor thread is started before the
    mainloop, and every release comes after the last call of the start-up
    sequence. *)
Theorem calls_follow_the_text cfg w :
  StronglySorted Z.lt (map rank (calls (events (main_cmdline cfg w)))).
Proof.
  assert (forall status loc fe s e o slow t,
             descending 9970 t = true ->
             StronglySorted Z.lt
               (map rank (calls (events (exit_nicely cfg w status loc fe s e o slow t)))))
    as Hfin.
  { intros status loc fe s e o slow t H.
    destruct (funnel_order cfg w status loc fe s e o slow t H) as (t' & -> & H').
    exact (proj1 (descending_sorted _ _ H')). }
  unfold main_cmdline.
  destruct (truthy (w_init_glib w)); [|destruct (w_chassis_new w) as [s|]];
    try (apply Hfin; reflexivity).
  pose proof (bootstrap_order cfg w (initial_locals cfg w s) eq_refl) as H.
  unfold finish.
  destruct (bootstrap cfg w (initial_locals cfg w s)) as [l | status loc l];
    unfold below in H; simpl in H; apply Hfin.
  - eapply descending_mono; [exact H | lia].
  - exact H.
Qed.

(** ** The supervisor *)

Lemma funnel_not_serving cfg w status loc fe s e o slow :
  filter is_service_call (calls (events (exit_nicely cfg w status loc fe s e o slow []))) = []
  /\ filter is_supervisor_return
       (calls (events (exit_nicely cfg w status loc fe s e o slow []))) = [].
Proof.
  unfold exit_nicely. cbn [events]. rewrite calls_rev, !filter_rev.
  unfold release_resouces_when_exit, reset_sigsegv_handler, shutdown_tag,
    g_message, g_debug.
  destruct fe as [f |]; cbn [is_some];
    repeat match goal with
           | |- context [when ?c _ _] => destruct c; cbn [when]
           end;
    try destruct (truthy (verbose_shutdown f)); split; reflexivity.
Qed.

Ltac use_unsupervised :=
  unfold supervisor_exit, not_serving, unsupervised, started in *;
  note_logs; simpl_calls; simpl;
  rewrite ?filter_app;
  repeat match goal with
         | H : forallb unremarkable ?L = true |- _ =>
           let X := fresh "X" in
           pose proof (not_started_app L [] H) as X; clear H
         end;
  first [ assumption
        | left; assumption
        | split; tauto
        | tauto ].

Lemma before_supervision cfg w l :
  unsupervised l -> not_serving l ->
  flow_spec (fun l' => unsupervised l' /\ not_serving l') supervisor_exit
    (Next l >>> load_configuration w >>> register_sigsegv_interceptor cfg w
     >>> start_service cfg w >>> default_plugin_names cfg >>> load_plugins w
     >>> finish_options w >>> reject_remaining_arguments
     >>> ignore_sigpipe_and_daemonize).
Proof.
  intros H1 H2. pose proof (conj H1 H2) as H.
  chain (fun l' => unsupervised l' /\ not_serving l') use_unsupervised.
Qed.

Lemma supervise_spec cfg w l :
  unsupervised l -> not_serving l ->
  flow_spec unsupervised supervisor_exit (supervise cfg w l).
Proof.
  intros H1 [H2 H3]. unfold supervise.
  destruct (truthy (auto_restart (frontend l))); [|exact H1].
  unfold supervisor_exit, unsupervised, not_serving in *.
  destruct (w_keepalive w) as [| |child]; simpl; rewrite ?H1, ?H2.
  - right. split; [split; [reflexivity | assumption]|].
    exists (-1). split; [reflexivity|]. intros _. split; reflexivity.
  - reflexivity.
  - right. split; [split; [reflexivity | assumption]|].
    exists 1. split; [reflexivity|]. intros H. discriminate H.
Qed.

Lemma serve_unsupervised cfg w lw l :
  unsupervised l -> flow_spec unsupervised supervisor_exit (serve cfg w lw l).
Proof.
  intros H.
  chain unsupervised
        ltac:(idtac; unfold supervisor_exit, unsupervised in *; simpl_calls; simpl;
              first [assumption | left; assumption]).
Qed.

Lemma bootstrap_supervision cfg w l :
  unsupervised l -> not_serving l ->
  flow_spec unsupervised supervisor_exit (bootstrap cfg w l).
Proof.
  intros H1 H2. unfold bootstrap.
  eapply (and_then_spec unsupervised);
    [eapply (and_then_spec (fun l' => unsupervised l' /\ not_serving l'))|].
  - apply before_supervision; assumption.
  - intros l1 [Ha Hb]. apply supervise_spec; assumption.
  - intros l1 Ha. apply serve_unsupervised. assumption.
Qed.

(** A process in which [chassis_unix_proc_keepalive] returns anything
    but 0, the supervisor or the process whose [fork] has failed, goes
    from there to the funnel: it writes no pid file, initialises no
    parameters, starts no monitor thread and enters no mainloop; and after
    a failed [fork] it returns [EXIT_FAILURE], from line 906. *)
Theorem supervisor_does_not_serve cfg w ret :
  let out := main_cmdline cfg w in
  In (chassis_unix_proc_keepalive ret) (calls (events out)) ->
  ret <> 0 ->
  filter is_service_call (calls (events out)) = []
  /\ filter started (events out) = []
  /\ (ret < 0 -> exit_code out = EXIT_FAILURE /\ exit_location out = 906).
Proof.
  cbv zeta. intros Hin Hret.
  assert (In (chassis_unix_proc_keepalive ret)
            (filter is_supervisor_return (calls (events (main_cmdline cfg w))))) as Hf.
  { apply filter_In. split; [assumption|]. simpl. apply negb_true_iff, Z.eqb_neq.
    exact Hret. }
  clear Hin. revert Hf. unfold main_cmdline.
  destruct (truthy (w_init_glib w)); [|destruct (w_chassis_new w) as [s|]];
    try (rewrite (proj2 (funnel_not_serving _ _ _ _ _ _ _ _ _)); contradiction).
  pose proof (bootstrap_supervision cfg w (initial_locals cfg w s) eq_refl
                (conj eq_refl eq_refl)) as H.
  unfold finish.
  destruct (bootstrap cfg w (initial_locals cfg w s)) as [l | status loc l];
    simpl in H;
    rewrite exit_nicely_events, calls_app, calls_rev, !filter_app, !filter_rev,
      (proj1 (funnel_not_serving _ _ _ _ _ _ _ _ _)),
      (proj2 (funnel_not_serving _ _ _ _ _ _ _ _ _)), funnel_not_started, !app_nil_r.
  - unfold unsupervised in H. rewrite H. contradiction.
  - destruct H as [H | ([Hs Hn] & ret' & Hk & Hneg)].
    + unfold unsupervised in H. rewrite H. contradiction.
    + rewrite Hk, Hs, Hn. intros [E | []]. inversion E; subst ret'.
      split; [reflexivity|]. split; [reflexivity|].
      intros Hlt. destruct (Hneg Hlt) as [-> ->]. split; reflexivity.
Qed.

Lemma supervisor_does_not_serve_witness :
  let out := main_cmdline reference_build supervisor_world in
  In (chassis_unix_proc_keepalive 1) (calls (events out))
  /\ filter is_service_call (calls (events out)) = [].
Proof.
  cbv zeta.
  assert (In (chassis_unix_proc_keepalive 1)
            (calls (events (main_cmdline reference_build supervisor_world)))) as Hin
      by (vm_compute; tauto).
  split; [exact Hin|].
  exact (proj1 (supervisor_does_not_serve reference_build supervisor_world 1 Hin
                  ltac:(discriminate))).
Defined.

(** ** What the mainloop can rely on *)

(** [chain] with an invariant for each stage: [F b] holds after a stage
    when [b] is the bound that holds of the log then. *)
Ltac bound_of_prefix_by F f :=
  lazymatch f with
  | and_then _ ?k => bound_after k
  | Next ?l => match goal with H : F ?b l |- _ => b end
  end.

Ltac chain_by F fin :=
  cbv beta;
  lazymatch goal with
  | |- flow_spec _ _ (and_then ?f ?k) =>
    let b := bound_of_prefix_by F f in
    eapply (and_then_spec (F b));
    [ chain_by F fin
    | let l := fresh "l" in let H := fresh "Inv" in intros l H; chain_by F fin ]
  | |- flow_spec _ _ (Next _) => assumption
  | |- flow_spec _ _ _ =>
    first [ progress autounfold with segments; chain_by F fin | run_stage; fin ]
  end.

Ltac use_ready :=
  repeat match goal with
         | H : ready _ ?l |- ?G =>
           lazymatch G with
           | context [l] => fail
           | _ => clear H
           end
         end;
  unfold ready, ready_exit, met in *; simpl_calls; simpl in *;
  unfold truthy in *;
  repeat match goal with
         | H : negb _ = true |- _ => apply negb_true_iff in H
         | H : negb _ = false |- _ => apply negb_false_iff in H
         end;
  repeat match goal with
         | |- context [existsb ?p (calls (tr ?l))] =>
           destruct (existsb p (calls (tr l)))
         | H : context [existsb ?p (calls (tr ?l))] |- _ =>
           destruct (existsb p (calls (tr l)))
         end;
  repeat match goal with
         | |- context [?a =? ?b] => destruct (a =? b) eqn:?
         end;
  simpl in *; first [reflexivity | discriminate | assumption | congruence].

Lemma bootstrap_ready cfg w l :
  ready 0 l -> flow_spec (ready 9811) ready_exit (bootstrap cfg w l).
Proof. intros H. chain_by ready use_ready. Qed.

Lemma funnel_no_mainloop cfg w status loc fe s e o slow :
  existsb is_mainloop_entered
    (calls (events (exit_nicely cfg w status loc fe s e o slow []))) = false.
Proof.
  unfold exit_nicely. cbn [events]. rewrite calls_rev, existsb_rev.
  unfold release_resouces_when_exit, reset_sigsegv_handler, shutdown_tag,
    g_message, g_debug.
  destruct fe as [f |]; cbn [is_some];
    repeat match goal with
           | |- context [when ?c _ _] => destruct c; cbn [when]
           end;
    try destruct (truthy (verbose_shutdown f)); reflexivity.
Qed.

Lemma met_prerequisites cs :
  met cs prerequisites = true ->
  (exists dir names, In (chassis_frontend_load_plugins dir names 0) cs)
  /\ In (chassis_frontend_init_plugins 0) cs
  /\ In (signal SIGPIPE SIG_IGN) cs
  /\ In chassis_frontend_log_plugin_versions cs
  /\ In cetus_monitor_start_thread cs.
Proof.
  unfold met, prerequisites. cbn [forallb fst].
  intros H. repeat (apply andb_prop in H; destruct H as [?H H]).
  repeat match goal with
         | H : existsb _ _ = true |- _ =>
           apply existsb_exists in H; destruct H as ([] & ? & ?); try discriminate
         end;
  simpl in *.
  repeat match goal with
         | H : (_ =? _) = true |- _ => apply Z.eqb_eq in H; subst
         | H : match ?s with SIGPIPE => _ | _ => _ end = true |- _ =>
           destruct s; try discriminate H
         | H : match ?h with SIG_IGN => _ | _ => _ end = true |- _ =>
           destruct h; try discriminate H; clear H
         end.
  repeat split; eauto.
Qed.

Lemma finish_sorted cfg w f :
  flow_spec (below 9811) (fun _ _ => below 9970) f ->
  StronglySorted Z.lt (map rank (calls (events (finish cfg w f)))).
Proof.
  intros H. unfold finish.
  destruct f as [l | status loc l]; unfold below in H; simpl in H.
  - destruct (funnel_order cfg w EXIT_SUCCESS 641 (Some (frontend l)) (Some (srv l))
                (gerr l) (opts l) (slow_query_log_fp l) (tr l)) as (t' & -> & H').
    + eapply descending_mono; [exact H | lia].
    + exact (proj1 (descending_sorted _ _ H')).
  - destruct (funnel_order cfg w status loc (Some (frontend l)) (Some (srv l))
                (gerr l) (opts l) (slow_query_log_fp l) (tr l) H) as (t' & -> & H').
    exact (proj1 (descending_sorted _ _ H')).
Qed.

Lemma sorted_before m before after c :
  StronglySorted Z.lt (map rank (before ++ m :: after)) ->
  In c (before ++ m :: after) ->
  rank c < rank m ->
  In c before.
Proof.
  induction before as [|b before IH]; simpl; intros Hs Hin Hlt.
  - inversion Hs as [|? ? _ Hall]; subst.
    destruct Hin as [-> | Hin]; [lia|].
    rewrite Forall_forall in Hall.
    specialize (Hall (rank c) (in_map rank _ _ Hin)). lia.
  - inversion Hs; subst. destruct Hin as [-> | Hin]; [now left|].
    right. apply IH; assumption.
Qed.

(** The mainloop is entered only in a process that, before the call,
    has loaded and initialised its plugins with success, has set
    [SIGPIPE] to be ignored, has logged the plugin versions and has started
    the monitor thread. *)
Theorem mainloop_prerequisites cfg w ret :
  let cs := calls (events (main_cmdline cfg w)) in
  In (chassis_mainloop ret) cs ->
  exists before after,
    cs = before ++ chassis_mainloop ret :: after
    /\ (exists dir names, In (chassis_frontend_load_plugins dir names 0) before)
    /\ In (chassis_frontend_init_plugins 0) before
    /\ In (signal SIGPIPE SIG_IGN) before
    /\ In chassis_frontend_log_plugin_versions before
    /\ In cetus_monitor_start_thread before.
Proof.
  cbv zeta. intros Hin.
  assert (existsb is_mainloop_entered (calls (events (main_cmdline cfg w))) = true) as Hm
      by (apply existsb_exists; eexists; split; [exact Hin | reflexivity]).
  assert (met (calls (events (main_cmdline cfg w))) prerequisites = true
          /\ StronglySorted Z.lt (map rank (calls (events (main_cmdline cfg w))))) as [Hp Hs].
  { revert Hm. unfold main_cmdline.
    destruct (truthy (w_init_glib w)); [|destruct (w_chassis_new w) as [s|]];
      try (rewrite funnel_no_mainloop; discriminate).
    intros Hm. split; [|apply finish_sorted, bootstrap_order; reflexivity].
    revert Hm.
    pose proof (bootstrap_ready cfg w (initial_locals cfg w s) eq_refl) as H.
    unfold finish.
    assert (forall t cs', met (calls t) prerequisites = true ->
                          met (rev (calls t) ++ cs') prerequisites = true) as Hmono.
    { intros t cs'. unfold met, prerequisites. cbn [forallb fst].
      rewrite !existsb_app, !existsb_rev. intros X.
      repeat (apply andb_prop in X; destruct X as [-> X]). reflexivity. }
    destruct (bootstrap cfg w (initial_locals cfg w s)) as [l | status loc l];
      simpl in H;
      rewrite exit_nicely_events, calls_app, calls_rev, existsb_app, existsb_rev,
        funnel_no_mainloop, orb_false_r; intros Hm; apply Hmono.
    - unfold ready in H. simpl in H. exact H.
    - unfold ready_exit in H. rewrite Hm in H. exact H. }
  destruct (in_split _ _ Hin) as (before & after & E).
  exists before, after. split; [exact E|].
  destruct (met_prerequisites _ Hp) as ((dir & names & H1) & H2 & H3 & H4 & H5).
  rewrite E in Hs, H1, H2, H3, H4, H5.
  split; [exists dir, names|repeat split];
    (eapply sorted_before; [exact Hs | eassumption | simpl; lia]).
Qed.

Lemma mainloop_prerequisites_witness :
  let cs := calls (events (main_cmdline reference_build
                             (sample_world serving_command_line None))) in
  exists before after,
    cs = before ++ chassis_mainloop 0 :: after
    /\ In (chassis_frontend_init_plugins 0) before.
Proof.
  cbv zeta.
  assert (In (chassis_mainloop 0)
            (calls (events (main_cmdline reference_build
                              (sample_world serving_command_line None))))) as Hin
      by (vm_compute; tauto).
  destruct (mainloop_prerequisites reference_build
              (sample_world serving_command_line None) 0 Hin)
    as (before & after & E & _ & H & _).
  exists before, after. split; assumption.
Defined.

(** ** The defaults *)

Lemma chassis_frontend_new_fields cfg :
  default_pool_size (chassis_frontend_new cfg) = 100
  /\ max_pool_size (chassis_frontend_new cfg) = 0
  /\ merged_output_size (chassis_frontend_new cfg) = 8192
  /\ default_query_cache_timeout (chassis_frontend_new cfg) = 100
  /\ long_query_time (chassis_frontend_new cfg) = MAX_QUERY_TIME cfg
  /\ cetus_max_allowed_packet (chassis_frontend_new cfg) = MAX_ALLOWED_PACKET_DEFAULT cfg
  /\ slave_delay_down_threshold_sec (chassis_frontend_new cfg) = 60%float
  /\ slave_delay_recover_threshold_sec (chassis_frontend_new cfg) = 0%float.
Proof. repeat split; vm_compute; reflexivity. Qed.

Lemma init_parameters_no_warning cfg fe s :
  fgt (slave_delay_recover_threshold_sec fe) 0 = false
  \/ fgt (slave_delay_recover_threshold_sec fe) (slave_delay_down_threshold_sec fe) = false ->
  filter is_warning (snd (init_parameters cfg fe s [])) = [].
Proof.
  intros H. unfold init_parameters.
  split_ifs; try reflexivity; simpl in *; destruct H; congruence.
Qed.

(** With the record [chassis_frontend_new] returns, in a build whose
    default packet size lies between the floor and the ceiling,
    [init_parameters] changes none of the defaults it limits, and derives a
    maximum pool size of 200 and a recover threshold of 30 seconds; it logs
    no warning. *)
Theorem defaults_pass_the_limits cfg s t :
  MAX_ALLOWED_PACKET_FLOOR cfg <= MAX_ALLOWED_PACKET_DEFAULT cfg
  <= MAX_ALLOWED_PACKET_CEIL cfg ->
  let r := init_parameters cfg (chassis_frontend_new cfg) s t in
  Chassis.mid_idle_connections (fst r) = 100
  /\ Chassis.max_idle_connections (fst r) = 200
  /\ Chassis.compressed_merged_output_size (fst r) = 65536
  /\ Chassis.default_query_cache_timeout (fst r) = 100
  /\ Chassis.long_query_time (fst r) = MAX_QUERY_TIME cfg
  /\ Chassis.cetus_max_allowed_packet (fst r) = MAX_ALLOWED_PACKET_DEFAULT cfg
  /\ Chassis.slave_delay_recover_threshold_sec (fst r) = 30%float
  /\ filter is_warning (snd r) = filter is_warning t.
Proof.
  intros Hp. cbv zeta.
  rewrite init_parameters_mid_idle, init_parameters_max_idle, init_parameters_recover.
  destruct (init_parameters_fields cfg (chassis_frontend_new cfg) s t)
    as (-> & -> & -> & _ & -> & _).
  destruct (chassis_frontend_new_fields cfg) as (-> & -> & -> & -> & -> & -> & E1 & E2).
  split; [reflexivity|]. split; [reflexivity|]. split; [reflexivity|].
  split; [reflexivity|]. split.
  { unfold Int.MIN. destruct (_ <? _); reflexivity. }
  split.
  { unfold Int.CLAMP.
    destruct (Z.gtb_spec (MAX_ALLOWED_PACKET_DEFAULT cfg) (MAX_ALLOWED_PACKET_CEIL cfg));
      [lia|].
    destruct (Z.ltb_spec (MAX_ALLOWED_PACKET_DEFAULT cfg) (MAX_ALLOWED_PACKET_FLOOR cfg));
      [lia | reflexivity]. }
  split; [rewrite E1, E2; reflexivity|].
  rewrite init_parameters_log, filter_app, init_parameters_no_warning; [reflexivity|].
  left. rewrite E2. reflexivity.
Qed.

Lemma defaults_pass_the_limits_witness :
  Chassis.cetus_max_allowed_packet
    (fst (init_parameters reference_build (chassis_frontend_new reference_build)
            chassis_zero [])) = 33554432.
Proof.
  refine (proj1 (proj2 (proj2 (proj2 (proj2 (proj2
            (defaults_pass_the_limits reference_build chassis_zero [] _))))))).
  vm_compute. split; discriminate.
Defined.

(** ** The crash handler is reset on the way out *)

Lemma parse_core_options_settled l la :
  parse_core_options l = Next la -> settled la /\ tr la = tr l.
Proof.
  intros H. split.
  - exact (proj2 (proj2 (proj2
             (parse_core_options_spec l la _ (nth_core_option 0 ltac:(lia)) H)))).
  - revert H. unfold parse_core_options.
    destruct (chassis_options_parse_cmdline _ _ _) as [e|[[o fe] rem]];
      [discriminate|].
    intros H. inversion H. reflexivity.
Qed.

Lemma resolve_path_invoke_dbg_on_crash w s fe :
  invoke_dbg_on_crash (resolve_path w s fe) = invoke_dbg_on_crash fe.
Proof.
  unfold resolve_path.
  repeat match goal with
         | |- context [match ?x with Some _ => _ | None => _ end] => destruct x
         end; reflexivity.
Qed.

Ltac use_armed :=
  note_logs; unfold armed_exit, armed, installs, settled, the_opts, when in *; simpl in *;
  try match goal with
      | |- context [mode_conflict ?f] => destruct (mode_conflict f); simpl
      end;
  rewrite ?install_app by first [assumption | apply forallb_repeat; reflexivity];
  rewrite ?resolve_path_invoke_dbg_on_crash;
  first [ assumption | tauto | intuition congruence ].

(** Up to the registration of the handler: the first pass has settled
    the command line, and nothing has been installed. *)
Lemma load_configuration_settles w l :
  installs l [] ->
  flow_spec (fun l' => settled l' /\ installs l' []) (armed_exit [])
    (load_configuration w l).
Proof.
  intros H. unfold load_configuration, merge_sources.
  eapply (and_then_spec (fun l' => settled l' /\ installs l' []));
    [|intros l1 [Hs Hi]; run_stage; use_armed].
  eapply (and_then_spec (fun l' => installs l' []));
    [chain (fun l' => installs l' []) use_armed | intros l1 Hi; cbv beta].
  eapply (and_then_spec (fun l' => settled l' /\ installs l' []));
    [|intros l2 [Hs2 Hi2]; run_stage; use_armed].
  eapply (and_then_spec (fun l' => settled l' /\ installs l' []));
    [|intros l2 [Hs2 Hi2]; run_stage; use_armed].
  eapply (and_then_spec (fun l' => installs l' [])); [exact Hi|].
  intros l2 Hi2.
  destruct (parse_core_options l2) as [la | status loc la] eqn:Hp.
  - destruct (parse_core_options_settled _ _ Hp) as [Hs' Ht]. simpl.
    split; [assumption|]. unfold installs in *. rewrite Ht. assumption.
  - revert Hp. unfold parse_core_options.
    destruct (chassis_options_parse_cmdline _ _ _) as [e|[[o fe] rem]];
      [|discriminate].
    intros Hp. inversion Hp; subst. use_armed.
Qed.

Lemma init_plugins_armed w evs l :
  armed l -> installs l evs ->
  flow_spec (fun l' => armed l' /\ installs l' evs) (armed_exit evs) (init_plugins w l).
Proof.
  intros [Hf Hs] Hi.
  destruct (init_plugins w l) as [l' | status loc l'] eqn:H.
  - destruct (init_plugins_frame w l l' Hs H) as [E Hs']. simpl.
    split; [split; [congruence | assumption]|].
    revert H. unfold init_plugins.
    destruct (init_plugin_options _ _ _ _) as [e|[[o fe] rem]]; [discriminate|].
    intros H. inversion H; subst. exact Hi.
  - revert H. unfold init_plugins.
    destruct (init_plugin_options _ _ _ _) as [e|[[o fe] rem]]; [|discriminate].
    intros H. inversion H; subst. split; [exact Hi | intros _; exact Hf].
Qed.

Lemma parse_all_options_armed evs l :
  armed l -> installs l evs ->
  flow_spec (fun l' => armed l' /\ installs l' evs) (armed_exit evs) (parse_all_options l).
Proof.
  intros [Hf Hs] Hi.
  destruct (parse_all_options l) as [l' | status loc l'] eqn:H.
  - destruct (parse_all_options_frame l l' Hs H) as [E Hs']. simpl.
    split; [split; [congruence | assumption]|].
    revert H. unfold parse_all_options.
    destruct (chassis_options_parse_cmdline _ _ _) as [e|[[o fe] rem]]; [discriminate|].
    intros H. inversion H; subst. exact Hi.
  - revert H. unfold parse_all_options.
    destruct (chassis_options_parse_cmdline _ _ _) as [e|[[o fe] rem]]; [|discriminate].
    intros H. inversion H; subst.
    destruct (_ && _); (split; [exact Hi | intros _; exact Hf]).
Qed.

Lemma finish_options_armed w evs l :
  armed l -> installs l evs ->
  flow_spec (fun l' => armed l' /\ installs l' evs) (armed_exit evs) (finish_options w l).
Proof.
  intros Ha Hi. unfold finish_options.
  set (P := fun l' => armed l' /\ installs l' evs).
  eapply (and_then_spec P); [|intros l1 [X Y]; apply parse_all_options_armed; assumption].
  eapply (and_then_spec P); [|intros l1 Inv; subst P; run_stage; use_armed].
  eapply (and_then_spec P); [|intros l1 [X Y]; apply init_plugins_armed; assumption].
  split; assumption.
Qed.

Lemma bootstrap_armed cfg w l :
  HAVE_SIGACTION cfg = true ->
  installs l [] ->
  let evs := when (negb (RUNNING_ON_VALGRIND cfg w))
               (call (sigaction SIGSEGV sigsegv_handler_fn)) [] in
  flow_spec (fun l' => armed l' /\ installs l' evs)
    (fun status location l' =>
       armed_exit [] status location l' \/ armed_exit evs status location l')
    (bootstrap cfg w l).
Proof.
  intros Hsa Hi evs. unfold bootstrap.
  set (P := fun l' => armed l' /\ installs l' evs).
  assert (forall f, flow_spec P (armed_exit evs) f ->
                    flow_spec P (fun status location l' =>
                                   armed_exit [] status location l'
                                   \/ armed_exit evs status location l') f) as Hw
      by (intros f Hf; eapply flow_spec_weaken; [exact Hf | auto | intros; right; assumption]).
  do 4 (eapply (and_then_spec P);
        [| let l' := fresh "l" in let Inv := fresh "Inv" in
           intros l' Inv; apply Hw; subst P;
           chain (fun l' => armed l' /\ installs l' evs) use_armed]).
  eapply (and_then_spec P);
    [|intros l1 [X Y]; apply Hw, finish_options_armed; assumption].
  do 3 (eapply (and_then_spec P);
        [| let l' := fresh "l" in let Inv := fresh "Inv" in
           intros l' Inv; apply Hw; subst P;
           chain (fun l' => armed l' /\ installs l' evs) use_armed]).
  eapply (and_then_spec (fun l' => settled l' /\ installs l' [])).
  - eapply flow_spec_weaken;
      [exact (load_configuration_settles w l Hi) | auto | intros; left; assumption].
  - intros l1 [Hs H1]. rewrite register_sigsegv_interceptor_spec by exact Hsa.
    subst P. unfold flow_spec, armed, installs, settled, the_opts in *. simpl.
    split; [split; [reflexivity | exact Hs]|].
    unfold evs, when. destruct (negb _); simpl; rewrite H1; reflexivity.
Qed.

Lemma In_calls c evs : In c (calls evs) <-> In (call c) evs.
Proof.
  unfold calls. rewrite in_flat_map. split.
  - intros (e & He & Hc). destruct e; simpl in Hc; try contradiction.
    destruct Hc as [-> | []]. exact He.
  - intros H. exists (call c). split; [exact H | left; reflexivity].
Qed.

Lemma funnel_resets cfg w status loc f s e o slow t :
  HAVE_SIGACTION cfg = true ->
  invoke_dbg_on_crash f = 1 ->
  RUNNING_ON_VALGRIND cfg w = false ->
  In (call (sigaction SIGSEGV SIG_DFL))
     (events (exit_nicely cfg w status loc (Some f) s e o slow t)).
Proof.
  intros Hsa Hf Hv. unfold exit_nicely. cbn [events]. apply -> in_rev.
  unfold release_resouces_when_exit, reset_sigsegv_handler.
  rewrite Hsa, Hf, Hv. cbn [truthy Z.eqb negb andb when is_some].
  repeat match goal with
         | |- context [when ?c _ _] => destruct c; cbn [when]
         end; unfold g_debug; simpl; tauto.
Qed.

(** With [HAVE_SIGACTION]: a run that has installed the crash handler
    resets [SIGSEGV] to its default action in the funnel, by whatever way
    it leaves, so that the resources are never given back with the handler
    still in place. *)
Theorem installed_handler_is_reset cfg w :
  HAVE_SIGACTION cfg = true ->
  let cs := calls (events (main_cmdline cfg w)) in
  In (sigaction SIGSEGV sigsegv_handler_fn) cs ->
  In (sigaction SIGSEGV SIG_DFL) cs.
Proof.
  intros Hsa. cbv zeta. rewrite !In_calls. unfold main_cmdline.
  assert (forall status loc fe s e o slow,
             ~ In (call (sigaction SIGSEGV sigsegv_handler_fn))
                 (events (exit_nicely cfg w status loc fe s e o slow []))) as Hfun.
  { intros status loc fe s e o slow Hin.
    assert (In (call (sigaction SIGSEGV sigsegv_handler_fn))
              (filter is_sigsegv_install
                 (events (exit_nicely cfg w status loc fe s e o slow [])))) as X
        by (apply filter_In; split; [exact Hin | reflexivity]).
    rewrite funnel_installs in X. contradiction. }
  destruct (truthy (w_init_glib w)); [|destruct (w_chassis_new w) as [s|]];
    try (intros Hin; exfalso; exact (Hfun _ _ _ _ _ _ _ Hin)).
  pose proof (bootstrap_armed cfg w (initial_locals cfg w s) Hsa eq_refl) as H.
  cbv zeta in H. unfold finish.
  assert (forall status loc l,
             installs l (when (negb (RUNNING_ON_VALGRIND cfg w))
                           (call (sigaction SIGSEGV sigsegv_handler_fn)) []) ->
             invoke_dbg_on_crash (frontend l) = 1 ->
             In (call (sigaction SIGSEGV sigsegv_handler_fn))
                (events (exit_nicely cfg w status loc (Some (frontend l)) (Some (srv l))
                           (gerr l) (opts l) (slow_query_log_fp l) (tr l))) ->
             In (call (sigaction SIGSEGV SIG_DFL))
                (events (exit_nicely cfg w status loc (Some (frontend l)) (Some (srv l))
                           (gerr l) (opts l) (slow_query_log_fp l) (tr l)))) as Hgo.
  { intros status loc l Hi Hf Hin.
    apply funnel_resets; [exact Hsa | exact Hf |].
    destruct (RUNNING_ON_VALGRIND cfg w); [|reflexivity].
    exfalso. rewrite exit_nicely_events in Hin. apply in_app_or in Hin as [Hin | Hin].
    - apply in_rev in Hin.
      assert (In (call (sigaction SIGSEGV sigsegv_handler_fn))
                (filter is_sigsegv_install (tr l))) as X
          by (apply filter_In; split; [exact Hin | reflexivity]).
      unfold installs in Hi. rewrite Hi in X. exact X.
    - exact (Hfun _ _ _ _ _ _ _ Hin). }
  assert (forall status loc l,
             installs l [] ->
             ~ In (call (sigaction SIGSEGV sigsegv_handler_fn))
                 (events (exit_nicely cfg w status loc (Some (frontend l)) (Some (srv l))
                            (gerr l) (opts l) (slow_query_log_fp l) (tr l)))) as Hno.
  { intros status loc l Hi Hin.
    rewrite exit_nicely_events in Hin. apply in_app_or in Hin as [Hin | Hin].
    - apply in_rev in Hin.
      assert (In (call (sigaction SIGSEGV sigsegv_handler_fn))
                (filter is_sigsegv_install (tr l))) as X
          by (apply filter_In; split; [exact Hin | reflexivity]).
      unfold installs in Hi. rewrite Hi in X. exact X.
    - exact (Hfun _ _ _ _ _ _ _ Hin). }
  destruct (bootstrap cfg w (initial_locals cfg w s)) as [l | status loc l]; simpl in H.
  - destruct H as [[Hf _] Hi]. apply Hgo; assumption.
  - destruct H as [[Hi _] | [Hi Hf]].
    + intros Hin. exfalso. exact (Hno _ _ _ Hi Hin).
    + intros Hin.
      destruct (RUNNING_ON_VALGRIND cfg w) eqn:Hv.
      * exfalso. exact (Hno _ _ _ Hi Hin).
      * apply Hgo; [exact Hi | apply Hf; discriminate | exact Hin].
Qed.

Lemma installed_handler_is_reset_witness :
  In (sigaction SIGSEGV SIG_DFL)
     (calls (events (main_cmdline reference_build (sample_world [] None)))).
Proof.
  apply (installed_handler_is_reset reference_build (sample_world [] None) eq_refl).
  vm_compute. tauto.
Defined.

(** ** The XA log has a name *)

Lemma funnel_no_xa_log cfg w status loc fe s e o slow :
  filter is_xa_log_without_name
    (calls (events (exit_nicely cfg w status loc fe s e o slow []))) = [].
Proof.
  unfold exit_nicely. cbn [events]. rewrite calls_rev, filter_rev.
  unfold release_resouces_when_exit, reset_sigsegv_handler, shutdown_tag,
    g_message, g_debug.
  destruct fe as [f |]; cbn [is_some];
    repeat match goal with
           | |- context [when ?c _ _] => destruct c; cbn [when]
           end;
    try destruct (truthy (verbose_shutdown f)); reflexivity.
Qed.

Lemma bootstrap_xa_log cfg w l :
  filter is_xa_log_without_name (calls (tr l)) = [] ->
  flow_spec (fun l' => filter is_xa_log_without_name (calls (tr l')) = [])
    (fun _ _ l' => filter is_xa_log_without_name (calls (tr l')) = [])
    (bootstrap cfg w l).
Proof.
  intros H.
  chain (fun l' => filter is_xa_log_without_name (calls (tr l')) = [])
        ltac:(idtac; simpl_calls;
              repeat match goal with
                     | H : log_xa_filename _ = _ |- _ => rewrite H; clear H
                     end;
              simpl; try assumption; try congruence).
Qed.

(** [tc_log_init] is never called without a file name: when no XA log
    file is configured, lines 943-950 have put [logs/xa.log], or what
    [chassis_resolve_path] makes of it, in its place. *)
Theorem xa_log_has_a_name cfg w path ret :
  In (tc_log_init path ret) (calls (events (main_cmdline cfg w))) -> path <> None.
Proof.
  intros Hin ->.
  assert (In (tc_log_init None ret)
            (filter is_xa_log_without_name (calls (events (main_cmdline cfg w))))) as X
      by (apply filter_In; split; [exact Hin | reflexivity]).
  clear Hin. revert X. unfold main_cmdline.
  destruct (truthy (w_init_glib w)); [|destruct (w_chassis_new w) as [s|]];
    try (rewrite funnel_no_xa_log; contradiction).
  pose proof (bootstrap_xa_log cfg w (initial_locals cfg w s) eq_refl) as H.
  unfold finish.
  destruct (bootstrap cfg w (initial_locals cfg w s)) as [l | status loc l];
    simpl in H;
    rewrite exit_nicely_events, calls_app, calls_rev, filter_app, filter_rev, H,
      funnel_no_xa_log; contradiction.
Qed.

Lemma xa_log_has_a_name_witness :
  In (tc_log_init (Some "/usr/local/cetus/logs/xa.log") 0)
     (calls (events (main_cmdline reference_build
                       (sample_world serving_command_line None))))
  /\ Some "/usr/local/cetus/logs/xa.log" <> None.
Proof.
  assert (In (tc_log_init (Some "/usr/local/cetus/logs/xa.log") 0)
            (calls (events (main_cmdline reference_build
                              (sample_world serving_command_line None))))) as Hin
      by (vm_compute; tauto).
  split; [exact Hin|].
  exact (xa_log_has_a_name reference_build (sample_world serving_command_line None)
           _ _ Hin).
Defined.

(** ** The plugin list at the mode check *)

Lemma resolve_path_plugin_names w s fe :
  plugin_names (resolve_path w s fe) = plugin_names fe.
Proof.
  unfold resolve_path.
  repeat match goal with
         | |- context [match ?x with Some _ => _ | None => _ end] => destruct x
         end; reflexivity.
Qed.

Ltac use_named :=
  unfold plugins_named, settled, the_opts in *; simpl in *;
  rewrite ?resolve_path_plugin_names;
  first [ exact I | assumption | tauto | intuition congruence ].

Lemma load_configuration_settled w l :
  flow_spec settled (fun _ _ _ => True) (load_configuration w l).
Proof.
  unfold load_configuration, merge_sources.
  eapply (and_then_spec settled); [|intros l1 Hs; run_stage; use_named].
  eapply (and_then_spec (fun _ => True)); [pose proof I; chain (fun _ : locals => True) use_named|].
  intros l1 _. cbv beta.
  do 2 (eapply (and_then_spec settled); [|intros l2 Hs2; run_stage; use_named]).
  eapply (and_then_spec (fun _ => True)); [exact I|].
  intros l2 _.
  destruct (parse_core_options l2) as [la | status loc la] eqn:Hp; [|exact I].
  exact (proj1 (parse_core_options_settled _ _ Hp)).
Qed.

Lemma up_to_supervision_named cfg w l :
  flow_spec plugins_named (fun _ _ _ => True) (up_to_supervision cfg w l).
Proof.
  unfold up_to_supervision.
  do 3 (eapply (and_then_spec plugins_named);
        [| let l' := fresh "l" in let Inv := fresh "Inv" in
           intros l' Inv; chain plugins_named use_named]).
  eapply (and_then_spec plugins_named).
  2: { intros l1 [Hn Hs].
       destruct (finish_options w l1) as [l2 | status loc l2] eqn:H; [|exact I].
       destruct (finish_options_frame w l1 l2 Hs H) as [E Hs2].
       split; [simpl; rewrite E; exact Hn | exact Hs2]. }
  eapply (and_then_spec plugins_named);
    [| let l' := fresh "l" in let Inv := fresh "Inv" in
       intros l' Inv; chain plugins_named use_named].
  eapply (and_then_spec settled).
  2: { intros l1 Hs. unfold default_plugin_names.
       destruct (plugin_names (frontend l1)) eqn:E; simpl; unfold plugins_named;
         simpl; rewrite ?E; split; try reflexivity; exact Hs. }
  do 2 (eapply (and_then_spec settled);
        [| let l' := fresh "l" in let Inv := fresh "Inv" in
           intros l' Inv; chain settled use_named]).
  eapply (and_then_spec (fun _ => True)); [exact I|].
  intros l1 _. apply load_configuration_settled.
Qed.

(** When control comes to the plugin-mode check of line 931, the plugin
    list is not [NULL]: line 822 has put the default in the place of a
    missing list, and neither the passes over the command line that follow
    nor the stages up to the check take it away. *)
Theorem plugin_list_reaches_the_check cfg w l0 l :
  up_to_supervision cfg w l0 = Next l ->
  plugin_names (frontend l) <> None
  /\ forall lw l1, write_pidfile lw l = Next l1 -> plugin_names (frontend l1) <> None.
Proof.
  intros H. pose proof (up_to_supervision_named cfg w l0) as Hn.
  rewrite H in Hn. destruct Hn as [Hn _]. simpl in Hn.
  assert (plugin_names (frontend l) <> None) as Hne
      by (destruct (plugin_names (frontend l)); [discriminate | discriminate Hn]).
  split; [exact Hne|].
  intros lw l1. unfold write_pidfile.
  destruct (pid_file (frontend l)); [destruct (negb _)|];
    intros E; inversion E; subst; exact Hne.
Qed.

Lemma plugin_list_reaches_the_check_witness :
  exists l,
    up_to_supervision reference_build (sample_world [] None)
      (initial_locals reference_build (sample_world [] None) chassis_zero) = Next l
    /\ plugin_names (frontend l) <> None.
Proof.
  destruct (up_to_supervision reference_build (sample_world [] None)
              (initial_locals reference_build (sample_world [] None) chassis_zero))
    as [l|] eqn:H; [|vm_compute in H; discriminate].
  exists l. split; [reflexivity|].
  exact (proj1 (plugin_list_reaches_the_check _ _ _ _ H)).
Defined.


(** ** A run that is asked for the version *)

Lemma store_through_keeps {A} (obs : chassis_frontend_t -> A) a d v fe fe' :
  keeps obs d -> store_through a d v fe = Some fe' -> obs fe' = obs fe.
Proof.
  unfold store_through. destruct (value_fits a v); [|discriminate].
  destruct d, v; simpl; intros Hk H; inversion H; subst; auto.
Qed.

Lemma parse_args_keeps {A} (obs : chassis_frontend_t -> A) ign args :
  forall reg fe reg' fe' rem,
    (forall o, In o reg -> keeps obs (arg_data_of o)) ->
    parse_args ign args reg fe = inr (reg', fe', rem) ->
    obs fe' = obs fe
    /\ forall o, In o reg' -> keeps obs (arg_data_of o).
Proof.
  induction args as [|[n' v|s] args IH]; simpl; intros reg fe reg' fe' rem Hk H.
  - inversion H; subst. split; [reflexivity | assumption].
  - destruct (find_option n' reg) as [o|] eqn:Hf.
    + destruct (store o v fe) as [fe1|] eqn:Hs; [|discriminate].
      apply find_option_In in Hf as [Hin _].
      pose proof (store_through_keeps obs _ _ _ _ _ (Hk o Hin) Hs) as E.
      destruct (IH (mark_option n' reg) fe1 reg' fe' rem) as [E' Hk']; [|exact H|].
      * intros o' Hin'. apply mark_option_In in Hin' as (o0 & Hin0 & _ & _ & -> & _).
        apply Hk. exact Hin0.
      * split; [congruence | exact Hk'].
    + destruct ign; [|discriminate].
      destruct (parse_args true args reg fe) as [e|[[r f] rm]] eqn:Hp; [discriminate|].
      inversion H; subst; clear H. eapply IH; eassumption.
  - destruct (parse_args ign args reg fe) as [e|[[r f] rm]] eqn:Hp; [discriminate|].
    inversion H; subst; clear H. eapply IH; eassumption.
Qed.

Lemma settings_to_options_keeps {A} (obs : chassis_frontend_t -> A) entries config_entries :
  forall fe fe',
    (forall o, In o config_entries -> keeps obs (arg_data_of o)) ->
    settings_to_options entries config_entries fe = inr fe' ->
    obs fe' = obs fe.
Proof.
  induction config_entries as [|o rest IH]; simpl; intros fe fe' Hk H.
  - inversion H; subst. reflexivity.
  - destruct (set_on_cmdline o); [apply IH; auto|].
    destruct (key_file_get entries (long_name o)) as [v|]; [|apply IH; auto].
    destruct (store o v fe) as [fe1|] eqn:Hs; [|discriminate].
    rewrite (IH fe1 fe') by auto.
    eapply store_through_keeps; [|exact Hs]. apply Hk. now left.
Qed.

Lemma core_keeps_print_version o :
  In o core_options -> keeps print_version (arg_data_of o).
Proof.
  unfold core_options.
  cbv [chassis_frontend_set_chassis_options chassis_options_add chassis_options_new
       options set_options find_option find app long_name String.eqb Ascii.eqb Bool.eqb
       ignore_unknown help_enabled].
  intros H; repeat (destruct H as [<-|H]; [simpl; intros; reflexivity|]).
  contradiction.
Qed.

Lemma funnel_starts_nothing cfg w status loc fe s e o slow :
  filter is_start_up_call (calls (events (exit_nicely cfg w status loc fe s e o slow []))) = []
  /\ existsb is_plugin_versions_printed
       (calls (events (exit_nicely cfg w status loc fe s e o slow []))) = false.
Proof.
  unfold exit_nicely. cbn [events]. rewrite calls_rev, filter_rev, existsb_rev.
  unfold release_resouces_when_exit, reset_sigsegv_handler, shutdown_tag,
    g_message, g_debug.
  destruct fe as [f |]; cbn [is_some];
    repeat match goal with
           | |- context [when ?c _ _] => destruct c; cbn [when]
           end;
    try destruct (truthy (verbose_shutdown f)); split; reflexivity.
Qed.

Lemma resolve_path_print_version w s fe :
  print_version (resolve_path w s fe) = print_version fe.
Proof.
  unfold resolve_path.
  repeat match goal with
         | |- context [match ?x with Some _ => _ | None => _ end] => destruct x
         end; reflexivity.
Qed.

Ltac use_versions :=
  unfold versions_only, only_versions, only_versions_exit, settled, the_opts,
    EXIT_SUCCESS, EXIT_FAILURE in *;
  simpl in *; rewrite ?resolve_path_print_version;
  first [ assumption | tauto | intuition (first [congruence | discriminate]) ].

Lemma parse_core_options_versions l :
  only_versions l ->
  flow_spec (fun l' => versions_only l' /\ version_safe l') only_versions_exit
    (parse_core_options l).
Proof.
  intros (Hv & Hc & Hp).
  destruct (parse_core_options l) as [la | status loc la] eqn:H.
  - destruct (parse_core_options_settled _ _ H) as [Hs Ht].
    revert H. unfold parse_core_options, chassis_options_parse_cmdline.
    destruct core_options_parse as [-> ->].
    destruct (parse_args true _ core_options _) as [e|[[reg' fe'] rem]] eqn:Hpa;
      [discriminate|].
    intros H. inversion H; subst; clear H.
    destruct (parse_args_keeps print_version _ _ _ _ _ _ _ core_keeps_print_version Hpa)
      as [E Hk].
    simpl in *. split; [split; [|exact Hs]|exact Hk].
    unfold only_versions. simpl. rewrite E. repeat split; assumption.
  - revert H. unfold parse_core_options.
    destruct (chassis_options_parse_cmdline _ _ _) as [e|[[o fe] rem]];
      [|discriminate].
    intros H. inversion H; subst. use_versions.
Qed.

Lemma apply_keyfile_versions l :
  versions_only l -> version_safe l ->
  flow_spec (fun l' => versions_only l' /\ version_safe l') only_versions_exit
    (apply_keyfile l).
Proof.
  intros [(Hv & Hc & Hp) Hs] Hk. unfold apply_keyfile, chassis_keyfile_to_options_with_error.
  destruct (keyfile (frontend l)) as [kf|]; [|repeat split; assumption].
  destruct (key_file_group kf "cetus") as [entries|];
    [|repeat split; assumption].
  destruct (settings_to_options entries _ _) as [e|fe] eqn:H.
  - use_versions.
  - pose proof (settings_to_options_keeps print_version _ _ _ _ Hk H) as E.
    split; [split; [|exact Hs]|exact Hk].
    unfold only_versions. simpl. rewrite E. repeat split; assumption.
Qed.

Lemma apply_remote_config_versions w l :
  versions_only l -> version_safe l ->
  flow_spec versions_only only_versions_exit (apply_remote_config w l).
Proof.
  intros [(Hv & Hc & Hp) Hs] Hk. unfold apply_remote_config, chassis_config_parse_options.
  destruct (remote_config_url (frontend l)) as [url|]; [|repeat split; assumption].
  destruct (w_remote_settings w url) as [settings|]; [|use_versions].
  unfold the_opts in *. simpl.
  match goal with
  | |- context [settings_to_options ?s ?r ?f] =>
    destruct (settings_to_options s r f) as [e|fe] eqn:H
  end.
  - use_versions.
  - pose proof (settings_to_options_keeps print_version _ _ _ _ Hk H) as E.
    split; [|exact Hs].
    unfold only_versions. simpl. rewrite E. repeat split; assumption.
Qed.

Lemma finish_options_versions w l :
  versions_only l ->
  flow_spec (fun _ => False) only_versions_exit (finish_options w l).
Proof.
  intros [(Hv & Hc & Hp) Hs]. unfold finish_options.
  eapply (and_then_spec (fun _ => False)); [|intros ? []].
  eapply (and_then_spec versions_only).
  - simpl.
    destruct (init_plugins w l) as [l' | status loc l'] eqn:H.
    + destruct (init_plugins_frame w l l' Hs H) as [E Hs']. simpl.
      revert H. unfold init_plugins.
      destruct (init_plugin_options _ _ _ _) as [e|[[o fe] rem]]; [discriminate|].
      intros H. inversion H; subst. simpl in E. subst fe.
      split; [|exact Hs']. unfold only_versions. simpl. repeat split; assumption.
    + revert H. unfold init_plugins.
      destruct (init_plugin_options _ _ _ _) as [e|[[o fe] rem]]; [|discriminate].
      intros H. inversion H; subst. use_versions.
  - intros l1 [(Hv1 & Hc1 & Hp1) Hs1]. unfold print_plugin_versions. rewrite Hv1.
    unfold only_versions_exit. simpl. rewrite Hc1. split; [reflexivity|].
    split; reflexivity.
Qed.

Lemma bootstrap_versions cfg w s version file rest :
  w_init_base_options w (w_argv w) = inr (version, file, rest) ->
  version <> 0 ->
  flow_spec (fun _ => False) only_versions_exit
    (bootstrap cfg w (initial_locals cfg w s)).
Proof.
  intros Hb Hv. unfold bootstrap.
  do 4 (eapply (and_then_spec (fun _ => False)); [|intros ? []]).
  eapply (and_then_spec versions_only);
    [|intros l1 H1; apply finish_options_versions; exact H1].
  do 4 (eapply (and_then_spec versions_only);
        [| let l' := fresh "l" in let Inv := fresh "Inv" in
           intros l' Inv; chain versions_only use_versions]).
  unfold and_then at 1, load_configuration, merge_sources.
  eapply (and_then_spec versions_only);
    [|intros l1 H1; run_stage; use_versions].
  eapply (and_then_spec only_versions).
  2: { intros l1 H1. cbv beta.
       eapply (and_then_spec (fun l' => versions_only l' /\ version_safe l'));
         [|intros l2 [X Y]; apply apply_remote_config_versions; assumption].
       eapply (and_then_spec (fun l' => versions_only l' /\ version_safe l'));
         [|intros l2 [X Y]; apply apply_keyfile_versions; assumption].
       eapply (and_then_spec only_versions); [exact H1|].
       intros l2 H2. apply parse_core_options_versions. exact H2. }
  do 2 (eapply (and_then_spec only_versions);
        [| let l' := fresh "l" in let Inv := fresh "Inv" in
           intros l' Inv; run_stage; use_versions]).
  unfold and_then, parse_base_options.
  change (argv (initial_locals cfg w s)) with (w_argv w). rewrite Hb.
  unfold flow_spec, only_versions. simpl. repeat split.
  unfold truthy. apply negb_true_iff, Z.eqb_neq. exact Hv.
Qed.

(** When the first pass over the command line has found the version
    switch, [main_cmdline] starts nothing: it sets no signal action for
    [SIGPIPE], does not become a daemon, does not fork, and makes none of
    the calls of a process that serves; and it returns [EXIT_SUCCESS]
    exactly when it has come to print the plugin versions at line 856. *)
Theorem version_request_starts_nothing cfg w version file rest :
  w_init_base_options w (w_argv w) = inr (version, file, rest) ->
  version <> 0 ->
  let out := main_cmdline cfg w in
  filter is_start_up_call (calls (events out)) = []
  /\ (exit_code out = EXIT_SUCCESS <->
      In chassis_frontend_print_plugin_versions (calls (events out))).
Proof.
  intros Hb Hv. cbv zeta.
  assert (forall cs, existsb is_plugin_versions_printed cs = true
                     <-> In chassis_frontend_print_plugin_versions cs) as Hex.
  { intros cs. rewrite existsb_exists. split.
    - intros (c & Hin & Hc). destruct c; try discriminate Hc. exact Hin.
    - intros Hin. eexists. split; [exact Hin | reflexivity]. }
  rewrite <- Hex. unfold main_cmdline.
  destruct (truthy (w_init_glib w)); [|destruct (w_chassis_new w) as [s|]];
    try (destruct (funnel_starts_nothing cfg w EXIT_FAILURE 645 None None None None false)
           as [-> ->];
         split; [reflexivity | split; discriminate]);
    try (destruct (funnel_starts_nothing cfg w EXIT_FAILURE 656 None None None None false)
           as [-> ->];
         split; [reflexivity | split; discriminate]).
  pose proof (bootstrap_versions cfg w s version file rest Hb Hv) as H.
  unfold finish.
  destruct (bootstrap cfg w (initial_locals cfg w s)) as [l | status loc l];
    simpl in H; [contradiction|].
  destruct H as [Hc Hp].
  rewrite exit_nicely_events, calls_app, calls_rev, filter_app, filter_rev, existsb_app,
    existsb_rev, Hc.
  destruct (funnel_starts_nothing cfg w status loc (Some (frontend l)) (Some (srv l))
              (gerr l) (opts l) (slow_query_log_fp l)) as [-> ->].
  rewrite orb_false_r. split; [reflexivity | exact Hp].
Qed.

Lemma version_request_starts_nothing_witness :
  let out := main_cmdline reference_build version_world in
  filter is_start_up_call (calls (events out)) = []
  /\ (exit_code out = EXIT_SUCCESS <->
      In chassis_frontend_print_plugin_versions (calls (events out))).
Proof.
  apply (version_request_starts_nothing reference_build version_world 1 None []).
  - reflexivity.
  - discriminate.
Defined.

(** ** C6: from the sources to line 822 *)

















(** C6, the claim as it stands: a key file whose [plugins] key holds the
    empty list supplies no plugin name, yet the list is not [NULL] at line
    822, the default is not put in its place, and
    [chassis_frontend_load_plugins] is handed the empty list. *)
Lemma empty_plugin_list_is_kept :
  let w := sample_world [] (Some keyfile_without_plugins) in
  let out := main_cmdline reference_build w in
  w_argv w = []
  /\ key_file_group keyfile_without_plugins "cetus" = Some [("plugins", VStrings [])]
  /\ flat_map loaded_names (events out) = [[]]
  /\ option_map plugin_names (frontend_at_exit out) = Some (Some []).
Proof. vm_compute. repeat split. Qed.

(** ** C2: from the merge to the strict pass *)







(** [through_strict_pass] is the stretch of [bootstrap] between the
    version switch of line 701 and the test of line 883. *)
Lemma bootstrap_through_strict_pass cfg w l :
  bootstrap cfg w l
  = Next l >>> parse_base_options w >>> open_config_file w >>> print_main_version
    >>> through_strict_pass cfg w
    >>> reject_remaining_arguments >>> ignore_sigpipe_and_daemonize
    >>> supervise cfg w >>> serve cfg w (w_late w).
Proof.
  transitivity
    (Next l >>> parse_base_options w >>> open_config_file w >>> print_main_version
     >>> merge_sources w >>> init_basedir w >>> register_sigsegv_interceptor cfg w
     >>> start_service cfg w >>> default_plugin_names cfg >>> load_plugins w
     >>> finish_options w
     >>> reject_remaining_arguments >>> ignore_sigpipe_and_daemonize
     >>> supervise cfg w >>> serve cfg w (w_late w)); [reflexivity|].
  destruct (Next l >>> parse_base_options w >>> open_config_file w >>> print_main_version)
    as [l1 | status loc l1]; reflexivity.
Qed.



(** C2, the claim as it stands: the key file and the command line both
    name the log file; the merge leaves the command line's value, and
    [resolve_path] (line 563) then puts the path under the base directory
    in its place, so that the value after the strict pass is neither the
    one nor the other. *)
Lemma log_file_is_resolved_after_the_merge :
  let w := sample_world log_command_line (Some log_keyfile) in
  keyfile_value (frontend log_locals) "log-file"
  = Some (VString "/var/log/from-keyfile.log")
  /\ argv log_locals = [LongOpt "log-file" (VString "cetus.log")]
  /\ (exists l1,
         merge_sources w log_locals = Next l1
         /\ log_filename (frontend l1) = Some "cetus.log")
  /\ (exists l3,
         through_strict_pass reference_build w log_locals = Next l3
         /\ log_filename (frontend l3) = Some "/usr/local/cetus/cetus.log").
Proof.
  cbv zeta. split; [vm_compute; reflexivity|]. split; [vm_compute; reflexivity|].
  split; eexists; (split; [vm_compute; reflexivity | vm_compute; reflexivity]).
Qed.
